(** * Project::Tarot front end: the wizard controller and its four steps

    A shallow embedding of the state logic of the React components
    [App.tsx], [pages/Data.tsx], [pages/Preprocess.tsx],
    [pages/Train.tsx], [pages/Evaluate.tsx] and
    [components/ErrorDialog.tsx].

    Conventions of the embedding:
    - a [useState] cell is a record field, a [useReducer] reducer is a
      function from state and action to state;
    - JavaScript numbers that hold counts or epoch indices are [Z]; the
      real-valued ones (percentages, progress) are binary64 values, the
      primitive [float] of Rocq, with the arithmetic of IEEE 754;
    - a closure variable that is assigned after its creation
      ([let isCanceled = false]) is a cell of an explicit store, so that
      the closures over the same variable share it;
    - an effect of [useEffect] is a function run when its dependency
      changes, after the cleanup function its previous run returned;
    - the engine, the timers and the user are the environment: each of
      their moves is an event, and a component is a step function over
      events.

    The definitions come first, one module for each source file; the
    properties follow. *)

From Stdlib Require Import ZArith Lia Bool.
From Stdlib Require Uint63 FloatOps.
From Corelib Require Import PrimFloat.
From stdpp Require Import base list strings.

#[local] Open Scope Z_scope.

(** ** JavaScript helpers *)

Module Js.

(** Truthiness of a string: only the empty string is falsy. *)
Definition truthy_string (s : string) : bool :=
  negb (String.eqb s "").

(** An integer below 2^63 in magnitude as a number. *)
Definition of_Z (n : Z) : float :=
  match n with
  | Z0 => 0%float
  | Zpos _ => of_uint63 (Uint63.of_Z n)
  | Zneg _ => (- of_uint63 (Uint63.of_Z (- n)))%float
  end.

(** The integer nearest to the number of sign [s] and magnitude
    [m * 2^e], for [e < 0], ties towards +infinity: [floor (v + 1/2)],
    computed on the exact value. *)
Definition nearest (s : bool) (m : positive) (e : Z) : Z :=
  (2 * (if s then Z.neg m else Z.pos m) + 2 ^ (- e)) / 2 ^ (1 - e).

(** [Math.round]: a number that is not finite ([NaN], an infinity) and a
    zero are returned as they are; a finite one, of value [m * 2^e] with
    the sign [s], gives the nearest integer, ties towards +infinity, and
    the zero of its own sign when that integer is zero.  With [0 <= e] the
    number is an integer already.  With [e < 0] the integer is below 2^53
    in magnitude, so [of_Z] is exact. *)
Definition Math_round (v : float) : float :=
  match FloatOps.Prim2SF v with
  | SpecFloat.S754_finite s m e =>
      if 0 <=? e then v
      else
        let n := nearest s m e in
        if n =? 0 then (if s then (-0)%float else 0%float) else of_Z n
  | _ => v
  end.

(** The idiom [Math.round(v * 100) / 100], in binary64 arithmetic. *)
Definition roundHundredths (v : float) : float :=
  (Math_round (v * 100) / 100)%float.

(** Truthiness of a number: the two zeros and [NaN] are falsy. *)
Definition truthy_number (v : float) : bool :=
  negb (is_zero v || is_nan v).

(** [a || b] on an optional string, as in [selectedTab || undefined]. *)
Definition or_undefined (s : string) : option string :=
  if truthy_string s then Some s else None.

(** The values that meet in a chain of [&&]: booleans and strings. *)
Inductive JsVal :=
| JBool (b : bool)
| JString (s : string).

Definition truthy (v : JsVal) : bool :=
  match v with
  | JBool b => b
  | JString s => truthy_string s
  end.

(** [a && b] gives [a] when [a] is falsy, and [b] otherwise. *)
Definition and_ (a b : JsVal) : JsVal := if truthy a then b else a.

End Js.

(** ** pages/Train.tsx: the confidence graph *)

Module Train.

Record Point := { x : Z; y : float }.

Inductive ConfidenceGraphAction :=
| ActSet (value : list Point)
| ActAdd (value : Point)
| ActClear.

Definition origin : Point := {| x := 0; y := 0 |}.

(** The initial state given to [useReducer]. *)
Definition initialPoints : list Point := [origin].

(** The reducer.  [case 'set'] falls through to [case 'clear'] when the
    snapshot is empty. *)
Definition modifyConfidenceGraph
    (state : list Point) (action : ConfidenceGraphAction) : list Point :=
  let case_clear := [origin] in
  match action with
  | ActAdd value =>
      if (length state =? 1)%nat
         && match state !! 0%nat with Some p => x p =? 0 | None => false end
         && (x value =? 0)
      then [value]
      else state ++ [value]
  | ActSet value =>
      if (0 <? length value)%nat then value else case_clear
  | ActClear => case_clear
  end.

Definition setSnapshot (points : list Point) (state : list Point) :=
  modifyConfidenceGraph state (ActSet points).
Definition appendPoint (p : Point) (state : list Point) :=
  modifyConfidenceGraph state (ActAdd p).
Definition clear (state : list Point) :=
  modifyConfidenceGraph state ActClear.

(** The reducer run over a sequence of dispatched actions. *)
Definition run (actions : list ConfidenceGraphAction) (state : list Point) :=
  fold_left modifyConfidenceGraph actions state.

(** [confidencePoints[confidencePoints.length - 1]]: indexing with -1 on
    the empty array gives [undefined]. *)
Definition lastPoint (state : list Point) : option Point :=
  match length state with
  | O => None
  | S n => state !! n
  end.

(** [latestConfidence]: the [y] of the last point, rounded, or 0 for an
    empty array.  This is the value the [useMemo] callback computes when
    it runs; the memo is keyed on [confidencePoints.length]. *)
Definition latestConfidence (state : list Point) : float :=
  if (0 <? length state)%nat
  then Js.roundHundredths
         (match lastPoint state with Some p => y p | None => 0%float end)
  else 0%float.

(** The restart rule's condition, as a proposition. *)
Definition restarts (state : list Point) (p : Point) : Prop :=
  exists q, state = [q] /\ x q = 0 /\ x p = 0.

End Train.

(** ** App.tsx: the wizard controller and its notification queue *)

Module App.

Record ErrorInfo := { title : string; message : string }.

Inductive ErrorAction :=
| ActAdd (value : ErrorInfo)
| ActRemove.

(** The reducer of [allErrorInfo], run once for each dispatched action.
    ['remove'] is [state.shift()] followed by a copy: the oldest entry
    goes, and shifting an empty array leaves it empty. *)
Definition modifyErrorInfo
    (state : list ErrorInfo) (action : ErrorAction) : list ErrorInfo :=
  match action with
  | ActAdd value =>
      if (10 <=? length state)%nat then state else state ++ [value]
  | ActRemove => tail state
  end.

Definition push (n : ErrorInfo) (queue : list ErrorInfo) :=
  modifyErrorInfo queue (ActAdd n).
Definition popFront (queue : list ErrorInfo) :=
  modifyErrorInfo queue ActRemove.
Definition peekFront (queue : list ErrorInfo) : option ErrorInfo :=
  queue !! 0%nat.

Definition pushAll (ns : list ErrorInfo) (queue : list ErrorInfo) :=
  fold_left (fun q n => push n q) ns queue.

Definition runQueue (actions : list ErrorAction) (queue : list ErrorInfo) :=
  fold_left modifyErrorInfo actions queue.

(** The component.  [updateQueue] holds the actions given to the reducer's
    dispatch function since the last render: React (18 and later) runs a
    reducer while it renders, not inside [dispatch], so a handler that
    dispatches and then reads [allErrorInfo] reads the array of the render
    it was created in, before [shift] has touched it.
    [windowClosed] records the call of [currentWindow.close()]. *)
Record State := {
  pageIndex : Z;
  isPanic : bool;
  allErrorInfo : list ErrorInfo;
  updateQueue : list ErrorAction;
  windowClosed : bool
}.

Definition initial : State :=
  {| pageIndex := 0; isPanic := false; allErrorInfo := [];
     updateQueue := []; windowClosed := false |}.

Definition setPageIndex (v : Z) (s : State) : State :=
  {| pageIndex := v; isPanic := isPanic s; allErrorInfo := allErrorInfo s;
     updateQueue := updateQueue s; windowClosed := windowClosed s |}.

Definition setPanic (v : bool) (s : State) : State :=
  {| pageIndex := pageIndex s; isPanic := v; allErrorInfo := allErrorInfo s;
     updateQueue := updateQueue s; windowClosed := windowClosed s |}.

Definition dispatch (a : ErrorAction) (s : State) : State :=
  {| pageIndex := pageIndex s; isPanic := isPanic s;
     allErrorInfo := allErrorInfo s;
     updateQueue := updateQueue s ++ [a]; windowClosed := windowClosed s |}.

Definition closeWindow (s : State) : State :=
  {| pageIndex := pageIndex s; isPanic := isPanic s;
     allErrorInfo := allErrorInfo s;
     updateQueue := updateQueue s; windowClosed := true |}.

(** A render applies the queued actions in dispatch order. *)
Definition render (s : State) : State :=
  {| pageIndex := pageIndex s; isPanic := isPanic s;
     allErrorInfo := runQueue (updateQueue s) (allErrorInfo s);
     updateQueue := []; windowClosed := windowClosed s |}.

Definition handleCloseDialog (s : State) : State :=
  let s1 := dispatch ActRemove s in
  if isPanic s1 && (length (allErrorInfo s1) <=? 1)%nat
  then closeWindow s1
  else s1.

(** What the environment does to the mounted component. *)
Inductive Event :=
| PageMove (payload : Z)
| DialogError (payload : ErrorInfo)
| CorePanic
| CloseDialog.

Definition handle (ev : Event) (s : State) : State :=
  match ev with
  | PageMove payload => setPageIndex payload s
  | DialogError payload => dispatch (ActAdd payload) s
  | CorePanic => setPanic true s
  | CloseDialog => handleCloseDialog s
  end.

Definition step (s : State) (ev : Event) : State := render (handle ev s).

Definition acknowledgeNotification (s : State) : State := step s CloseDialog.

(** Step [index] is active when it is the current page. *)
Definition stepEnabled (s : State) (index : Z) : bool := pageIndex s =? index.

Definition run (events : list Event) (s : State) : State :=
  fold_left step events s.

(** The user acknowledges [k] notifications in a row. *)
Definition acknowledgeTimes (k : nat) (s : State) : State :=
  Nat.iter k acknowledgeNotification s.

(** The pages, by position: Data, Preprocess, Train, Evaluate. *)
Definition pages : list nat := seq 0 4.

(** The props a page gets: [tabIndex] is [undefined] for the current page
    and -1 for the others. *)
Definition tabIndexProp (s : State) (index : nat) : option Z :=
  if stepEnabled s (Z.of_nat index) then None else Some (-1).

(** [pageDisabled], as each page computes it:
    [typeof props.tabIndex === 'number' && props.tabIndex < 0]. *)
Definition pageDisabledOf (tabIndex : option Z) : bool :=
  match tabIndex with
  | Some t => t <? 0
  | None => false
  end.

Definition enabledPages (s : State) : list nat :=
  List.filter (fun index => negb (pageDisabledOf (tabIndexProp s index))) pages.


End App.

(** ** pages/Preprocess.tsx *)

Module Preprocess.

Inductive ColumnType := TString | TNumber | TDateTime | TBoolean.

Record ColumnInfo := {
  field : string;
  headerName : string;
  col_type : ColumnType
}.

(** A cell of a row: [string | number | Date | boolean]. *)
Inductive CellValue :=
| VString (s : string)
| VNumber (n : float)
| VDate (iso : string)
| VBoolean (b : bool).

(** [Record<string, ...>]: the keys in insertion order. *)
Definition RowInfo : Type := list (string * CellValue).

Inductive BatchPeriode :=
  Minutely | Hourly | Daily | Weekly | Monthly | Yearly.

Inductive SelectionType := include | exclude.

Record RowSelection := {
  sel_type : SelectionType;
  ids : list Z
}.

Record SheetInfo := {
  tabName : option string;
  sheet_columns : list ColumnInfo;
  sheet_rows : list RowInfo;
  sheet_allowedBatchPeriodes : list BatchPeriode;
  selectedDatetimeColumn : string;
  selectedPredictableColumn : string;
  sheet_selectedBatchPeriode : BatchPeriode;
  sheet_rowSelection : RowSelection
}.

Record DataInfo := {
  data_name : string;
  data_tabs : option (list string);
  sheetInfo : SheetInfo
}.

Record PreprocessConfig := {
  cfg_tabName : option string;
  datetimeColumn : string;
  predictableColumn : string;
  batchPeriode : BatchPeriode;
  cfg_rowSelection : RowSelection
}.

(** *** The engine as seen from the page *)

Inductive Command :=
| get_data_info
| select_sheet (tab : string)
| submit_preprocess_config (config : PreprocessConfig)
| start_train
| restart.

Inductive Payload :=
| PDataInfo (value : DataInfo)
| PSheetInfo (value : SheetInfo)
| PVoid.

Inductive Outcome :=
| Fulfilled (value : Payload)
| Rejected.

(** *** Closures *)

(** The variables of one closure environment.  The activation effect
    declares [isCanceled] and [timeoutHandler] ([None] is [NaN]);
    [handleSelectTab] declares [isCanceled] only. *)
Record Frame := {
  isCanceled : bool;
  timeoutHandler : option nat
}.

(** A call of [invoke] whose promise is pending, with the environment
    its callbacks close over. *)
Record Request := {
  req_id : nat;
  req_command : Command;
  req_frame : option nat
}.

(** *** The component *)

Record State := {
  (* props *)
  pageDisabled : bool;
  (* useState *)
  isLoading : bool;
  isSubmitting : bool;
  name : string;
  tabs : list string;
  columns : list ColumnInfo;
  rows : list RowInfo;
  allowedBatchPeriodes : list BatchPeriode;
  selectedTab : string;
  selectedDatetime : string;
  selectedPredictable : string;
  selectedBatchPeriode : option BatchPeriode;
  rowSelection : RowSelection;
  (* the JavaScript side *)
  frames : list Frame;
  effectCleanup : option nat;
  timers : list (nat * nat);
  nextTimer : nat;
  inflight : list Request;
  nextRequest : nat
}.

(** The values given to [useState], before the first effect runs. *)
Definition initial (disabled : bool) : State :=
  {| pageDisabled := disabled;
     isLoading := false; isSubmitting := false; name := ""; tabs := [];
     columns := []; rows := []; allowedBatchPeriodes := [];
     selectedTab := ""; selectedDatetime := ""; selectedPredictable := "";
     selectedBatchPeriode := None;
     rowSelection := {| sel_type := exclude; ids := [] |};
     frames := []; effectCleanup := None; timers := []; nextTimer := 0;
     inflight := []; nextRequest := 0 |}.

Definition setPageDisabledProp (v : bool) (s : State) : State :=
  {| pageDisabled := v;
     isLoading := isLoading s; isSubmitting := isSubmitting s;
     name := name s; tabs := tabs s; columns := columns s; rows := rows s;
     allowedBatchPeriodes := allowedBatchPeriodes s;
     selectedTab := selectedTab s; selectedDatetime := selectedDatetime s;
     selectedPredictable := selectedPredictable s;
     selectedBatchPeriode := selectedBatchPeriode s;
     rowSelection := rowSelection s;
     frames := frames s; effectCleanup := effectCleanup s;
     timers := timers s; nextTimer := nextTimer s;
     inflight := inflight s; nextRequest := nextRequest s |}.

Definition setLoading (v : bool) (s : State) : State :=
  {| pageDisabled := pageDisabled s;
     isLoading := v; isSubmitting := isSubmitting s;
     name := name s; tabs := tabs s; columns := columns s; rows := rows s;
     allowedBatchPeriodes := allowedBatchPeriodes s;
     selectedTab := selectedTab s; selectedDatetime := selectedDatetime s;
     selectedPredictable := selectedPredictable s;
     selectedBatchPeriode := selectedBatchPeriode s;
     rowSelection := rowSelection s;
     frames := frames s; effectCleanup := effectCleanup s;
     timers := timers s; nextTimer := nextTimer s;
     inflight := inflight s; nextRequest := nextRequest s |}.

Definition setSubmitting (v : bool) (s : State) : State :=
  {| pageDisabled := pageDisabled s;
     isLoading := isLoading s; isSubmitting := v;
     name := name s; tabs := tabs s; columns := columns s; rows := rows s;
     allowedBatchPeriodes := allowedBatchPeriodes s;
     selectedTab := selectedTab s; selectedDatetime := selectedDatetime s;
     selectedPredictable := selectedPredictable s;
     selectedBatchPeriode := selectedBatchPeriode s;
     rowSelection := rowSelection s;
     frames := frames s; effectCleanup := effectCleanup s;
     timers := timers s; nextTimer := nextTimer s;
     inflight := inflight s; nextRequest := nextRequest s |}.

Definition setName (v : string) (s : State) : State :=
  {| pageDisabled := pageDisabled s;
     isLoading := isLoading s; isSubmitting := isSubmitting s;
     name := v; tabs := tabs s; columns := columns s; rows := rows s;
     allowedBatchPeriodes := allowedBatchPeriodes s;
     selectedTab := selectedTab s; selectedDatetime := selectedDatetime s;
     selectedPredictable := selectedPredictable s;
     selectedBatchPeriode := selectedBatchPeriode s;
     rowSelection := rowSelection s;
     frames := frames s; effectCleanup := effectCleanup s;
     timers := timers s; nextTimer := nextTimer s;
     inflight := inflight s; nextRequest := nextRequest s |}.

Definition setTabs (v : list string) (s : State) : State :=
  {| pageDisabled := pageDisabled s;
     isLoading := isLoading s; isSubmitting := isSubmitting s;
     name := name s; tabs := v; columns := columns s; rows := rows s;
     allowedBatchPeriodes := allowedBatchPeriodes s;
     selectedTab := selectedTab s; selectedDatetime := selectedDatetime s;
     selectedPredictable := selectedPredictable s;
     selectedBatchPeriode := selectedBatchPeriode s;
     rowSelection := rowSelection s;
     frames := frames s; effectCleanup := effectCleanup s;
     timers := timers s; nextTimer := nextTimer s;
     inflight := inflight s; nextRequest := nextRequest s |}.

Definition setColumns (v : list ColumnInfo) (s : State) : State :=
  {| pageDisabled := pageDisabled s;
     isLoading := isLoading s; isSubmitting := isSubmitting s;
     name := name s; tabs := tabs s; columns := v; rows := rows s;
     allowedBatchPeriodes := allowedBatchPeriodes s;
     selectedTab := selectedTab s; selectedDatetime := selectedDatetime s;
     selectedPredictable := selectedPredictable s;
     selectedBatchPeriode := selectedBatchPeriode s;
     rowSelection := rowSelection s;
     frames := frames s; effectCleanup := effectCleanup s;
     timers := timers s; nextTimer := nextTimer s;
     inflight := inflight s; nextRequest := nextRequest s |}.

Definition setRows (v : list RowInfo) (s : State) : State :=
  {| pageDisabled := pageDisabled s;
     isLoading := isLoading s; isSubmitting := isSubmitting s;
     name := name s; tabs := tabs s; columns := columns s; rows := v;
     allowedBatchPeriodes := allowedBatchPeriodes s;
     selectedTab := selectedTab s; selectedDatetime := selectedDatetime s;
     selectedPredictable := selectedPredictable s;
     selectedBatchPeriode := selectedBatchPeriode s;
     rowSelection := rowSelection s;
     frames := frames s; effectCleanup := effectCleanup s;
     timers := timers s; nextTimer := nextTimer s;
     inflight := inflight s; nextRequest := nextRequest s |}.

Definition setAllowedBatchPeriodes (v : list BatchPeriode) (s : State) : State :=
  {| pageDisabled := pageDisabled s;
     isLoading := isLoading s; isSubmitting := isSubmitting s;
     name := name s; tabs := tabs s; columns := columns s; rows := rows s;
     allowedBatchPeriodes := v;
     selectedTab := selectedTab s; selectedDatetime := selectedDatetime s;
     selectedPredictable := selectedPredictable s;
     selectedBatchPeriode := selectedBatchPeriode s;
     rowSelection := rowSelection s;
     frames := frames s; effectCleanup := effectCleanup s;
     timers := timers s; nextTimer := nextTimer s;
     inflight := inflight s; nextRequest := nextRequest s |}.

Definition setSelectedTab (v : string) (s : State) : State :=
  {| pageDisabled := pageDisabled s;
     isLoading := isLoading s; isSubmitting := isSubmitting s;
     name := name s; tabs := tabs s; columns := columns s; rows := rows s;
     allowedBatchPeriodes := allowedBatchPeriodes s;
     selectedTab := v; selectedDatetime := selectedDatetime s;
     selectedPredictable := selectedPredictable s;
     selectedBatchPeriode := selectedBatchPeriode s;
     rowSelection := rowSelection s;
     frames := frames s; effectCleanup := effectCleanup s;
     timers := timers s; nextTimer := nextTimer s;
     inflight := inflight s; nextRequest := nextRequest s |}.

Definition setSelectedDatetime (v : string) (s : State) : State :=
  {| pageDisabled := pageDisabled s;
     isLoading := isLoading s; isSubmitting := isSubmitting s;
     name := name s; tabs := tabs s; columns := columns s; rows := rows s;
     allowedBatchPeriodes := allowedBatchPeriodes s;
     selectedTab := selectedTab s; selectedDatetime := v;
     selectedPredictable := selectedPredictable s;
     selectedBatchPeriode := selectedBatchPeriode s;
     rowSelection := rowSelection s;
     frames := frames s; effectCleanup := effectCleanup s;
     timers := timers s; nextTimer := nextTimer s;
     inflight := inflight s; nextRequest := nextRequest s |}.

Definition setSelectedPredictable (v : string) (s : State) : State :=
  {| pageDisabled := pageDisabled s;
     isLoading := isLoading s; isSubmitting := isSubmitting s;
     name := name s; tabs := tabs s; columns := columns s; rows := rows s;
     allowedBatchPeriodes := allowedBatchPeriodes s;
     selectedTab := selectedTab s; selectedDatetime := selectedDatetime s;
     selectedPredictable := v;
     selectedBatchPeriode := selectedBatchPeriode s;
     rowSelection := rowSelection s;
     frames := frames s; effectCleanup := effectCleanup s;
     timers := timers s; nextTimer := nextTimer s;
     inflight := inflight s; nextRequest := nextRequest s |}.

Definition setSelectedBatchPeriode (v : option BatchPeriode) (s : State) : State :=
  {| pageDisabled := pageDisabled s;
     isLoading := isLoading s; isSubmitting := isSubmitting s;
     name := name s; tabs := tabs s; columns := columns s; rows := rows s;
     allowedBatchPeriodes := allowedBatchPeriodes s;
     selectedTab := selectedTab s; selectedDatetime := selectedDatetime s;
     selectedPredictable := selectedPredictable s;
     selectedBatchPeriode := v;
     rowSelection := rowSelection s;
     frames := frames s; effectCleanup := effectCleanup s;
     timers := timers s; nextTimer := nextTimer s;
     inflight := inflight s; nextRequest := nextRequest s |}.

Definition setRowSelection (v : RowSelection) (s : State) : State :=
  {| pageDisabled := pageDisabled s;
     isLoading := isLoading s; isSubmitting := isSubmitting s;
     name := name s; tabs := tabs s; columns := columns s; rows := rows s;
     allowedBatchPeriodes := allowedBatchPeriodes s;
     selectedTab := selectedTab s; selectedDatetime := selectedDatetime s;
     selectedPredictable := selectedPredictable s;
     selectedBatchPeriode := selectedBatchPeriode s;
     rowSelection := v;
     frames := frames s; effectCleanup := effectCleanup s;
     timers := timers s; nextTimer := nextTimer s;
     inflight := inflight s; nextRequest := nextRequest s |}.

Definition setFrames (v : list Frame) (s : State) : State :=
  {| pageDisabled := pageDisabled s;
     isLoading := isLoading s; isSubmitting := isSubmitting s;
     name := name s; tabs := tabs s; columns := columns s; rows := rows s;
     allowedBatchPeriodes := allowedBatchPeriodes s;
     selectedTab := selectedTab s; selectedDatetime := selectedDatetime s;
     selectedPredictable := selectedPredictable s;
     selectedBatchPeriode := selectedBatchPeriode s;
     rowSelection := rowSelection s;
     frames := v; effectCleanup := effectCleanup s;
     timers := timers s; nextTimer := nextTimer s;
     inflight := inflight s; nextRequest := nextRequest s |}.

Definition setEffectCleanup (v : option nat) (s : State) : State :=
  {| pageDisabled := pageDisabled s;
     isLoading := isLoading s; isSubmitting := isSubmitting s;
     name := name s; tabs := tabs s; columns := columns s; rows := rows s;
     allowedBatchPeriodes := allowedBatchPeriodes s;
     selectedTab := selectedTab s; selectedDatetime := selectedDatetime s;
     selectedPredictable := selectedPredictable s;
     selectedBatchPeriode := selectedBatchPeriode s;
     rowSelection := rowSelection s;
     frames := frames s; effectCleanup := v;
     timers := timers s; nextTimer := nextTimer s;
     inflight := inflight s; nextRequest := nextRequest s |}.

Definition setTimers (v : list (nat * nat)) (n : nat) (s : State) : State :=
  {| pageDisabled := pageDisabled s;
     isLoading := isLoading s; isSubmitting := isSubmitting s;
     name := name s; tabs := tabs s; columns := columns s; rows := rows s;
     allowedBatchPeriodes := allowedBatchPeriodes s;
     selectedTab := selectedTab s; selectedDatetime := selectedDatetime s;
     selectedPredictable := selectedPredictable s;
     selectedBatchPeriode := selectedBatchPeriode s;
     rowSelection := rowSelection s;
     frames := frames s; effectCleanup := effectCleanup s;
     timers := v; nextTimer := n;
     inflight := inflight s; nextRequest := nextRequest s |}.

Definition setInflight (v : list Request) (n : nat) (s : State) : State :=
  {| pageDisabled := pageDisabled s;
     isLoading := isLoading s; isSubmitting := isSubmitting s;
     name := name s; tabs := tabs s; columns := columns s; rows := rows s;
     allowedBatchPeriodes := allowedBatchPeriodes s;
     selectedTab := selectedTab s; selectedDatetime := selectedDatetime s;
     selectedPredictable := selectedPredictable s;
     selectedBatchPeriode := selectedBatchPeriode s;
     rowSelection := rowSelection s;
     frames := frames s; effectCleanup := effectCleanup s;
     timers := timers s; nextTimer := nextTimer s;
     inflight := v; nextRequest := n |}.

(** *** Derived values *)

Definition disabled (s : State) : bool :=
  pageDisabled s || isLoading s || isSubmitting s.

Definition periodeString (p : BatchPeriode) : string :=
  match p with
  | Minutely => "Minutely" | Hourly => "Hourly" | Daily => "Daily"
  | Weekly => "Weekly" | Monthly => "Monthly" | Yearly => "Yearly"
  end.

(** The state cell has type [BatchPeriode | '']. *)
Definition periodeValue (o : option BatchPeriode) : string :=
  match o with
  | Some p => periodeString p
  | None => ""
  end.

Definition isInclude (t : SelectionType) : bool :=
  match t with include => true | exclude => false end.
Definition isExclude (t : SelectionType) : bool :=
  match t with include => false | exclude => true end.

Definition allowSubmit (s : State) : Js.JsVal :=
  Js.and_
    (Js.and_
      (Js.and_
        (Js.and_ (Js.JBool (negb (disabled s)))
                 (Js.JString (selectedDatetime s)))
        (Js.JString (selectedPredictable s)))
      (Js.JString (periodeValue (selectedBatchPeriode s))))
    (Js.JBool
       ((isInclude (sel_type (rowSelection s))
           && negb (length (ids (rowSelection s)) =? 0)%nat)
        || (isExclude (sel_type (rowSelection s))
           && negb (length (ids (rowSelection s)) =? length (rows s))%nat))).

(** *** [invoke], [setTimeout] and the closure store *)

Definition invoke (c : Command) (frame : option nat) (s : State) : State :=
  setInflight
    (inflight s ++
       [{| req_id := nextRequest s; req_command := c; req_frame := frame |}])
    (S (nextRequest s)) s.

Definition findRequest (id : nat) (s : State) : option Request :=
  List.find (fun r => (req_id r =? id)%nat) (inflight s).

Definition dropRequest (id : nat) (s : State) : State :=
  setInflight
    (List.filter (fun r => negb (req_id r =? id)%nat) (inflight s))
    (nextRequest s) s.

(** [let ... = ...] in a function body: a fresh environment. *)
Definition newFrame (fr : Frame) (s : State) : State :=
  setFrames (frames s ++ [fr]) s.

Definition frameCanceled (frame : option nat) (s : State) : bool :=
  match frame with
  | Some f =>
      match frames s !! f with
      | Some fr => isCanceled fr
      | None => false
      end
  | None => false
  end.

(** [isCanceled = true] in one environment. *)
Definition cancel (fr : Frame) : Frame :=
  {| isCanceled := true; timeoutHandler := timeoutHandler fr |}.

Definition cancelFrame (f : nat) (s : State) : State :=
  setFrames (alter cancel f (frames s)) s.

Definition setTimeoutHandler (f : nat) (h : option nat) (s : State) : State :=
  setFrames
    (alter (fun fr => {| isCanceled := isCanceled fr;
                         timeoutHandler := h |}) f (frames s))
    s.

Definition clearTimeout (h : nat) (s : State) : State :=
  setTimers (List.filter (fun t => negb (t.1 =? h)%nat) (timers s))
            (nextTimer s) s.

(** *** [changeSheetInfo] *)

Definition isDateTime (t : ColumnType) : bool :=
  match t with TDateTime => true | _ => false end.
Definition isNumber (t : ColumnType) : bool :=
  match t with TNumber => true | _ => false end.

Definition datetimeFields (cols : list ColumnInfo) : list string :=
  map field (List.filter (fun c => isDateTime (col_type c)) cols).

(** [{ ...each, ...overrideObj }]: the string cells of the date-time
    columns become [Date]s, every key keeps its place. *)
Definition convertRow (cols : list ColumnInfo) (each : RowInfo) : RowInfo :=
  map (fun kv =>
         if bool_decide (kv.1 ∈ datetimeFields cols)
         then match kv.2 with
              | VString iso => (kv.1, VDate iso)
              | _ => kv
              end
         else kv)
      each.

Definition changeSheetInfo (si : SheetInfo) (s : State) : State :=
  let s := setColumns (sheet_columns si) s in
  let s := setRows (map (convertRow (sheet_columns si)) (sheet_rows si)) s in
  let s := setAllowedBatchPeriodes (sheet_allowedBatchPeriodes si) s in
  let s := setSelectedTab (default "" (tabName si)) s in
  let s := setSelectedDatetime (selectedDatetimeColumn si) s in
  let s := setSelectedPredictable (selectedPredictableColumn si) s in
  let s := setSelectedBatchPeriode (Some (sheet_selectedBatchPeriode si)) s in
  setRowSelection (sheet_rowSelection si) s.

(** The column selectors. *)
Definition datetimeSelections (s : State) : list ColumnInfo :=
  if disabled s then []
  else List.filter (fun c => isDateTime (col_type c)) (columns s).
Definition predictableSelections (s : State) : list ColumnInfo :=
  if disabled s then []
  else List.filter (fun c => isNumber (col_type c)) (columns s).

(** *** The activation effect, with dependency [pageDisabled] *)

Definition activationEffect (s : State) : State :=
  let s := setLoading true s in
  let s := setName "" s in
  let s := setTabs [] s in
  let s := setColumns [] s in
  let s := setRows [] s in
  if pageDisabled s then setEffectCleanup None s
  else
    let f := length (frames s) in
    let h := nextTimer s in
    let s := newFrame {| isCanceled := false; timeoutHandler := Some h |} s in
    let s := setTimers (timers s ++ [(h, f)]) (S h) s in
    setEffectCleanup (Some f) s.

(** The function the effect returned, closed over environment [f]. *)
Definition runCleanup (f : nat) (s : State) : State :=
  let s := cancelFrame f s in
  match frames s !! f with
  | Some {| timeoutHandler := Some h |} => clearTimeout h s
  | _ => s
  end.

(** The [tabIndex] prop changes: React runs the cleanup of the last run
    of the effect, then the effect; nothing happens when the dependency
    is unchanged. *)
Definition setPageDisabled (v : bool) (s : State) : State :=
  if eqb v (pageDisabled s) then s
  else
    let s := match effectCleanup s with
             | Some f => runCleanup f s
             | None => s
             end in
    activationEffect (setPageDisabledProp v s).

Definition mount (v : bool) : State := activationEffect (initial v).

(** The timer of the effect fires: the promise resolves and its [then]
    callback runs. *)
Definition timeoutFires (h : nat) (s : State) : State :=
  match List.find (fun t => (t.1 =? h)%nat) (timers s) with
  | None => s
  | Some (_, f) =>
      let s := clearTimeout h s in
      if frameCanceled (Some f) s then s
      else
        let s := setTimeoutHandler f None s in
        invoke get_data_info (Some f) s
  end.

(** *** Handlers *)

(** [handleSelectTab] returns a function that would set [isCanceled]; the
    second component is the environment that function closes over. *)
Definition handleSelectTab (value : string) (s : State)
  : State * option nat :=
  if disabled s then (s, None)
  else
    let s := setSelectedTab value s in
    let f := length (frames s) in
    let s := newFrame {| isCanceled := false; timeoutHandler := None |} s in
    let s := setLoading true s in
    let s := invoke (select_sheet value) (Some f) s in
    (s, Some f).

Definition handleClickChange (s : State) : State := invoke restart None s.

Definition handleClickStart (s : State) : State :=
  match selectedBatchPeriode s with
  | None => s
  | Some periode =>
      let s := setSubmitting true s in
      let config :=
        {| cfg_tabName := Js.or_undefined (selectedTab s);
           datetimeColumn := selectedDatetime s;
           predictableColumn := selectedPredictable s;
           batchPeriode := periode;
           cfg_rowSelection := rowSelection s |} in
      invoke (submit_preprocess_config config) None s
  end.

(** A promise of [invoke] settles and its callbacks run. *)
Definition settle (id : nat) (o : Outcome) (s : State) : State :=
  match findRequest id s with
  | None => s
  | Some r =>
      let s := dropRequest id s in
      match req_command r with
      | get_data_info =>
          match o with
          | Fulfilled (PDataInfo value) =>
              if frameCanceled (req_frame r) s then s
              else
                let s := setName (data_name value) s in
                let s := setTabs (default [] (data_tabs value)) s in
                let s := changeSheetInfo (sheetInfo value) s in
                setLoading false s
          | _ => s
          end
      | select_sheet _ =>
          match o with
          | Fulfilled (PSheetInfo si) =>
              if frameCanceled (req_frame r) s then s
              else
                let s := changeSheetInfo si s in
                setLoading false s
          | _ => s
          end
      | submit_preprocess_config _ =>
          (* .finally(...) runs on either outcome, .then(...) on success *)
          let s := setSubmitting false s in
          match o with
          | Fulfilled _ => invoke start_train None s
          | Rejected => s
          end
      | start_train => s
      | restart => s
      end
  end.

(** *** The page as a step function *)

Inductive Event :=
| SetPageDisabled (v : bool)
| TimeoutFires (handle : nat)
| Settled (id : nat) (o : Outcome)
| SelectTab (value : string)
| SelectDatetime (value : string)
| SelectPredictable (value : string)
| SelectBatchPeriode (value : BatchPeriode)
| RowSelectionModelChange (sel : RowSelection)
| ClickStart
| ClickChange.

(** A disabled control fires no handler.  The grid is in the page unless
    it is disabled or loading, and its handler calls [setRowSelection]
    with no test of its own: while the page submits the grid is dimmed and
    takes no pointer events, but it is there and still reports a change of
    the selection (made from the keyboard, or by the grid itself).  The
    value a handler returns to React's event system is dropped. *)
Definition step (s : State) (ev : Event) : State :=
  match ev with
  | SetPageDisabled v => setPageDisabled v s
  | TimeoutFires h => timeoutFires h s
  | Settled id o => settle id o s
  | SelectTab value =>
      if disabled s || (length (tabs s) =? 0)%nat then s
      else (handleSelectTab value s).1
  | SelectDatetime value =>
      if disabled s then s else setSelectedDatetime value s
  | SelectPredictable value =>
      if disabled s then s else setSelectedPredictable value s
  | SelectBatchPeriode value =>
      if disabled s then s else setSelectedBatchPeriode (Some value) s
  | RowSelectionModelChange sel =>
      if pageDisabled s || isLoading s then s else setRowSelection sel s
  | ClickStart =>
      if Js.truthy (allowSubmit s) then handleClickStart s else s
  | ClickChange =>
      if disabled s then s else handleClickChange s
  end.

Definition run (events : list Event) (s : State) : State :=
  fold_left step events s.

(** What the user sees of the sheet. *)
Definition visible (s : State)
  : string * list ColumnInfo * list RowInfo * string :=
  (name s, columns s, rows s, selectedTab s).

(** *** Notions used to state the properties *)

(** The row selection is not trivial. *)
Definition nonTrivialSelection (s : State) : Prop :=
  (sel_type (rowSelection s) = include
   /\ (length (ids (rowSelection s)) > 0)%nat)
  \/ (sel_type (rowSelection s) = exclude
      /\ length (ids (rowSelection s)) <> length (rows s)).

(** The pending requests have distinct identifiers, all handed out
    already. *)
Definition wellFormed (s : State) : Prop :=
  NoDup (map req_id (inflight s))
  /\ Forall (fun r => (req_id r < nextRequest s)%nat) (inflight s).

(** Events other than the settling of request [id]. *)
Definition notSettling (id : nat) (ev : Event) : Prop :=
  match ev with
  | Settled i _ => i <> id
  | _ => True
  end.

(** The commands sent to the engine between [s] and a later [s'] that are
    still pending in [s']. *)
Definition issued (s s' : State) : list Command :=
  map req_command
      (List.filter (fun r => (nextRequest s <=? req_id r)%nat) (inflight s')).

(** The requests other than [id]. *)
Definition otherThan (id : nat) (r : Request) : bool :=
  negb (req_id r =? id)%nat.

(** What one step does to the pending requests: [base] is what it keeps,
    and at most one request is added, under the next identifier. *)
Definition requestsAfter (s s' : State) (base : list Request) : Prop :=
  (inflight s' = base /\ nextRequest s' = nextRequest s)
  \/ (exists c f,
        inflight s' = base ++ [{| req_id := nextRequest s;
                                  req_command := c; req_frame := f |}]
        /\ nextRequest s' = S (nextRequest s)).

(** The liveness flag of the activation effect is in order: the effect
    in force owns an environment; a pending timer belongs to the effect in
    force and is the one its [timeoutHandler] names; and every pending
    [get_data_info] either belongs to the effect in force or has its
    [isCanceled] set. *)
Definition guarded (s : State) : Prop :=
  (forall f, effectCleanup s = Some f -> (f < length (frames s))%nat)
  /\ (forall h f, In (h, f) (timers s) ->
        effectCleanup s = Some f
        /\ exists fr, frames s !! f = Some fr /\ timeoutHandler fr = Some h)
  /\ (forall r, In r (inflight s) -> req_command r = get_data_info ->
        exists f, req_frame r = Some f
                  /\ (effectCleanup s = Some f
                      \/ frameCanceled (Some f) s = true)).

Definition isFulfilled (o : Outcome) : bool :=
  match o with Fulfilled _ => true | Rejected => false end.

(** *** A workbook with two tabs, and a second file *)

Definition dateColumn : ColumnInfo :=
  {| field := "date"; headerName := "Date"; col_type := TDateTime |}.
Definition valueColumn : ColumnInfo :=
  {| field := "value"; headerName := "Value"; col_type := TNumber |}.
Definition noteColumn : ColumnInfo :=
  {| field := "note"; headerName := "Note"; col_type := TString |}.

Definition sampleRow (day : string) (v : float) : RowInfo :=
  [("date", VString day); ("value", VNumber v)].

Definition sheetA : SheetInfo :=
  {| tabName := Some "A";
     sheet_columns := [dateColumn; valueColumn];
     sheet_rows := [sampleRow "2024-01-01" 1; sampleRow "2024-01-02" 2;
                    sampleRow "2024-01-03" 3; sampleRow "2024-01-04" 4;
                    sampleRow "2024-01-05" 5];
     sheet_allowedBatchPeriodes := [Daily; Weekly];
     selectedDatetimeColumn := "date";
     selectedPredictableColumn := "value";
     sheet_selectedBatchPeriode := Daily;
     sheet_rowSelection := {| sel_type := exclude; ids := [] |} |}.

Definition sheetB : SheetInfo :=
  {| tabName := Some "B";
     sheet_columns := [dateColumn; noteColumn];
     sheet_rows := [[("date", VString "1999-12-31"); ("note", VString "old")]];
     sheet_allowedBatchPeriodes := [Yearly];
     selectedDatetimeColumn := "date";
     selectedPredictableColumn := "";
     sheet_selectedBatchPeriode := Yearly;
     sheet_rowSelection := {| sel_type := exclude; ids := [] |} |}.

Definition firstFile : DataInfo :=
  {| data_name := "first.xlsx"; data_tabs := Some ["A"; "B"];
     sheetInfo := sheetA |}.

Definition secondSheet : SheetInfo :=
  {| tabName := Some "Q1";
     sheet_columns := [dateColumn; valueColumn];
     sheet_rows := [sampleRow "2025-06-01" 10; sampleRow "2025-06-02" 20];
     sheet_allowedBatchPeriodes := [Hourly; Daily];
     selectedDatetimeColumn := "date";
     selectedPredictableColumn := "value";
     sheet_selectedBatchPeriode := Hourly;
     sheet_rowSelection := {| sel_type := exclude; ids := [] |} |}.

Definition secondFile : DataInfo :=
  {| data_name := "second.xlsx"; data_tabs := Some ["Q1"; "Q2"];
     sheetInfo := secondSheet |}.

(** The page is mounted while another step is current, becomes the current
    step, and shows the first file once the engine has answered. *)
Definition firstFileShown : State :=
  run [SetPageDisabled false; TimeoutFires 0;
       Settled 0 (Fulfilled (PDataInfo firstFile))]
      (mount true).

(** The user picks tab B (request 1); before the engine answers the page
    is left and entered again, and the second file is fetched
    (request 2) and shown. *)
Definition reactivated : State :=
  run [SelectTab "B"; SetPageDisabled true; SetPageDisabled false;
       TimeoutFires 1; Settled 2 (Fulfilled (PDataInfo secondFile))]
      firstFileShown.

(** Then the answer to the [select_sheet] of the first activation
    arrives. *)
Definition staleAnswerArrived : State :=
  step reactivated (Settled 1 (Fulfilled (PSheetInfo sheetB))).

(** The same interleaving for [get_data_info]: the page is left while
    request 0 is pending and entered again, the second file is shown, and
    then the answer to request 0 arrives. *)
Definition reactivatedWhileFetching : State :=
  run [SetPageDisabled false; TimeoutFires 0;
       SetPageDisabled true; SetPageDisabled false;
       TimeoutFires 1; Settled 1 (Fulfilled (PDataInfo secondFile))]
      (mount true).

Definition staleDataInfoArrived : State :=
  step reactivatedWhileFetching (Settled 0 (Fulfilled (PDataInfo firstFile))).

(** What the user can do on the page. *)
Definition userEvent (ev : Event) : Prop :=
  match ev with
  | SetPageDisabled _ | TimeoutFires _ | Settled _ _ => False
  | _ => True
  end.

(** The eight cells that [changeSheetInfo] writes. *)
Definition sheetCells (s : State) :=
  (columns s, rows s, allowedBatchPeriodes s, selectedTab s,
   selectedDatetime s, selectedPredictable s, selectedBatchPeriode s,
   rowSelection s).


(** The [isCanceled] of every pending [select_sheet] is [false], and its
    environment is not the one of the activation effect in force. *)
Definition neverCanceled (s : State) : Prop :=
  forall r tab,
    In r (inflight s) -> req_command r = select_sheet tab ->
    exists f fr,
      req_frame r = Some f
      /\ frames s !! f = Some fr
      /\ isCanceled fr = false
      /\ effectCleanup s <> Some f.


(** A sheet that leaves nothing to fill in before Start: it names the
    date-time column and the column to predict, and selects some row. *)
Definition sheetReady (si : SheetInfo) : Prop :=
  selectedDatetimeColumn si <> ""
  /\ selectedPredictableColumn si <> ""
  /\ ((sel_type (sheet_rowSelection si) = include
       /\ (length (ids (sheet_rowSelection si)) > 0)%nat)
      \/ (sel_type (sheet_rowSelection si) = exclude
          /\ length (ids (sheet_rowSelection si))
             <> length (sheet_rows si))).

End Preprocess.

(** ** pages/Evaluate.tsx *)

Module Evaluate.

Record RawComparisonPoint := { x : string; y0 : float; y1 : float }.

Record EvaluationReport := {
  confidence : float;
  graph : list RawComparisonPoint;
  highPeak : option RawComparisonPoint;
  lowPeak : option RawComparisonPoint
}.

Inductive Command := get_evaluation | save_prediction | restart.

Inductive Outcome :=
| Fulfilled (value : option EvaluationReport)
| Rejected.

Record Request := {
  req_id : nat;
  req_command : Command;
  req_frame : option nat
}.

(** [frames] holds the [isCanceled] variable of each run of the effect,
    [listeners] the handlers registered for [App://evaluate/progress], and
    [effectCleanup] the listener and the environment that the cleanup
    function returned by the last run of the effect closes over. *)
Record State := {
  pageDisabled : bool;
  report : option EvaluationReport;
  isSaving : bool;
  predictProgress : float;
  frames : list bool;
  listeners : list nat;
  nextListener : nat;
  effectCleanup : option (nat * nat);
  inflight : list Request;
  nextRequest : nat
}.

Definition initial (disabled : bool) : State :=
  {| pageDisabled := disabled; report := None; isSaving := false;
     predictProgress := 0; frames := []; listeners := []; nextListener := 0;
     effectCleanup := None; inflight := []; nextRequest := 0 |}.

Definition setPageDisabledProp (v : bool) (s : State) : State :=
  {| pageDisabled := v; report := report s; isSaving := isSaving s;
     predictProgress := predictProgress s; frames := frames s;
     listeners := listeners s; nextListener := nextListener s;
     effectCleanup := effectCleanup s;
     inflight := inflight s; nextRequest := nextRequest s |}.

Definition setReport (v : option EvaluationReport) (s : State) : State :=
  {| pageDisabled := pageDisabled s; report := v; isSaving := isSaving s;
     predictProgress := predictProgress s; frames := frames s;
     listeners := listeners s; nextListener := nextListener s;
     effectCleanup := effectCleanup s;
     inflight := inflight s; nextRequest := nextRequest s |}.

Definition setSaving (v : bool) (s : State) : State :=
  {| pageDisabled := pageDisabled s; report := report s; isSaving := v;
     predictProgress := predictProgress s; frames := frames s;
     listeners := listeners s; nextListener := nextListener s;
     effectCleanup := effectCleanup s;
     inflight := inflight s; nextRequest := nextRequest s |}.

Definition setPredictProgress (v : float) (s : State) : State :=
  {| pageDisabled := pageDisabled s; report := report s;
     isSaving := isSaving s;
     predictProgress := v; frames := frames s;
     listeners := listeners s; nextListener := nextListener s;
     effectCleanup := effectCleanup s;
     inflight := inflight s; nextRequest := nextRequest s |}.

Definition setFrames (v : list bool) (s : State) : State :=
  {| pageDisabled := pageDisabled s; report := report s;
     isSaving := isSaving s;
     predictProgress := predictProgress s; frames := v;
     listeners := listeners s; nextListener := nextListener s;
     effectCleanup := effectCleanup s;
     inflight := inflight s; nextRequest := nextRequest s |}.

Definition setListeners (v : list nat) (n : nat) (s : State) : State :=
  {| pageDisabled := pageDisabled s; report := report s;
     isSaving := isSaving s;
     predictProgress := predictProgress s; frames := frames s;
     listeners := v; nextListener := n;
     effectCleanup := effectCleanup s;
     inflight := inflight s; nextRequest := nextRequest s |}.

Definition setEffectCleanup (v : option (nat * nat)) (s : State) : State :=
  {| pageDisabled := pageDisabled s; report := report s;
     isSaving := isSaving s;
     predictProgress := predictProgress s; frames := frames s;
     listeners := listeners s; nextListener := nextListener s;
     effectCleanup := v;
     inflight := inflight s; nextRequest := nextRequest s |}.

Definition setInflight (v : list Request) (n : nat) (s : State) : State :=
  {| pageDisabled := pageDisabled s; report := report s;
     isSaving := isSaving s;
     predictProgress := predictProgress s; frames := frames s;
     listeners := listeners s; nextListener := nextListener s;
     effectCleanup := effectCleanup s;
     inflight := v; nextRequest := n |}.

Definition invoke (c : Command) (frame : option nat) (s : State) : State :=
  setInflight
    (inflight s ++
       [{| req_id := nextRequest s; req_command := c; req_frame := frame |}])
    (S (nextRequest s)) s.

Definition findRequest (id : nat) (s : State) : option Request :=
  List.find (fun r => (req_id r =? id)%nat) (inflight s).

Definition dropRequest (id : nat) (s : State) : State :=
  setInflight
    (List.filter (fun r => negb (req_id r =? id)%nat) (inflight s))
    (nextRequest s) s.

Definition frameCanceled (frame : option nat) (s : State) : bool :=
  match frame with
  | Some f => default false (frames s !! f)
  | None => false
  end.

(** [listen(...)] and the function it resolves to. *)
Definition listen (s : State) : State :=
  setListeners (listeners s ++ [nextListener s]) (S (nextListener s)) s.

Definition unlisten (l : nat) (s : State) : State :=
  setListeners (List.filter (fun k => negb (k =? l)%nat) (listeners s))
               (nextListener s) s.

(** The handler given to [listen]. *)
Definition onProgress (payload : float) (s : State) : State :=
  setPredictProgress (Js.roundHundredths payload) s.

Definition isPredicting (s : State) : bool :=
  pageDisabled s || match report s with None => true | Some _ => false end.

Definition isBusy (s : State) : bool := isPredicting s || isSaving s.

(** The activation effect, with dependency [pageDisabled]. *)
Definition activationEffect (s : State) : State :=
  let s := setReport None s in
  let s := setPredictProgress 0 s in
  if pageDisabled s then setEffectCleanup None s
  else
    let l := nextListener s in
    let s := listen s in
    let f := length (frames s) in
    let s := setFrames (frames s ++ [false]) s in
    let s := invoke get_evaluation (Some f) s in
    setEffectCleanup (Some (l, f)) s.

Definition runCleanup (c : nat * nat) (s : State) : State :=
  let s := unlisten c.1 s in
  setFrames (<[c.2 := true]> (frames s)) s.

Definition setPageDisabled (v : bool) (s : State) : State :=
  if eqb v (pageDisabled s) then s
  else
    let s := match effectCleanup s with
             | Some c => runCleanup c s
             | None => s
             end in
    activationEffect (setPageDisabledProp v s).

Definition mount (v : bool) : State := activationEffect (initial v).

Definition handleSave (s : State) : State :=
  invoke save_prediction None (setSaving true s).

Definition handleRestart (s : State) : State := invoke restart None s.

Definition settle (id : nat) (o : Outcome) (s : State) : State :=
  match findRequest id s with
  | None => s
  | Some r =>
      let s := dropRequest id s in
      match req_command r with
      | get_evaluation =>
          match o with
          | Fulfilled (Some value) =>
              if frameCanceled (req_frame r) s then s
              else setReport (Some value) s
          | _ => s
          end
      | save_prediction => setSaving false s
      | restart => s
      end
  end.

Inductive Event :=
| SetPageDisabled (v : bool)
| Progress (payload : float)
| Settled (id : nat) (o : Outcome)
| ClickSave
| ClickRestart.

(** An emitted event reaches every registered handler. *)
Definition step (s : State) (ev : Event) : State :=
  match ev with
  | SetPageDisabled v => setPageDisabled v s
  | Progress payload =>
      fold_left (fun s _ => onProgress payload s) (listeners s) s
  | Settled id o => settle id o s
  | ClickSave => if isBusy s then s else handleSave s
  | ClickRestart => if isBusy s then s else handleRestart s
  end.

Definition run (events : list Event) (s : State) : State :=
  fold_left step events s.

(** What is rendered: the Predicting view shows the progress after
    [Predicting the future] as [(v%)] when it is truthy and as [...]
    otherwise; the Ready view shows the report and never the progress. *)
Inductive View :=
| PredictingView (shownProgress : option float)
| ReadyView (shownConfidence : float) (value : EvaluationReport)
            (buttonsDisabled : bool) (saveLoading : bool).

Definition view (s : State) : View :=
  match report s with
  | Some value =>
      if pageDisabled s
      then PredictingView
             (if Js.truthy_number (predictProgress s)
              then Some (predictProgress s) else None)
      else ReadyView (Js.roundHundredths (confidence value)) value
                     (isBusy s) (isSaving s)
  | None =>
      PredictingView
        (if Js.truthy_number (predictProgress s)
         then Some (predictProgress s) else None)
  end.

(** *** Notions used to state the properties *)

(** The progress as the Predicting view shows it, if it does. *)
Definition shownProgress (s : State) : option float :=
  match view s with
  | PredictingView shown => shown
  | ReadyView _ _ _ _ => None
  end.

(** The wording of the specification for the value on show: the payload,
    a fraction, as a percentage to two decimal places. *)
Definition percentTwoDecimals (p : float) : float :=
  Js.roundHundredths (p * 100).

(** While the page is enabled the last run of the effect holds the one
    registered listener; while it is disabled nothing listens. *)
Definition subscription (s : State) : Prop :=
  if pageDisabled s
  then listeners s = [] /\ effectCleanup s = None
  else exists l f, listeners s = [l] /\ effectCleanup s = Some (l, f).

Definition sampleReport : EvaluationReport :=
  {| confidence := 87; graph := []; highPeak := None; lowPeak := None |}.

(** The page is the current step and waits for the report. *)
Definition predicting : State := mount false.

(** The report has arrived. *)
Definition ready : State :=
  step predicting (Settled 0 (Fulfilled (Some sampleReport))).

(** The pending requests have distinct identifiers, all handed out
    already. *)
Definition wellFormed (s : State) : Prop :=
  NoDup (map req_id (inflight s))
  /\ Forall (fun r => (req_id r < nextRequest s)%nat) (inflight s).

(** The effect in force owns an [isCanceled], and every pending
    [get_evaluation] either belongs to the effect in force or has its
    [isCanceled] set. *)
Definition guarded (s : State) : Prop :=
  (forall l f, effectCleanup s = Some (l, f) -> (f < length (frames s))%nat)
  /\ (forall r, In r (inflight s) -> req_command r = get_evaluation ->
        exists f, req_frame r = Some f
                  /\ ((exists l, effectCleanup s = Some (l, f))
                      \/ frameCanceled (Some f) s = true)).

Definition isSave (r : Request) : bool :=
  match req_command r with save_prediction => true | _ => false end.

(** The [save_prediction] requests that have not settled. *)
Definition pendingSaves (s : State) : list Request :=
  List.filter isSave (inflight s).


(** A disabled page holds no report and no progress. *)
Definition quietWhileDisabled (s : State) : Prop :=
  pageDisabled s = true -> report s = None /\ predictProgress s = 0%float.


(** Either no save is pending and the flag is down, or one is and the flag
    is up. *)
Definition oneSave (s : State) : Prop :=
  (isSaving s = false /\ pendingSaves s = [])
  \/ (isSaving s = true /\ exists r, pendingSaves s = [r]).


End Evaluate.

(** ** components/ErrorDialog.tsx *)

Module ErrorDialog.

(** The dialog keeps its own copy of what it shows. *)
Record State := {
  open : bool;
  title : string;
  message : string
}.

Definition initial : State := {| open := false; title := ""; message := "" |}.

(** The effect, with dependency [info]: the notification at the front of
    the queue, or nothing. *)
Definition infoEffect (info : option App.ErrorInfo) (s : State) : State :=
  match info with
  | None => {| open := false; title := title s; message := message s |}
  | Some i =>
      {| open := true; title := App.title i; message := App.message i |}
  end.

(** The effect runs at mount and after every change of [info]. *)
Definition shown (infos : list (option App.ErrorInfo)) : State :=
  fold_left (fun s info => infoEffect info s) infos initial.

(** The last notification among [infos]. *)
Definition lastNotification (infos : list (option App.ErrorInfo))
  : option App.ErrorInfo :=
  last (omap (fun info => info) infos).

End ErrorDialog.

(** ** App.tsx: the scrolling of the page view *)

Module AppScroll.

(** [scrollTo(x, 0)] follows the style sheet ([scroll-behavior: smooth]);
    [scrollTo({ left, behavior: 'instant' })] jumps. *)
Inductive Behavior := Smooth | Instant.

Inductive TimerKind := Timeout | Interval.

(** The variables of one run of the effect: [pageIndex] of the render it
    belongs to, [timeoutHandler] and [watchdogHandler] ([None] is
    [NaN]). *)
Record Frame := {
  capturedIndex : Z;
  timeoutHandler : nat;
  watchdogHandler : option nat
}.

(** A timer of the window, with the environment its callback closes
    over.  [setTimeout] and [setInterval] hand out handles from one
    pool. *)
Record Timer := {
  handle : nat;
  kind : TimerKind;
  owner : nat
}.

Record State := {
  pageIndex : Z;
  pageView : bool;
  clientWidth : Z;
  scrollableClass : option string;
  lastScroll : option (Z * Behavior);
  frames : list Frame;
  effectCleanup : option nat;
  timers : list Timer;
  nextHandle : nat;
  resizeListeners : list nat
}.

(** Before the first run of the effect; [present] tells whether
    [pageViewRef.current] is set and [width] is the width of the view. *)
Definition initial (present : bool) (width : Z) : State :=
  {| pageIndex := 0; pageView := present; clientWidth := width;
     scrollableClass := None; lastScroll := None; frames := [];
     effectCleanup := None; timers := []; nextHandle := 0;
     resizeListeners := [] |}.

Definition setPageIndex (v : Z) (s : State) : State :=
  {| pageIndex := v; pageView := pageView s; clientWidth := clientWidth s;
     scrollableClass := scrollableClass s; lastScroll := lastScroll s;
     frames := frames s; effectCleanup := effectCleanup s;
     timers := timers s; nextHandle := nextHandle s;
     resizeListeners := resizeListeners s |}.

Definition setClientWidth (v : Z) (s : State) : State :=
  {| pageIndex := pageIndex s; pageView := pageView s; clientWidth := v;
     scrollableClass := scrollableClass s; lastScroll := lastScroll s;
     frames := frames s; effectCleanup := effectCleanup s;
     timers := timers s; nextHandle := nextHandle s;
     resizeListeners := resizeListeners s |}.

Definition setScrollableClass (v : option string) (s : State) : State :=
  {| pageIndex := pageIndex s; pageView := pageView s;
     clientWidth := clientWidth s;
     scrollableClass := v; lastScroll := lastScroll s;
     frames := frames s; effectCleanup := effectCleanup s;
     timers := timers s; nextHandle := nextHandle s;
     resizeListeners := resizeListeners s |}.

Definition scrollTo (left : Z) (b : Behavior) (s : State) : State :=
  {| pageIndex := pageIndex s; pageView := pageView s;
     clientWidth := clientWidth s;
     scrollableClass := scrollableClass s; lastScroll := Some (left, b);
     frames := frames s; effectCleanup := effectCleanup s;
     timers := timers s; nextHandle := nextHandle s;
     resizeListeners := resizeListeners s |}.

Definition setFrames (v : list Frame) (s : State) : State :=
  {| pageIndex := pageIndex s; pageView := pageView s;
     clientWidth := clientWidth s;
     scrollableClass := scrollableClass s; lastScroll := lastScroll s;
     frames := v; effectCleanup := effectCleanup s;
     timers := timers s; nextHandle := nextHandle s;
     resizeListeners := resizeListeners s |}.

Definition setEffectCleanup (v : option nat) (s : State) : State :=
  {| pageIndex := pageIndex s; pageView := pageView s;
     clientWidth := clientWidth s;
     scrollableClass := scrollableClass s; lastScroll := lastScroll s;
     frames := frames s; effectCleanup := v;
     timers := timers s; nextHandle := nextHandle s;
     resizeListeners := resizeListeners s |}.

Definition setTimers (v : list Timer) (n : nat) (s : State) : State :=
  {| pageIndex := pageIndex s; pageView := pageView s;
     clientWidth := clientWidth s;
     scrollableClass := scrollableClass s; lastScroll := lastScroll s;
     frames := frames s; effectCleanup := effectCleanup s;
     timers := v; nextHandle := n;
     resizeListeners := resizeListeners s |}.

Definition setResizeListeners (v : list nat) (s : State) : State :=
  {| pageIndex := pageIndex s; pageView := pageView s;
     clientWidth := clientWidth s;
     scrollableClass := scrollableClass s; lastScroll := lastScroll s;
     frames := frames s; effectCleanup := effectCleanup s;
     timers := timers s; nextHandle := nextHandle s;
     resizeListeners := v |}.

(** [clearTimeout] and [clearInterval]: either clears the timer with that
    handle, of whichever kind. *)
Definition clearTimer (h : nat) (s : State) : State :=
  setTimers (List.filter (fun t => negb (handle t =? h)%nat) (timers s))
            (nextHandle s) s.

(** [workaround] of environment [f], and the callback of its interval. *)
Definition workaround (f : nat) (s : State) : State :=
  match frames s !! f with
  | Some fr => scrollTo (clientWidth s * capturedIndex fr) Instant s
  | None => s
  end.

(** The effect, with dependencies [pageIndex] and [pageViewRef.current]. *)
Definition scrollEffect (s : State) : State :=
  if negb (pageView s) then setEffectCleanup None s
  else
    let f := length (frames s) in
    let s := setResizeListeners (resizeListeners s ++ [f]) s in
    let s := setScrollableClass (Some "scrolling") s in
    let s := scrollTo (clientWidth s * pageIndex s) Smooth s in
    let h := nextHandle s in
    let s := setFrames
               (frames s ++ [{| capturedIndex := pageIndex s;
                                timeoutHandler := h;
                                watchdogHandler := None |}]) s in
    let s := setTimers
               (timers s ++ [{| handle := h; kind := Timeout; owner := f |}])
               (S h) s in
    setEffectCleanup (Some f) s.

(** The function the effect returned, closed over environment [f]. *)
Definition runCleanup (f : nat) (s : State) : State :=
  match frames s !! f with
  | Some fr =>
      let s := clearTimer (timeoutHandler fr) s in
      let s := match watchdogHandler fr with
               | Some i => clearTimer i s
               | None => s
               end in
      setResizeListeners
        (List.filter (fun g => negb (g =? f)%nat) (resizeListeners s)) s
  | None => s
  end.

(** A dependency changed: the cleanup of the last run, then the effect. *)
Definition rerunEffect (s : State) : State :=
  let s := match effectCleanup s with
           | Some f => runCleanup f s
           | None => s
           end in
  scrollEffect s.

Definition mount (present : bool) (width : Z) : State :=
  scrollEffect (initial present width).

(** The callback given to [setTimeout]: the class goes and the watchdog
    starts. *)
Definition timeoutFires (h : nat) (s : State) : State :=
  match List.find (fun t => (handle t =? h)%nat) (timers s) with
  | Some {| kind := Timeout; owner := f |} =>
      let s := clearTimer h s in
      let s := setScrollableClass None s in
      let i := nextHandle s in
      let s := setTimers
                 (timers s ++ [{| handle := i; kind := Interval; owner := f |}])
                 (S i) s in
      setFrames
        (alter (fun fr => {| capturedIndex := capturedIndex fr;
                             timeoutHandler := timeoutHandler fr;
                             watchdogHandler := Some i |}) f (frames s)) s
  | _ => s
  end.

Definition intervalTicks (h : nat) (s : State) : State :=
  match List.find (fun t => (handle t =? h)%nat) (timers s) with
  | Some {| kind := Interval; owner := f |} => workaround f s
  | _ => s
  end.

Inductive Event :=
| PageMove (payload : Z)
| DependencyChanged
| TimeoutFires (h : nat)
| IntervalTicks (h : nat)
| Resize (width : Z).

(** Setting the page index to the value it has renders nothing. *)
Definition step (s : State) (ev : Event) : State :=
  match ev with
  | PageMove payload =>
      if payload =? pageIndex s then s
      else rerunEffect (setPageIndex payload s)
  | DependencyChanged => rerunEffect s
  | TimeoutFires h => timeoutFires h s
  | IntervalTicks h => intervalTicks h s
  | Resize width =>
      fold_left (fun s f => workaround f s) (resizeListeners s)
                (setClientWidth width s)
  end.

Definition run (events : list Event) (s : State) : State :=
  fold_left step events s.

(** The two phases of the machine, for the effect in force [f] with
    environment [fr]: animating, with the class set and the timeout
    pending, or watching, with the class gone and the interval running. *)
Definition animating (s : State) (f : nat) (fr : Frame) : Prop :=
  scrollableClass s = Some "scrolling"
  /\ watchdogHandler fr = None
  /\ timers s = [{| handle := timeoutHandler fr; kind := Timeout;
                    owner := f |}].

Definition watching (s : State) (f : nat) (fr : Frame) : Prop :=
  scrollableClass s = None
  /\ exists i, watchdogHandler fr = Some i
               /\ timers s = [{| handle := i; kind := Interval; owner := f |}].

Definition inPhase (s : State) : Prop :=
  exists f fr,
    effectCleanup s = Some f
    /\ frames s !! f = Some fr
    /\ capturedIndex fr = pageIndex s
    /\ resizeListeners s = [f]
    /\ Forall (fun t => (handle t < nextHandle s)%nat) (timers s)
    /\ (animating s f fr \/ watching s f fr).

End AppScroll.


(** ** pages/Train.tsx: the page around the confidence graph *)

Module TrainPage.

(** The answer to [get_train_progress]. *)
Record TrainProgress := {
  progress_endX : Z;
  progress_confidencePoints : list Train.Point
}.

Inductive Outcome :=
| Fulfilled (value : TrainProgress)
| Rejected.

(** A pending [get_train_progress], with the environment of its
    callback. *)
Record Request := {
  req_id : nat;
  req_frame : nat
}.

(** [memoLength] and [latestConfidence] are the cell of the [useMemo] of
    [latestConfidence]: the dependency [confidencePoints.length] it was
    last computed for, and the value.  [frames] holds the [isCanceled] of
    each run of the effect, [listeners] the handlers registered for
    [App://train/progress/new], [effectCleanup] the environment and the
    listener of the cleanup function of the last run. *)
Record State := {
  pageDisabled : bool;
  endX : Z;
  confidencePoints : list Train.Point;
  memoLength : nat;
  latestConfidence : float;
  frames : list bool;
  listeners : list nat;
  nextListener : nat;
  effectCleanup : option (nat * nat);
  inflight : list Request;
  nextRequest : nat
}.

(** The first render, before the first run of the effect. *)
Definition initial (disabled : bool) : State :=
  {| pageDisabled := disabled; endX := 0;
     confidencePoints := Train.initialPoints;
     memoLength := length Train.initialPoints;
     latestConfidence := Train.latestConfidence Train.initialPoints;
     frames := []; listeners := []; nextListener := 0;
     effectCleanup := None; inflight := []; nextRequest := 0 |}.

Definition setPageDisabledProp (v : bool) (s : State) : State :=
  {| pageDisabled := v; endX := endX s;
     confidencePoints := confidencePoints s;
     memoLength := memoLength s; latestConfidence := latestConfidence s;
     frames := frames s; listeners := listeners s;
     nextListener := nextListener s; effectCleanup := effectCleanup s;
     inflight := inflight s; nextRequest := nextRequest s |}.

Definition setEndX (v : Z) (s : State) : State :=
  {| pageDisabled := pageDisabled s; endX := v;
     confidencePoints := confidencePoints s;
     memoLength := memoLength s; latestConfidence := latestConfidence s;
     frames := frames s; listeners := listeners s;
     nextListener := nextListener s; effectCleanup := effectCleanup s;
     inflight := inflight s; nextRequest := nextRequest s |}.

(** [modifyConfidenceGraph(action)]. *)
Definition dispatch (a : Train.ConfidenceGraphAction) (s : State) : State :=
  {| pageDisabled := pageDisabled s; endX := endX s;
     confidencePoints := Train.modifyConfidenceGraph (confidencePoints s) a;
     memoLength := memoLength s; latestConfidence := latestConfidence s;
     frames := frames s; listeners := listeners s;
     nextListener := nextListener s; effectCleanup := effectCleanup s;
     inflight := inflight s; nextRequest := nextRequest s |}.

Definition setMemo (n : nat) (v : float) (s : State) : State :=
  {| pageDisabled := pageDisabled s; endX := endX s;
     confidencePoints := confidencePoints s;
     memoLength := n; latestConfidence := v;
     frames := frames s; listeners := listeners s;
     nextListener := nextListener s; effectCleanup := effectCleanup s;
     inflight := inflight s; nextRequest := nextRequest s |}.

Definition setFrames (v : list bool) (s : State) : State :=
  {| pageDisabled := pageDisabled s; endX := endX s;
     confidencePoints := confidencePoints s;
     memoLength := memoLength s; latestConfidence := latestConfidence s;
     frames := v; listeners := listeners s;
     nextListener := nextListener s; effectCleanup := effectCleanup s;
     inflight := inflight s; nextRequest := nextRequest s |}.

Definition setListeners (v : list nat) (n : nat) (s : State) : State :=
  {| pageDisabled := pageDisabled s; endX := endX s;
     confidencePoints := confidencePoints s;
     memoLength := memoLength s; latestConfidence := latestConfidence s;
     frames := frames s; listeners := v;
     nextListener := n; effectCleanup := effectCleanup s;
     inflight := inflight s; nextRequest := nextRequest s |}.

Definition setEffectCleanup (v : option (nat * nat)) (s : State) : State :=
  {| pageDisabled := pageDisabled s; endX := endX s;
     confidencePoints := confidencePoints s;
     memoLength := memoLength s; latestConfidence := latestConfidence s;
     frames := frames s; listeners := listeners s;
     nextListener := nextListener s; effectCleanup := v;
     inflight := inflight s; nextRequest := nextRequest s |}.

Definition setInflight (v : list Request) (n : nat) (s : State) : State :=
  {| pageDisabled := pageDisabled s; endX := endX s;
     confidencePoints := confidencePoints s;
     memoLength := memoLength s; latestConfidence := latestConfidence s;
     frames := frames s; listeners := listeners s;
     nextListener := nextListener s; effectCleanup := effectCleanup s;
     inflight := v; nextRequest := n |}.

(** A render: [useMemo] computes its value again when the dependency is
    not the one it was computed for, and keeps it otherwise. *)
Definition render (s : State) : State :=
  if (memoLength s =? length (confidencePoints s))%nat then s
  else setMemo (length (confidencePoints s))
               (Train.latestConfidence (confidencePoints s)) s.

Definition frameCanceled (f : nat) (s : State) : bool :=
  default false (frames s !! f).

(** The activation effect, with dependency [pageDisabled]. *)
Definition activationEffect (s : State) : State :=
  if pageDisabled s then
    let s := setEndX 0 s in
    let s := dispatch Train.ActClear s in
    setEffectCleanup None s
  else
    let f := length (frames s) in
    let s := setFrames (frames s ++ [false]) s in
    let s := setInflight
               (inflight s ++ [{| req_id := nextRequest s; req_frame := f |}])
               (S (nextRequest s)) s in
    let l := nextListener s in
    let s := setListeners (listeners s ++ [l]) (S l) s in
    setEffectCleanup (Some (f, l)) s.

Definition runCleanup (c : nat * nat) (s : State) : State :=
  let s := setFrames (<[c.1 := true]> (frames s)) s in
  setListeners (List.filter (fun k => negb (k =? c.2)%nat) (listeners s))
               (nextListener s) s.

(** The [tabIndex] prop changes: a render, the cleanup of the last run of
    the effect, the effect. *)
Definition setPageDisabled (v : bool) (s : State) : State :=
  if eqb v (pageDisabled s) then s
  else
    let s := render (setPageDisabledProp v s) in
    let s := match effectCleanup s with
             | Some c => runCleanup c s
             | None => s
             end in
    activationEffect s.

Definition mount (v : bool) : State := render (activationEffect (initial v)).

(** The handler given to [listen]. *)
Definition onProgressNew (payload : Train.Point) (s : State) : State :=
  dispatch (Train.ActAdd payload) s.

Definition settle (id : nat) (o : Outcome) (s : State) : State :=
  match List.find (fun r => (req_id r =? id)%nat) (inflight s) with
  | None => s
  | Some r =>
      let s := setInflight
                 (List.filter (fun r => negb (req_id r =? id)%nat)
                              (inflight s))
                 (nextRequest s) s in
      match o with
      | Fulfilled value =>
          if frameCanceled (req_frame r) s then s
          else
            let s := setEndX (progress_endX value) s in
            dispatch (Train.ActSet (progress_confidencePoints value)) s
      | Rejected => s
      end
  end.

Inductive Event :=
| SetPageDisabled (v : bool)
| ProgressNew (payload : Train.Point)
| Settled (id : nat) (o : Outcome).

Definition handle (ev : Event) (s : State) : State :=
  match ev with
  | SetPageDisabled v => setPageDisabled v s
  | ProgressNew payload =>
      fold_left (fun s _ => onProgressNew payload s) (listeners s) s
  | Settled id o => settle id o s
  end.

(** Every change of state is followed by a render. *)
Definition step (s : State) (ev : Event) : State := render (handle ev s).

Definition run (events : list Event) (s : State) : State :=
  fold_left step events s.

(** What is written under the graph: the latest confidence when it is
    truthy, and the invitation to brew coffee otherwise. *)
Definition shownConfidence (s : State) : option float :=
  if Js.truthy_number (latestConfidence s)
  then Some (latestConfidence s) else None.

(** While the page is enabled the last run of the effect holds the one
    registered listener; while it is disabled nothing listens. *)
Definition subscription (s : State) : Prop :=
  if pageDisabled s
  then listeners s = [] /\ effectCleanup s = None
  else exists f l, listeners s = [l] /\ effectCleanup s = Some (f, l).

(** The effect in force owns an [isCanceled], and every pending
    [get_train_progress] either belongs to the effect in force or has its
    [isCanceled] set. *)
Definition guarded (s : State) : Prop :=
  (forall f l, effectCleanup s = Some (f, l) -> (f < length (frames s))%nat)
  /\ (forall r, In r (inflight s) ->
        (exists l, effectCleanup s = Some (req_frame r, l))
        \/ frameCanceled (req_frame r) s = true).

(** A disabled page shows the empty graph. *)
Definition clearedWhileDisabled (s : State) : Prop :=
  pageDisabled s = true ->
  confidencePoints s = [{| Train.x := 0; Train.y := 0 |}] /\ endX s = 0.

End TrainPage.

(** ** pages/Data.tsx *)

Module Data.

(** [inflight] holds the identifiers of the [load_data] calls that have
    not settled. *)
Record State := {
  pageDisabled : bool;
  loading : bool;
  inflight : list nat;
  nextRequest : nat
}.

Definition initial (v : bool) : State :=
  {| pageDisabled := v; loading := false; inflight := []; nextRequest := 0 |}.

Definition disabled (s : State) : bool := pageDisabled s || loading s.

Definition setLoading (v : bool) (s : State) : State :=
  {| pageDisabled := pageDisabled s; loading := v;
     inflight := inflight s; nextRequest := nextRequest s |}.

Definition handleClickLoad (s : State) : State :=
  let s := setLoading true s in
  {| pageDisabled := pageDisabled s; loading := loading s;
     inflight := inflight s ++ [nextRequest s];
     nextRequest := S (nextRequest s) |}.

(** The promise of [load_data] settles: [finally] runs on either
    outcome. *)
Definition settle (id : nat) (fulfilled : bool) (s : State) : State :=
  if existsb (Nat.eqb id) (inflight s)
  then setLoading false
         {| pageDisabled := pageDisabled s; loading := loading s;
            inflight := List.filter (fun k => negb (k =? id)%nat) (inflight s);
            nextRequest := nextRequest s |}
  else s.

Inductive Event :=
| SetPageDisabled (v : bool)
| ClickLoad
| Settled (id : nat) (fulfilled : bool).

(** The disabled button fires no click. *)
Definition step (s : State) (ev : Event) : State :=
  match ev with
  | SetPageDisabled v =>
      {| pageDisabled := v; loading := loading s;
         inflight := inflight s; nextRequest := nextRequest s |}
  | ClickLoad => if disabled s then s else handleClickLoad s
  | Settled id fulfilled => settle id fulfilled s
  end.

Definition run (events : list Event) (s : State) : State :=
  fold_left step events s.

(** Either no load is pending and the flag is down, or one is and the flag
    is up. *)
Definition oneLoad (s : State) : Prop :=
  (loading s = false /\ inflight s = [])
  \/ (loading s = true /\ inflight s = [nextRequest s - 1]%nat
      /\ (0 < nextRequest s)%nat).


End Data.


(** * Properties *)

(** Case analysis on the first [match] of the goal. *)
Ltac break_match :=
  match goal with
  | |- context [match ?x with _ => _ end] => destruct x eqn:?
  end.

(** ** JavaScript helpers *)

Module JsFacts.
Import Js.

Lemma truthy_string_spec s : truthy_string s = true <-> s <> "".
Proof.
  unfold truthy_string. rewrite negb_true_iff.
  destruct (String.eqb_spec s ""); split; congruence.
Qed.

Lemma and_truthy a b : truthy (and_ a b) = truthy a && truthy b.
Proof.
  unfold and_. destruct (truthy a) eqn:Ha; simpl; [reflexivity | exact Ha].
Qed.

(** [nearest] gives the integer [n] with [n - 1/2 <= v < n + 1/2] for the
    number [v] of magnitude [m * 2^e]: both sides are scaled by
    [2 * 2^(-e)]. *)
Lemma nearest_spec (s : bool) (m : positive) (e : Z) :
  e < 0 ->
  (2 * nearest s m e - 1) * 2 ^ (- e)
  <= 2 * (if s then Z.neg m else Z.pos m)
  < (2 * nearest s m e + 1) * 2 ^ (- e).
Proof.
  intros He. unfold nearest.
  set (v := if s then Z.neg m else Z.pos m). clearbody v.
  replace (1 - e) with (Z.succ (- e)) by lia.
  rewrite Z.pow_succ_r by lia.
  assert (Hk : 0 < 2 ^ (- e)) by (apply Z.pow_pos_nonneg; lia).
  set (k := 2 ^ (- e)) in *. clearbody k.
  pose proof (Z.div_mod (2 * v + k) (2 * k) ltac:(lia)) as Hdiv.
  pose proof (Z.mod_pos_bound (2 * v + k) (2 * k) ltac:(lia)) as Hmod.
  set (n := (2 * v + k) / (2 * k)) in *. clearbody n.
  nia.
Qed.

(** The arithmetic is that of binary64.  The double nearest to 0.695
    times 100 is 69.5 exactly, a tie, so the rounded value is the double
    nearest to 0.7.  A product in [-0.5, 0) rounds to the negative zero,
    which is falsy; the smallest number above [-0.5] that is not, to 0
    and not to 1. *)
Lemma roundHundredths_binary64 :
  roundHundredths 0x1.63d70a3d70a3dp-1 = 0x1.6666666666666p-1%float
  /\ Math_round (-0.5) = (-0)%float
  /\ truthy_number (roundHundredths (-0x1.47ae147ae147bp-8)) = false
  /\ Math_round 0x1.fffffffffffffp-2 = 0%float
  /\ Math_round 2.5 = 3%float
  /\ Math_round (-2.5) = (-2)%float
  /\ Math_round nan = nan
  /\ truthy_number nan = false.
Proof. repeat split. Qed.

End JsFacts.

(** ** The confidence graph of the Train page *)

Module TrainFacts.
Import Train.

Lemma restart_test_spec state p :
  (length state =? 1)%nat
    && match state !! 0%nat with Some q => x q =? 0 | None => false end
    && (x p =? 0) = true
  <-> restarts state p.
Proof.
  unfold restarts. split.
  - intros H. apply andb_true_iff in H as [H Hp].
    apply andb_true_iff in H as [Hlen Hq].
    destruct state as [|q [|q' rest]]; simpl in *; try discriminate.
    exists q. repeat split; [apply Z.eqb_eq, Hq | apply Z.eqb_eq, Hp].
  - intros (q & -> & Hq & Hp). simpl.
    rewrite Hq, Hp. reflexivity.
Qed.

Lemma reducer_nonempty state action :
  modifyConfidenceGraph state action <> [].
Proof.
  destruct action as [value|value|]; simpl.
  - destruct value; simpl; discriminate.
  - destruct (_ && _ && _); [discriminate|].
    destruct state; simpl; discriminate.
  - discriminate.
Qed.

Lemma run_nonempty actions : forall state,
  state <> [] -> run actions state <> [].
Proof.
  induction actions as [|a rest IH]; intros state Hne; simpl.
  - exact Hne.
  - apply IH, reducer_nonempty.
Qed.

Lemma lastPoint_is_Some state : state <> [] -> is_Some (lastPoint state).
Proof.
  intros Hne. unfold lastPoint.
  destruct state as [|p rest]; [congruence|].
  simpl length. apply lookup_lt_is_Some. simpl. lia.
Qed.

(** C4.  [appendPoint p] on a sequence [s]: when [s] is a single point with
    [x = 0] and [p] has [x = 0], the result is [[p]]; in every other case
    the result is [s] with [p] added at its end.  So [(0,5)] on [[(0,0)]]
    gives [[(0,5)]], and on [[(0,0); (1,10)]] it gives
    [[(0,0); (1,10); (0,5)]]. *)
Theorem appendPoint_restart_rule (s : list Point) (p : Point) :
  (restarts s p -> appendPoint p s = [p])
  /\ (~ restarts s p -> appendPoint p s = s ++ [p])
  /\ appendPoint {| x := 0; y := 5 |} [{| x := 0; y := 0 |}]
     = [{| x := 0; y := 5 |}]
  /\ appendPoint {| x := 0; y := 5 |}
       [{| x := 0; y := 0 |}; {| x := 1; y := 10 |}]
     = [{| x := 0; y := 0 |}; {| x := 1; y := 10 |}; {| x := 0; y := 5 |}].
Proof.
  unfold appendPoint. repeat split; try reflexivity.
  - intros H. apply restart_test_spec in H. simpl. rewrite H. reflexivity.
  - intros H. simpl.
    destruct (_ && _ && _) eqn:E; [|reflexivity].
    apply restart_test_spec in E. contradiction.
Qed.

Lemma appendPoint_restart_rule_witness :
  appendPoint {| x := 0; y := 7 |} [{| x := 0; y := 3 |}]
  = [{| x := 0; y := 7 |}]
  /\ appendPoint {| x := 4; y := 7 |} [{| x := 0; y := 3 |}]
     = [{| x := 0; y := 3 |}; {| x := 4; y := 7 |}].
Proof.
  split.
  - apply (proj1 (appendPoint_restart_rule
                    [{| x := 0; y := 3 |}] {| x := 0; y := 7 |})).
    exists {| x := 0; y := 3 |}. repeat split; reflexivity.
  - apply (proj1 (proj2 (appendPoint_restart_rule
                    [{| x := 0; y := 3 |}] {| x := 4; y := 7 |}))).
    intros (q & _ & _ & Hp). simpl in Hp. discriminate.
Defined.

(** C7.  Whatever the sequence was, [setSnapshot points] with [points] not
    empty gives [points], and [setSnapshot []] and [clear] give the single
    origin point [[(0,0)]]. *)
Theorem setSnapshot_replaces_or_resets (prior points : list Point) :
  (points <> [] -> setSnapshot points prior = points)
  /\ setSnapshot [] prior = [{| x := 0; y := 0 |}]
  /\ clear prior = [{| x := 0; y := 0 |}].
Proof.
  unfold setSnapshot, clear. repeat split.
  intros Hne. destruct points; [congruence | reflexivity].
Qed.

Lemma setSnapshot_replaces_or_resets_witness :
  setSnapshot [{| x := 2; y := 30 |}]
    [{| x := 0; y := 0 |}; {| x := 1; y := 10 |}]
  = [{| x := 2; y := 30 |}].
Proof.
  apply (proj1 (setSnapshot_replaces_or_resets
                  [{| x := 0; y := 0 |}; {| x := 1; y := 10 |}]
                  [{| x := 2; y := 30 |}])).
  discriminate.
Defined.

(** C10.  The sequence of confidence points is never empty: it starts as
    [[(0,0)]], each of the three actions gives a non-empty sequence from
    any sequence (so from any non-empty one), and after any sequence of
    actions the last element exists. *)
Theorem confidencePoints_never_empty (actions : list ConfidenceGraphAction) :
  initialPoints = [{| x := 0; y := 0 |}]
  /\ (forall state action, modifyConfidenceGraph state action <> [])
  /\ run actions initialPoints <> []
  /\ is_Some (lastPoint (run actions initialPoints)).
Proof.
  assert (Hrun : run actions initialPoints <> [])
    by (apply run_nonempty; discriminate).
  repeat split.
  - apply reducer_nonempty.
  - exact Hrun.
  - apply lastPoint_is_Some, Hrun.
Qed.

End TrainFacts.

(** ** The notification queue and the panic shutdown of App *)

Module AppFacts.
Import App.

Lemma push_below_capacity n q :
  (length q < 10)%nat -> push n q = q ++ [n].
Proof.
  intros H. unfold push, modifyErrorInfo.
  destruct (Nat.leb_spec 10 (length q)); [lia | reflexivity].
Qed.

Lemma push_at_capacity n q :
  (10 <= length q)%nat -> push n q = q.
Proof.
  intros H. unfold push, modifyErrorInfo.
  destruct (Nat.leb_spec 10 (length q)); [reflexivity | lia].
Qed.

Lemma reducer_length_bound q a :
  (length q <= 10)%nat -> (length (modifyErrorInfo q a) <= 10)%nat.
Proof.
  intros H. destruct a as [n|].
  - change (modifyErrorInfo q (ActAdd n)) with (push n q).
    destruct (Nat.lt_ge_cases (length q) 10) as [Hlt|Hge].
    + rewrite push_below_capacity by exact Hlt.
      rewrite length_app. simpl. lia.
    + rewrite push_at_capacity by exact Hge. exact H.
  - simpl. destruct q; simpl in *; lia.
Qed.

Lemma runQueue_length_bound actions : forall q,
  (length q <= 10)%nat -> (length (runQueue actions q) <= 10)%nat.
Proof.
  induction actions as [|a rest IH]; intros q H; simpl.
  - exact H.
  - apply IH, reducer_length_bound, H.
Qed.

(** Pushing a run of notifications fills the free places in order. *)
Lemma pushAll_fills ns : forall q,
  (length q <= 10)%nat -> pushAll ns q = q ++ take (10 - length q) ns.
Proof.
  induction ns as [|n rest IH]; intros q H.
  - simpl. rewrite take_nil, app_nil_r. reflexivity.
  - change (pushAll (n :: rest) q) with (pushAll rest (push n q)).
    destruct (Nat.lt_ge_cases (length q) 10) as [Hlt|Hge].
    + rewrite push_below_capacity by exact Hlt.
      rewrite IH by (rewrite length_app; simpl; lia).
      rewrite length_app. simpl length.
      replace (10 - length q)%nat with (S (10 - (length q + 1)))%nat by lia.
      simpl. rewrite <- app_assoc. reflexivity.
    + rewrite push_at_capacity by exact Hge.
      rewrite IH by exact H.
      replace (10 - length q)%nat with 0%nat by lia. reflexivity.
Qed.

(** Every state the component reaches has been rendered. *)
Lemma step_rendered s ev : updateQueue (step s ev) = [].
Proof. reflexivity. Qed.

(** C2.  For a queue within its capacity of 10: pushing onto a queue of
    length 10 leaves it as it is, pushing onto any other appends at the
    back, and the result is again within capacity.  Pushing 11
    notifications onto the empty queue gives the first 10 in push order,
    and no sequence of pushes and pops from the empty queue gives a queue
    longer than 10. *)
Theorem push_respects_capacity (q : list ErrorInfo) (n : ErrorInfo) :
  (length q <= 10)%nat ->
  (length q = 10%nat -> push n q = q)
  /\ (length q <> 10%nat -> push n q = q ++ [n])
  /\ (length (push n q) <= 10)%nat
  /\ (forall ns, length ns = 11%nat -> pushAll ns [] = take 10 ns)
  /\ (forall actions, (length (runQueue actions []) <= 10)%nat).
Proof.
  intros H. repeat split.
  - intros E. apply push_at_capacity. lia.
  - intros E. apply push_below_capacity. lia.
  - apply (reducer_length_bound q (ActAdd n)), H.
  - intros ns _. rewrite pushAll_fills by (simpl; lia). reflexivity.
  - intros actions. apply runQueue_length_bound. simpl. lia.
Qed.

Lemma push_respects_capacity_witness :
  push {| title := "e"; message := "m" |} []
  = [{| title := "e"; message := "m" |}].
Proof.
  apply (proj1 (proj2 (push_respects_capacity
                         [] {| title := "e"; message := "m" |}
                         ltac:(simpl; lia)))).
  simpl. lia.
Defined.

(** Acknowledging the notification on show when nothing has been
    dispatched since the last render, with the window still open: the
    oldest notification goes, and the window is closed exactly when the
    panic flag is set and the queue held at most one notification before
    the pop.  With the panic flag set and two or more notifications
    queued, the queue advances and the window stays open. *)
Lemma acknowledge_pops_then_closes_on_panic (s : State) :
  updateQueue s = [] ->
  windowClosed s = false ->
  allErrorInfo (acknowledgeNotification s) = tail (allErrorInfo s)
  /\ (windowClosed (acknowledgeNotification s) = true
      <-> isPanic s = true /\ (length (allErrorInfo s) <= 1)%nat)
  /\ (isPanic s = true -> (2 <= length (allErrorInfo s))%nat ->
      windowClosed (acknowledgeNotification s) = false
      /\ peekFront (acknowledgeNotification s).(allErrorInfo)
         = allErrorInfo s !! 1%nat).
Proof.
  intros Hq Hopen.
  unfold acknowledgeNotification, step, handle, handleCloseDialog.
  destruct s as [i panic q uq closed]. simpl in *. subst uq closed.
  destruct panic; simpl.
  - destruct (Nat.leb_spec (length q) 1) as [Hle|Hgt]; simpl.
    + repeat split; try assumption; intros; lia.
    + repeat split.
      * intros; discriminate.
      * intros [_ ?]; lia.
      * unfold peekFront. destruct q; reflexivity.
  - repeat split; try discriminate.
    + intros [? _]; discriminate.
Qed.

Lemma acknowledge_pops_then_closes_on_panic_witness :
  windowClosed
    (acknowledgeNotification
       {| pageIndex := 2; isPanic := true;
          allErrorInfo := [{| title := "e1"; message := "" |};
                           {| title := "e2"; message := "" |}];
          updateQueue := []; windowClosed := false |}) = false
  /\ allErrorInfo
       (acknowledgeNotification
          {| pageIndex := 2; isPanic := true;
             allErrorInfo := [{| title := "e1"; message := "" |};
                              {| title := "e2"; message := "" |}];
             updateQueue := []; windowClosed := false |})
     = [{| title := "e2"; message := "" |}].
Proof.
  pose proof (acknowledge_pops_then_closes_on_panic
       {| pageIndex := 2; isPanic := true;
          allErrorInfo := [{| title := "e1"; message := "" |};
                           {| title := "e2"; message := "" |}];
          updateQueue := []; windowClosed := false |}
       eq_refl eq_refl) as (Hpop & _ & Hstay).
  split.
  - apply Hstay; simpl; [reflexivity | lia].
  - exact Hpop.
Defined.

(** C3.  A notification that arrives between a render and the
    acknowledgement is not counted.  The first notification is on show and
    the engine has panicked; a second notification is dispatched, and
    before the component renders again the user acknowledges the first.
    The queue then holds two notifications, but the handler reads the
    length of the array of the last render, which is 1, and closes the
    window: the second notification is left queued and is never shown.
    Had the component rendered before the acknowledgement, the window
    would have stayed open with the second notification on show. *)
Theorem unrendered_notification_is_lost_on_close (e1 e2 : ErrorInfo) :
  allErrorInfo (run [DialogError e1; CorePanic] initial) = [e1]
  /\ isPanic (run [DialogError e1; CorePanic] initial) = true
  /\ runQueue
       (updateQueue
          (handle (DialogError e2) (run [DialogError e1; CorePanic] initial)))
       (allErrorInfo
          (handle (DialogError e2) (run [DialogError e1; CorePanic] initial)))
     = [e1; e2]
  /\ windowClosed
       (handle (DialogError e2) (run [DialogError e1; CorePanic] initial))
     = false
  /\ windowClosed
       (acknowledgeNotification
          (handle (DialogError e2)
                  (run [DialogError e1; CorePanic] initial)))
     = true
  /\ allErrorInfo
       (acknowledgeNotification
          (handle (DialogError e2)
                  (run [DialogError e1; CorePanic] initial)))
     = [e2]
  /\ windowClosed
       (acknowledgeNotification
          (step (run [DialogError e1; CorePanic] initial) (DialogError e2)))
     = false
  /\ allErrorInfo
       (acknowledgeNotification
          (step (run [DialogError e1; CorePanic] initial) (DialogError e2)))
     = [e2].
Proof.
  split; [|split; [|split; [|split; [|split; [|split; [|split]]]]]];
    reflexivity.
Qed.

End AppFacts.

(** ** The Preprocess page *)

Module PreprocessFacts.
Import Preprocess.

Lemma periodeValue_truthy o :
  Js.truthy_string (periodeValue o) = true <-> o <> None.
Proof.
  destruct o as [p|]; simpl.
  - split; [discriminate | intros _; destruct p; reflexivity].
  - split; [discriminate | congruence].
Qed.

Lemma isInclude_spec t : isInclude t = true <-> t = include.
Proof. destruct t; simpl; split; congruence. Qed.

Lemma isExclude_spec t : isExclude t = true <-> t = exclude.
Proof. destruct t; simpl; split; congruence. Qed.

(** The chain of [&&], read as a conjunction. *)
Lemma allowSubmit_truthy s :
  Js.truthy (allowSubmit s) = true
  <-> pageDisabled s = false
      /\ isLoading s = false
      /\ isSubmitting s = false
      /\ selectedDatetime s <> ""
      /\ selectedPredictable s <> ""
      /\ selectedBatchPeriode s <> None
      /\ nonTrivialSelection s.
Proof.
  unfold allowSubmit, nonTrivialSelection, disabled.
  rewrite !JsFacts.and_truthy. simpl Js.truthy.
  rewrite !andb_true_iff, negb_true_iff, !orb_false_iff.
  rewrite !JsFacts.truthy_string_spec.
  rewrite <- JsFacts.truthy_string_spec
    with (s := periodeValue (selectedBatchPeriode s)).
  rewrite periodeValue_truthy.
  rewrite orb_true_iff, !andb_true_iff, !negb_true_iff.
  rewrite isInclude_spec, isExclude_spec, !Nat.eqb_neq.
  split.
  - intros ((((((Hp & Hl) & Hs) & Hd) & Hq) & Hb) & Hsel).
    repeat split; try assumption.
    destruct Hsel as [[? ?]|[? ?]]; [left | right]; split;
      try assumption; lia.
  - intros (Hp & Hl & Hs & Hd & Hq & Hb & Hsel).
    repeat split; try assumption.
    destruct Hsel as [[? ?]|[? ?]]; [left | right]; split;
      try assumption; lia.
Qed.

(** C5.  [allowSubmit] is truthy exactly when the page is enabled, neither
    loading nor submitting, a date-time column, a column to predict and a
    batch period are chosen, and the row selection is not trivial:
    including at least one row, or excluding a number of rows other than
    the number of rows. *)
Theorem allowSubmit_iff_ready (s : State) :
  Js.truthy (allowSubmit s) = true
  <-> pageDisabled s = false
      /\ isLoading s = false
      /\ isSubmitting s = false
      /\ selectedDatetime s <> ""
      /\ selectedPredictable s <> ""
      /\ selectedBatchPeriode s <> None
      /\ nonTrivialSelection s.
Proof. apply allowSubmit_truthy. Qed.

(** *** Requests in flight *)

Lemma find_none_filter id (l : list Request) :
  List.find (fun r => (req_id r =? id)%nat) l = None ->
  List.filter (otherThan id) l = l.
Proof.
  induction l as [|r l IH]; simpl; [reflexivity|].
  unfold otherThan at 1.
  destruct (req_id r =? id)%nat; [discriminate|].
  intros H. simpl. rewrite IH by exact H. reflexivity.
Qed.

Lemma find_unique (l : list Request) r :
  NoDup (map req_id l) -> In r l ->
  List.find (fun r' => (req_id r' =? req_id r)%nat) l = Some r.
Proof.
  induction l as [|r0 l IH]; simpl; [tauto|].
  intros Hnd [->|Hin].
  - rewrite Nat.eqb_refl. reflexivity.
  - apply NoDup_cons in Hnd as [Hnotin Hnd].
    destruct (Nat.eqb_spec (req_id r0) (req_id r)) as [E|_].
    + exfalso. apply Hnotin. rewrite E.
      apply list_elem_of_In, in_map, Hin.
    + apply IH; assumption.
Qed.

Lemma settle_requests id o s :
  requestsAfter s (settle id o s) (List.filter (otherThan id) (inflight s)).
Proof.
  unfold settle. destruct (findRequest id s) as [r|] eqn:Hfind.
  - destruct (req_command r); repeat break_match;
      try (left; split; reflexivity).
    right. eexists _, _. split; reflexivity.
  - left. split; [|reflexivity].
    symmetry. apply find_none_filter, Hfind.
Qed.

Lemma step_requests s ev :
  requestsAfter s (step s ev)
    (match ev with
     | Settled id _ => List.filter (otherThan id) (inflight s)
     | _ => inflight s
     end).
Proof.
  destruct ev; try apply settle_requests;
    unfold step, setPageDisabled, runCleanup, activationEffect, timeoutFires,
      handleSelectTab, handleClickStart, handleClickChange;
    repeat break_match; simpl;
    try (left; split; reflexivity);
    try (right; eexists _, _; split; reflexivity).
Qed.

Lemma requestsAfter_wellFormed s s' base :
  wellFormed s -> requestsAfter s s' base ->
  (forall r, In r base -> In r (inflight s)) ->
  NoDup (map req_id base) ->
  wellFormed s'.
Proof.
  intros [Hnd Hlt] Hafter Hsub Hbase.
  assert (Hbound : Forall (fun r => (req_id r < nextRequest s)%nat) base).
  { apply List.Forall_forall. intros r Hr.
    rewrite List.Forall_forall in Hlt. apply Hlt, Hsub, Hr. }
  unfold wellFormed.
  destruct Hafter as [[-> ->]|(c & f & -> & ->)]; split.
  - exact Hbase.
  - exact Hbound.
  - rewrite map_app. simpl. apply NoDup_app. repeat split.
    + exact Hbase.
    + intros i Hi Hnew. apply list_elem_of_In in Hi, Hnew.
      simpl in Hnew. destruct Hnew as [<-|[]].
      apply in_map_iff in Hi as (r & Hid & Hr).
      rewrite List.Forall_forall in Hbound. specialize (Hbound r Hr). lia.
    + apply NoDup_singleton.
  - apply Forall_app. split.
    + eapply List.Forall_impl; [|exact Hbound]. simpl. intros; lia.
    + constructor; [simpl; lia | constructor].
Qed.

Lemma NoDup_map_filter (p : Request -> bool) l :
  NoDup (map req_id l) -> NoDup (map req_id (List.filter p l)).
Proof.
  induction l as [|r l IH]; simpl; [auto|].
  intros Hnd. apply NoDup_cons in Hnd as [Hnotin Hnd].
  destruct (p r); simpl; [|auto].
  apply NoDup_cons. split; [|auto].
  intros Hin. apply Hnotin.
  apply list_elem_of_In in Hin. apply list_elem_of_In.
  apply in_map_iff in Hin as (r' & Hid & Hr').
  apply filter_In in Hr' as [Hr' _].
  apply in_map_iff. eauto.
Qed.

Lemma mount_wellFormed v : wellFormed (mount v).
Proof.
  unfold mount, activationEffect. simpl.
  destruct v; split; simpl; constructor.
Qed.

Lemma step_wellFormed s ev : wellFormed s -> wellFormed (step s ev).
Proof.
  intros Hwf. pose proof (step_requests s ev) as Hafter.
  eapply requestsAfter_wellFormed; [exact Hwf | exact Hafter | |].
  - destruct ev; try tauto. intros r Hr. apply filter_In in Hr. tauto.
  - destruct Hwf as [Hnd _].
    destruct ev; try exact Hnd. apply NoDup_map_filter, Hnd.
Qed.

Lemma run_wellFormed events : forall s,
  wellFormed s -> wellFormed (run events s).
Proof.
  induction events as [|ev rest IH]; intros s Hwf; simpl; [exact Hwf|].
  apply IH, step_wellFormed, Hwf.
Qed.

(** A pending request stays pending until it is settled. *)
Lemma step_keeps_request s ev r :
  In r (inflight s) -> notSettling (req_id r) ev ->
  In r (inflight (step s ev)).
Proof.
  intros Hr Hev.
  assert (Hbase : In r (match ev with
                        | Settled id _ =>
                            List.filter (otherThan id) (inflight s)
                        | _ => inflight s
                        end)).
  { destruct ev; try exact Hr.
    apply filter_In. split; [exact Hr|].
    unfold otherThan. simpl in Hev.
    destruct (Nat.eqb_spec (req_id r) id); [congruence | reflexivity]. }
  destruct (step_requests s ev) as [[-> _]|(c & f & -> & _)].
  - exact Hbase.
  - apply in_or_app. left. exact Hbase.
Qed.

Lemma run_keeps_request events : forall s r,
  In r (inflight s) -> Forall (notSettling (req_id r)) events ->
  In r (inflight (run events s)).
Proof.
  induction events as [|ev rest IH]; intros s r Hr Hall; simpl; [exact Hr|].
  apply Forall_cons in Hall as [Hev Hrest].
  apply IH; [|exact Hrest]. apply step_keeps_request; assumption.
Qed.

Lemma issued_old_requests s (l : list Request) :
  Forall (fun r => (req_id r < nextRequest s)%nat) l ->
  List.filter (fun r => (nextRequest s <=? req_id r)%nat) l = [].
Proof.
  induction 1 as [|r l Hr _ IH]; simpl; [reflexivity|].
  destruct (Nat.leb_spec (nextRequest s) (req_id r)); [lia | exact IH].
Qed.

(** The commands a step sends are those of the requests it adds. *)
Lemma issued_requestsAfter s s' base :
  wellFormed s -> requestsAfter s s' base ->
  (forall r, In r base -> In r (inflight s)) ->
  (inflight s' = base /\ issued s s' = [])
  \/ (exists c f,
        inflight s' = base ++ [{| req_id := nextRequest s;
                                  req_command := c; req_frame := f |}]
        /\ issued s s' = [c]).
Proof.
  intros [_ Hlt] Hafter Hsub.
  assert (Hold : List.filter (fun r => (nextRequest s <=? req_id r)%nat) base
                 = []).
  { apply issued_old_requests, List.Forall_forall. intros r Hr.
    rewrite List.Forall_forall in Hlt. apply Hlt, Hsub, Hr. }
  unfold issued.
  destruct Hafter as [[-> _]|(c & f & -> & _)].
  - left. rewrite Hold. split; reflexivity.
  - right. exists c, f. split; [reflexivity|].
    rewrite List.filter_app, Hold. simpl.
    rewrite Nat.leb_refl. reflexivity.
Qed.

(** *** Submitting *)

Lemma allowSubmit_periode s :
  Js.truthy (allowSubmit s) = true ->
  exists periode, selectedBatchPeriode s = Some periode.
Proof.
  intros H. apply allowSubmit_truthy in H as (_ & _ & _ & _ & _ & H & _).
  destruct (selectedBatchPeriode s) as [periode|]; [eauto | congruence].
Qed.

Lemma or_undefined_spec t :
  (t = "" -> Js.or_undefined t = None)
  /\ (t <> "" -> Js.or_undefined t = Some t).
Proof.
  unfold Js.or_undefined. pose proof (JsFacts.truthy_string_spec t) as H.
  destruct (Js.truthy_string t); split; intros Ht; try reflexivity.
  - exfalso. apply (proj1 H); [reflexivity | exact Ht].
  - exfalso. apply H in Ht. discriminate.
Qed.

(** The settling of a pending [submit_preprocess_config]. *)
Lemma settle_submit s r config o :
  wellFormed s -> In r (inflight s) ->
  req_command r = submit_preprocess_config config ->
  settle (req_id r) o s
  = (if isFulfilled o then invoke start_train None else fun s' => s')
      (setSubmitting false (dropRequest (req_id r) s)).
Proof.
  intros [Hnd _] Hr Hcmd. unfold settle, findRequest.
  rewrite (find_unique _ r Hnd Hr), Hcmd.
  destruct o; reflexivity.
Qed.

Lemma issued_after_drop s id (added : list Request) s' :
  wellFormed s ->
  inflight s' = List.filter (otherThan id) (inflight s) ++ added ->
  Forall (fun r => (nextRequest s <= req_id r)%nat) added ->
  issued s s' = map req_command added.
Proof.
  intros [_ Hlt] Hin Hnew. unfold issued. rewrite Hin, List.filter_app.
  rewrite issued_old_requests.
  - simpl. f_equal. apply forallb_filter_id, forallb_forall.
    rewrite List.Forall_forall in Hnew. intros r Hr.
    apply Nat.leb_le, Hnew, Hr.
  - apply List.Forall_forall. intros r Hr. apply filter_In in Hr as [Hr _].
    rewrite List.Forall_forall in Hlt. apply Hlt, Hr.
Qed.

(** C6.  A click on the enabled Start button sets the submitting flag and
    sends [submit_preprocess_config] with a configuration built from the
    selections, whose [tabName] is absent when the selected tab is the
    empty string.  Whatever happens before that request settles, when it
    settles the submitting flag is cleared on success and on failure
    alike, and [start_train] is sent exactly when it succeeded. *)
Theorem start_submits_then_trains (s : State) :
  wellFormed s ->
  Js.truthy (allowSubmit s) = true ->
  exists periode config,
    selectedBatchPeriode s = Some periode
    /\ (selectedTab s = "" -> cfg_tabName config = None)
    /\ (selectedTab s <> "" -> cfg_tabName config = Some (selectedTab s))
    /\ datetimeColumn config = selectedDatetime s
    /\ predictableColumn config = selectedPredictable s
    /\ batchPeriode config = periode
    /\ cfg_rowSelection config = rowSelection s
    /\ isSubmitting (step s ClickStart) = true
    /\ issued s (step s ClickStart) = [submit_preprocess_config config]
    /\ forall events o,
         Forall (notSettling (nextRequest s)) events ->
         let s2 := run events (step s ClickStart) in
         let s3 := step s2 (Settled (nextRequest s) o) in
         isSubmitting s3 = false
         /\ issued s2 s3 = if isFulfilled o then [start_train] else [].
Proof.
  intros Hwf Hallow.
  destruct (allowSubmit_periode s Hallow) as [periode Hperiode].
  set (config := {| cfg_tabName := Js.or_undefined (selectedTab s);
                    datetimeColumn := selectedDatetime s;
                    predictableColumn := selectedPredictable s;
                    batchPeriode := periode;
                    cfg_rowSelection := rowSelection s |}).
  set (r := {| req_id := nextRequest s;
               req_command := submit_preprocess_config config;
               req_frame := None |}).
  assert (Hclick : step s ClickStart
                   = invoke (submit_preprocess_config config) None
                            (setSubmitting true s)).
  { unfold step, handleClickStart. rewrite Hallow, Hperiode. reflexivity. }
  exists periode, config.
  destruct (or_undefined_spec (selectedTab s)) as [Hempty Hname].
  repeat split; try assumption; try reflexivity.
  - rewrite Hclick. reflexivity.
  - rewrite Hclick.
    rewrite (issued_after_drop s (nextRequest s) [r]); try reflexivity.
    + exact Hwf.
    + simpl. f_equal. symmetry. apply forallb_filter_id, forallb_forall.
      destruct Hwf as [_ Hlt]. rewrite List.Forall_forall in Hlt.
      intros r' Hr'. specialize (Hlt r' Hr'). unfold otherThan.
      destruct (Nat.eqb_spec (req_id r') (nextRequest s)); [lia | reflexivity].
    + constructor; [simpl; lia | constructor].
  - cbv zeta.
    change (step (run events (step s ClickStart)) (Settled (nextRequest s) o))
      with (settle (req_id r) o (run events (step s ClickStart))).
    rewrite (settle_submit _ r config); try reflexivity.
    + destruct o; reflexivity.
    + apply run_wellFormed, step_wellFormed, Hwf.
    + apply (run_keeps_request events _ r); [|assumption].
      rewrite Hclick. simpl. apply in_or_app. right. left. reflexivity.
  - cbv zeta.
    change (step (run events (step s ClickStart)) (Settled (nextRequest s) o))
      with (settle (req_id r) o (run events (step s ClickStart))).
    rewrite (settle_submit _ r config); try reflexivity.
    + assert (Hwf2 : wellFormed (run events (step s ClickStart)))
        by apply run_wellFormed, step_wellFormed, Hwf.
      destruct o as [value|]; simpl isFulfilled; cbv iota.
      * rewrite (issued_after_drop _ (nextRequest s)
                   [{| req_id := nextRequest (run events (step s ClickStart));
                       req_command := start_train; req_frame := None |}]);
          [reflexivity | exact Hwf2 | reflexivity |].
        constructor; [simpl; lia | constructor].
      * rewrite (issued_after_drop _ (nextRequest s) []);
          [reflexivity | exact Hwf2 | | constructor].
        simpl. rewrite app_nil_r. reflexivity.
    + apply run_wellFormed, step_wellFormed, Hwf.
    + apply (run_keeps_request events _ r); [|assumption].
      rewrite Hclick. simpl. apply in_or_app. right. left. reflexivity.
Qed.

Lemma start_submits_then_trains_witness :
  isSubmitting (step firstFileShown ClickStart) = true
  /\ isSubmitting
       (step (step firstFileShown ClickStart) (Settled 1 Rejected)) = false
  /\ issued (step firstFileShown ClickStart)
            (step (step firstFileShown ClickStart) (Settled 1 Rejected)) = [].
Proof.
  destruct (start_submits_then_trains firstFileShown)
    as (periode & config & _ & _ & _ & _ & _ & _ & _ & Hset & _ & Hsettle).
  - apply run_wellFormed, mount_wellFormed.
  - reflexivity.
  - split; [exact Hset|].
    apply (Hsettle [] Rejected). constructor.
Defined.

Lemma allowSubmit_iff_ready_witness :
  Js.truthy (allowSubmit
    (step firstFileShown
       (RowSelectionModelChange {| sel_type := include; ids := [3] |})))
  = true
  /\ Js.truthy (allowSubmit
       (step firstFileShown
          (RowSelectionModelChange {| sel_type := include; ids := [] |})))
     <> true
  /\ Js.truthy (allowSubmit
       (step firstFileShown
          (RowSelectionModelChange
             {| sel_type := exclude; ids := [0; 1; 2; 3] |})))
     = true
  /\ Js.truthy (allowSubmit
       (step firstFileShown
          (RowSelectionModelChange
             {| sel_type := exclude; ids := [0; 1; 2; 3; 4] |})))
     <> true.
Proof.
  split; [|split; [|split]].
  - apply allowSubmit_iff_ready. cbv.
    repeat split; try discriminate. left. split; [reflexivity | lia].
  - intros H. apply allowSubmit_iff_ready in H.
    destruct H as (_ & _ & _ & _ & _ & _ & [[_ H]|[H _]]); cbv in H;
      [lia | discriminate].
  - apply allowSubmit_iff_ready. cbv.
    repeat split; try discriminate. right. split; [reflexivity | lia].
  - intros H. apply allowSubmit_iff_ready in H.
    destruct H as (_ & _ & _ & _ & _ & _ & [[H _]|[_ H]]); cbv in H;
      [discriminate | congruence].
Defined.

(** *** Answers that arrive after the page was left *)

(** An answer whose callback finds its [isCanceled] set changes nothing but
    the list of pending requests. *)
Lemma settle_canceled s r o :
  findRequest (req_id r) s = Some r ->
  (req_command r = get_data_info \/ exists tab, req_command r = select_sheet tab) ->
  frameCanceled (req_frame r) (dropRequest (req_id r) s) = true ->
  settle (req_id r) o s = dropRequest (req_id r) s.
Proof.
  intros Hfind Hcmd Hcanceled. unfold settle. rewrite Hfind.
  destruct Hcmd as [->|[tab ->]];
    destruct o as [[value|value|]|]; try reflexivity;
    rewrite Hcanceled; reflexivity.
Qed.

Lemma activationEffect_disabled_frames s :
  pageDisabled s = true -> frames (activationEffect s) = frames s.
Proof.
  intros H. unfold activationEffect.
  change (pageDisabled (setRows _ _)) with (pageDisabled s).
  rewrite H. reflexivity.
Qed.

Lemma runCleanup_frames f s :
  frames (runCleanup f s) = frames (cancelFrame f s).
Proof. unfold runCleanup. repeat break_match; reflexivity. Qed.

(** Leaving the page changes one closure variable at most: the
    [isCanceled] of the last run of the activation effect. *)
Lemma deactivation_frames s :
  pageDisabled s = false ->
  frames (setPageDisabled true s)
  = match effectCleanup s with
    | Some f => alter cancel f (frames s)
    | None => frames s
    end.
Proof.
  intros Hen. unfold setPageDisabled. rewrite Hen. simpl eqb. cbv iota.
  rewrite activationEffect_disabled_frames by reflexivity.
  change (frames (setPageDisabledProp true ?a)) with (frames a).
  destruct (effectCleanup s) as [f|]; [|reflexivity].
  apply runCleanup_frames.
Qed.

(** Leaving the page sets the [isCanceled] of the activation effect. *)
Lemma deactivation_cancels_effect s f :
  pageDisabled s = false -> effectCleanup s = Some f ->
  (f < length (frames s))%nat ->
  frameCanceled (Some f) (setPageDisabled true s) = true.
Proof.
  intros Hen Hcl Hlt. unfold frameCanceled.
  rewrite deactivation_frames, Hcl by exact Hen.
  rewrite list_lookup_alter_eq.
  destruct (lookup_lt_is_Some_2 (frames s) f Hlt) as [fr ->].
  reflexivity.
Qed.

(** It does not reach the [isCanceled] of a [handleSelectTab] call: the
    function that would set it was handed to nobody. *)
Lemma deactivation_spares_select_sheet s value :
  disabled s = false ->
  (length (tabs s) =? 0)%nat = false ->
  (forall f, effectCleanup s = Some f -> (f < length (frames s))%nat) ->
  (handleSelectTab value s).2 = Some (length (frames s))
  /\ frames (step s (SelectTab value)) !! length (frames s)
     = Some {| isCanceled := false; timeoutHandler := None |}
  /\ frameCanceled (Some (length (frames s)))
       (setPageDisabled true (step s (SelectTab value))) = false.
Proof.
  intros Hen Htabs Hcl. unfold step, handleSelectTab.
  rewrite Hen, Htabs. simpl orb. cbv iota.
  split; [reflexivity|].
  unfold disabled in Hen. apply orb_false_iff in Hen as [Hen _].
  apply orb_false_iff in Hen as [Hen _].
  set (s1 := invoke (select_sheet value) (Some (length (frames s)))
               (setLoading true
                  (newFrame {| isCanceled := false; timeoutHandler := None |}
                     (setSelectedTab value s)))).
  change ((_ , _).1) with s1.
  assert (Hnew : frames s1 !! length (frames s)
                 = Some {| isCanceled := false; timeoutHandler := None |}).
  { change (frames s1)
      with (frames s ++ [{| isCanceled := false; timeoutHandler := None |}]).
    rewrite lookup_app_r by lia. rewrite Nat.sub_diag. reflexivity. }
  split; [exact Hnew|].
  unfold frameCanceled. rewrite deactivation_frames by exact Hen.
  change (effectCleanup s1) with (effectCleanup s).
  destruct (effectCleanup s) as [f|] eqn:E.
  - specialize (Hcl f eq_refl).
    rewrite list_lookup_alter_ne by lia. rewrite Hnew. reflexivity.
  - rewrite Hnew. reflexivity.
Qed.

(** *** The liveness flag of the activation effect *)

Lemma frameCanceled_frames f s s' :
  frames s' = frames s ->
  frameCanceled (Some f) s' = frameCanceled (Some f) s.
Proof. intros E. unfold frameCanceled. rewrite E. reflexivity. Qed.

Lemma frameCanceled_grows f s s' more :
  frames s' = frames s ++ more ->
  frameCanceled (Some f) s = true -> frameCanceled (Some f) s' = true.
Proof.
  unfold frameCanceled. intros -> H.
  destruct (frames s !! f) as [fr|] eqn:E; [|discriminate].
  rewrite (lookup_app_l_Some _ _ _ _ E). exact H.
Qed.

Lemma frameCanceled_cancel f f0 s s' :
  frames s' = alter cancel f0 (frames s) ->
  frameCanceled (Some f) s = true -> frameCanceled (Some f) s' = true.
Proof.
  unfold frameCanceled. intros -> H.
  destruct (frames s !! f) as [fr|] eqn:E; [|discriminate].
  destruct (decide (f0 = f)) as [->|Hne].
  - rewrite list_lookup_alter_eq, E. reflexivity.
  - rewrite list_lookup_alter_ne by exact Hne. rewrite E. exact H.
Qed.

Lemma mount_guarded v : guarded (mount v).
Proof.
  unfold guarded, mount, activationEffect. destruct v; simpl.
  - repeat split; intros; try discriminate; contradiction.
  - split; [|split].
    + intros f [= <-]. simpl. lia.
    + intros h f [[= <- <-]|[]]. split; [reflexivity|].
      eexists. split; reflexivity.
    + intros r [].
Qed.

(** Steps that leave the effect and its timer alone, add environments at
    most, and send no [get_data_info]. *)
Lemma guarded_same_effect s s' more :
  frames s' = frames s ++ more ->
  effectCleanup s' = effectCleanup s ->
  timers s' = timers s ->
  (forall r, In r (inflight s') -> req_command r = get_data_info ->
             In r (inflight s)) ->
  guarded s -> guarded s'.
Proof.
  intros Hfr Hcl Htm Hin (Hown & Htimer & Hreq). split; [|split].
  - intros f Hf. rewrite Hcl in Hf. rewrite Hfr, length_app.
    specialize (Hown f Hf). lia.
  - intros h f Hhf. rewrite Htm in Hhf.
    destruct (Htimer h f Hhf) as (Hc & fr & Hfrm & Hh).
    split; [rewrite Hcl; exact Hc|].
    exists fr. split; [|exact Hh].
    rewrite Hfr. apply lookup_app_l_Some, Hfrm.
  - intros r Hr Hcmd.
    destruct (Hreq r (Hin r Hr Hcmd) Hcmd) as (f & Hf & Hor).
    exists f. split; [exact Hf|]. rewrite Hcl.
    destruct Hor as [Hc|Hc]; [left; exact Hc | right].
    eapply frameCanceled_grows; eassumption.
Qed.

Ltac old_request :=
  let r := fresh "r" in
  let Hr := fresh "Hr" in
  let Hc := fresh "Hc" in
  intros r Hr Hc; simpl in Hr;
  repeat match type of Hr with
         | In _ (_ ++ _) => apply in_app_or in Hr as [Hr|Hr]
         | In _ (List.filter _ _) => apply filter_In in Hr as [Hr _]
         end;
  try exact Hr;
  destruct Hr as [<-|[]]; discriminate.

Lemma settle_guarded id o s : guarded s -> guarded (settle id o s).
Proof.
  unfold settle. repeat break_match; try (intros H; exact H);
    apply (guarded_same_effect _ _ []);
    try (rewrite app_nil_r; reflexivity); try reflexivity; old_request.
Qed.

Lemma cleared_timers (h : nat) (l : list (nat * nat)) :
  (forall t, In t l -> t.1 = h) ->
  List.filter (fun t => negb (t.1 =? h)%nat) l = [].
Proof.
  induction l as [|t l IH]; intros H; simpl; [reflexivity|].
  rewrite (H t (or_introl eq_refl)), Nat.eqb_refl. simpl.
  apply IH. intros t' Ht'. apply H. right. exact Ht'.
Qed.

(** After the cleanup of the effect in force no timer is pending and every
    pending [get_data_info] has its [isCanceled] set. *)
Lemma cleanup_cancels s :
  guarded s ->
  let s1 := match effectCleanup s with
            | Some f => runCleanup f s
            | None => s
            end in
  timers s1 = []
  /\ inflight s1 = inflight s
  /\ nextTimer s1 = nextTimer s
  /\ pageDisabled s1 = pageDisabled s
  /\ (forall r, In r (inflight s1) -> req_command r = get_data_info ->
        exists f, req_frame r = Some f /\ frameCanceled (Some f) s1 = true).
Proof.
  intros (Hown & Htimer & Hreq).
  destruct (effectCleanup s) as [f0|] eqn:Hcl; cbv zeta.
  - specialize (Hown f0 eq_refl).
    destruct (lookup_lt_is_Some_2 (frames s) f0 Hown) as [fr0 Hfr0].
    assert (Hcanceled : frames (cancelFrame f0 s) !! f0 = Some (cancel fr0)).
    { unfold cancelFrame. simpl. rewrite list_lookup_alter_eq, Hfr0.
      reflexivity. }
    assert (Hall : forall r, In r (inflight s) ->
              req_command r = get_data_info ->
              exists f, req_frame r = Some f
                        /\ frameCanceled (Some f) (cancelFrame f0 s) = true).
    { intros r Hr Hcmd. destruct (Hreq r Hr Hcmd) as (f & Hf & [Hc|Hc]).
      - injection Hc as <-. exists f0. split; [exact Hf|].
        unfold frameCanceled. rewrite Hcanceled. reflexivity.
      - exists f. split; [exact Hf|].
        eapply frameCanceled_cancel; [|exact Hc]. reflexivity. }
    unfold runCleanup. rewrite Hcanceled.
    destruct fr0 as [c0 [h0|]]; simpl.
    + repeat split; [|exact Hall].
      apply cleared_timers. intros [h f] Hhf. simpl.
      destruct (Htimer h f Hhf) as (Hc & fr & Hfrm & Hh).
      injection Hc as <-. rewrite Hfr0 in Hfrm. injection Hfrm as <-.
      simpl in Hh. congruence.
    + repeat split; [|exact Hall].
      destruct (timers s) as [|[h f] rest] eqn:Htm; [reflexivity|].
      destruct (Htimer h f) as (Hc & fr & Hfrm & Hh);
        [left; reflexivity|].
      injection Hc as <-. rewrite Hfr0 in Hfrm. injection Hfrm as <-.
      discriminate.
  - repeat split.
    + destruct (timers s) as [|[h f] rest] eqn:Htm; [reflexivity|].
      destruct (Htimer h f) as (Hc & _); [left; reflexivity|].
      discriminate.
    + intros r Hr Hcmd. destruct (Hreq r Hr Hcmd) as (f & Hf & [Hc|Hc]);
        [discriminate|]. eauto.
Qed.

(** What a run of the activation effect leaves behind. *)
Lemma activationEffect_components s :
  pageDisabled (activationEffect s) = pageDisabled s
  /\ inflight (activationEffect s) = inflight s
  /\ if pageDisabled s
     then frames (activationEffect s) = frames s
          /\ effectCleanup (activationEffect s) = None
          /\ timers (activationEffect s) = timers s
     else frames (activationEffect s)
          = frames s ++ [{| isCanceled := false;
                            timeoutHandler := Some (nextTimer s) |}]
          /\ effectCleanup (activationEffect s) = Some (length (frames s))
          /\ timers (activationEffect s)
             = timers s ++ [(nextTimer s, length (frames s))].
Proof.
  unfold activationEffect.
  change (pageDisabled (setRows _ _)) with (pageDisabled s).
  destruct (pageDisabled s) eqn:E; repeat split;
    vm_compute; try reflexivity; exact E.
Qed.

Lemma setPageDisabled_guarded v s :
  guarded s -> guarded (setPageDisabled v s).
Proof.
  intros Hg. unfold setPageDisabled.
  destruct (eqb v (pageDisabled s)); [exact Hg|].
  destruct (cleanup_cancels s Hg) as (Htm & _ & Hnext & _ & Hall).
  set (s1 := match effectCleanup s with
             | Some f => runCleanup f s
             | None => s
             end) in *.
  clearbody s1. clear Hg.
  destruct (activationEffect_components (setPageDisabledProp v s1))
    as (_ & Hin & Hrest).
  change (pageDisabled (setPageDisabledProp v s1)) with v in Hrest.
  change (inflight (setPageDisabledProp v s1)) with (inflight s1) in Hin.
  change (frames (setPageDisabledProp v s1)) with (frames s1) in Hrest.
  change (timers (setPageDisabledProp v s1)) with (timers s1) in Hrest.
  change (nextTimer (setPageDisabledProp v s1)) with (nextTimer s1) in Hrest.
  set (s' := activationEffect (setPageDisabledProp v s1)) in *.
  clearbody s'. unfold guarded. rewrite Hin.
  destruct v; destruct Hrest as (Hfr & Hcl & Htm'); rewrite Hcl, Htm', Htm.
  - split; [|split].
    + intros f [=].
    + intros h f [].
    + intros r Hr Hcmd. destruct (Hall r Hr Hcmd) as (f & Hf & Hc).
      exists f. split; [exact Hf|]. right.
      rewrite (frameCanceled_frames f s1 s' Hfr). exact Hc.
  - split; [|split].
    + intros f [= <-]. rewrite Hfr, length_app. simpl. lia.
    + intros h f [[= <- <-]|[]]. split; [reflexivity|].
      eexists. split.
      * rewrite Hfr, lookup_app_r by lia. rewrite Nat.sub_diag.
        reflexivity.
      * reflexivity.
    + intros r Hr Hcmd. destruct (Hall r Hr Hcmd) as (f & Hf & Hc).
      exists f. split; [exact Hf|]. right.
      exact (frameCanceled_grows f s1 s' _ Hfr Hc).
Qed.

Lemma timeoutFires_guarded h s : guarded s -> guarded (timeoutFires h s).
Proof.
  intros Hg. unfold timeoutFires.
  destruct (List.find _ (timers s)) as [[h' f]|] eqn:Hfind; [|exact Hg].
  apply find_some in Hfind as [Hhf Heq]. simpl in Heq.
  apply Nat.eqb_eq in Heq as ->.
  destruct Hg as (Hown & Htimer & Hreq).
  destruct (Htimer h f Hhf) as (Hcl & fr & Hfr & Hh).
  assert (Hrest : timers (clearTimeout h s) = []).
  { apply cleared_timers. intros [h2 f2] H2. simpl.
    destruct (Htimer h2 f2 H2) as (Hc2 & fr2 & Hfr2 & Hh2).
    rewrite Hcl in Hc2. injection Hc2 as <-.
    rewrite Hfr in Hfr2. injection Hfr2 as <-. congruence. }
  destruct (frameCanceled (Some f) (clearTimeout h s)).
  - split; [exact Hown | split; [|exact Hreq]].
    intros h2 f2 H2. rewrite Hrest in H2. contradiction.
  - split; [|split].
    + intros f2 Hf2. simpl. rewrite length_alter. apply Hown, Hf2.
    + intros h2 f2 H2. simpl in H2. fold (clearTimeout h s) in H2.
      change (List.filter _ (timers s)) with (timers (clearTimeout h s)) in H2.
      rewrite Hrest in H2. contradiction.
    + intros r Hr Hcmd. simpl in Hr. apply in_app_or in Hr as [Hr|Hr].
      * destruct (Hreq r Hr Hcmd) as (f2 & Hf2 & Hor).
        exists f2. split; [exact Hf2|].
        destruct Hor as [Hc|Hc]; [left; exact Hc | right].
        unfold frameCanceled in *. simpl.
        destruct (decide (f = f2)) as [->|Hne].
        -- rewrite list_lookup_alter_eq.
           destruct (frames s !! f2); [exact Hc | discriminate].
        -- rewrite list_lookup_alter_ne by exact Hne. exact Hc.
      * destruct Hr as [<-|[]]. exists f. split; [reflexivity|].
        left. exact Hcl.
Qed.

Lemma step_guarded s ev : guarded s -> guarded (step s ev).
Proof.
  intros Hg. destruct ev; unfold step.
  - apply setPageDisabled_guarded, Hg.
  - apply timeoutFires_guarded, Hg.
  - apply settle_guarded, Hg.
  - unfold handleSelectTab. repeat break_match; try exact Hg.
    simpl. eapply guarded_same_effect; [| | | |exact Hg];
      try reflexivity. old_request.
  - destruct (disabled s); [exact Hg|].
    apply (guarded_same_effect s _ []); try reflexivity; try exact Hg.
    + symmetry. apply app_nil_r.
    + old_request.
  - destruct (disabled s); [exact Hg|].
    apply (guarded_same_effect s _ []); try reflexivity; try exact Hg.
    + symmetry. apply app_nil_r.
    + old_request.
  - destruct (disabled s); [exact Hg|].
    apply (guarded_same_effect s _ []); try reflexivity; try exact Hg.
    + symmetry. apply app_nil_r.
    + old_request.
  - destruct (pageDisabled s || isLoading s); [exact Hg|].
    apply (guarded_same_effect s _ []); try reflexivity; try exact Hg.
    + symmetry. apply app_nil_r.
    + old_request.
  - unfold handleClickStart. repeat break_match; try exact Hg.
    apply (guarded_same_effect s _ []); try reflexivity; try exact Hg.
    + symmetry. apply app_nil_r.
    + old_request.
  - destruct (disabled s); [exact Hg|].
    apply (guarded_same_effect s _ []); try reflexivity; try exact Hg.
    + symmetry. apply app_nil_r.
    + old_request.
Qed.

Lemma run_guarded events : forall s, guarded s -> guarded (run events s).
Proof.
  induction events as [|ev rest IH]; intros s H; simpl; [exact H|].
  apply IH, step_guarded, H.
Qed.

(** The guarded path, in every state the page reaches: the answer to a
    [get_data_info] that is not of the effect in force changes nothing but
    the list of pending requests. *)
Lemma stale_get_data_info_discarded v events r o :
  In r (inflight (run events (mount v))) ->
  req_command r = get_data_info ->
  req_frame r <> effectCleanup (run events (mount v)) ->
  settle (req_id r) o (run events (mount v))
  = dropRequest (req_id r) (run events (mount v)).
Proof.
  set (s := run events (mount v)). intros Hr Hcmd Hstale.
  assert (Hwf : wellFormed s) by apply run_wellFormed, mount_wellFormed.
  assert (Hg : guarded s) by apply run_guarded, mount_guarded.
  destruct Hg as (_ & _ & Hreq).
  destruct (Hreq r Hr Hcmd) as (f & Hf & [Hc|Hc]); [congruence|].
  apply settle_canceled.
  - apply find_unique; [apply Hwf | exact Hr].
  - left. exact Hcmd.
  - rewrite Hf.
    rewrite (frameCanceled_frames f s) by reflexivity. exact Hc.
Qed.

(** Only a change of the [tabIndex] prop touches the effect. *)
Lemma step_keeps_effect s ev :
  (forall v, ev <> SetPageDisabled v) ->
  pageDisabled (step s ev) = pageDisabled s
  /\ effectCleanup (step s ev) = effectCleanup s.
Proof.
  intros Hev. destruct ev as [v| | | | | | | | |];
    [destruct (Hev v eq_refl)| ..];
    unfold step, timeoutFires, settle, handleSelectTab, handleClickStart,
      handleClickChange;
    repeat break_match; split; reflexivity.
Qed.

Lemma step_disabled_no_effect s ev :
  (pageDisabled s = true -> effectCleanup s = None) ->
  pageDisabled (step s ev) = true -> effectCleanup (step s ev) = None.
Proof.
  intros Hs. destruct ev as [v| | | | | | | | |].
  2-10: (intros H;
         match goal with
         | |- effectCleanup (step _ ?ev) = _ =>
             destruct (step_keeps_effect s ev ltac:(discriminate))
               as [Hp Hc]
         end;
         rewrite Hc; apply Hs; rewrite <- Hp; exact H).
  unfold step, setPageDisabled.
  destruct (eqb v (pageDisabled s)); [exact Hs|].
  set (s1 := match effectCleanup s with
             | Some f => runCleanup f s
             | None => s
             end).
  destruct (activationEffect_components (setPageDisabledProp v s1))
    as (Hp & _ & Hrest).
  change (pageDisabled (setPageDisabledProp v s1)) with v in *.
  rewrite Hp. intros ->. apply Hrest.
Qed.

(** Once the page is disabled no effect is in force. *)
Lemma disabled_no_effect v events :
  pageDisabled (run events (mount v)) = true ->
  effectCleanup (run events (mount v)) = None.
Proof.
  induction events as [|ev rest IH] using rev_ind.
  - destruct v; simpl; [reflexivity | discriminate].
  - unfold run. rewrite fold_left_app. simpl.
    apply step_disabled_no_effect, IH.
Qed.

(** So while the page is disabled every answer to a [get_data_info] is
    discarded. *)
Lemma get_data_info_discarded_while_disabled v events r o :
  pageDisabled (run events (mount v)) = true ->
  In r (inflight (run events (mount v))) ->
  req_command r = get_data_info ->
  settle (req_id r) o (run events (mount v))
  = dropRequest (req_id r) (run events (mount v)).
Proof.
  intros Hdis Hr Hcmd.
  apply stale_get_data_info_discarded; [exact Hr | exact Hcmd |].
  rewrite (disabled_no_effect v events Hdis).
  pose proof (run_guarded events (mount v) (mount_guarded v))
    as (_ & _ & Hreq).
  destruct (Hreq r Hr Hcmd) as (f & -> & _). discriminate.
Qed.

(** The sibling path: the answer to a [get_data_info] of an earlier
    activation changes nothing on show. *)
Lemma stale_get_data_info_answer_is_dropped :
  visible staleDataInfoArrived = visible reactivatedWhileFetching
  /\ isLoading staleDataInfoArrived = isLoading reactivatedWhileFetching
  /\ visible staleDataInfoArrived
     = ("second.xlsx", sheet_columns secondSheet,
        map (convertRow (sheet_columns secondSheet)) (sheet_rows secondSheet),
        "Q1").
Proof. split; [|split]; vm_compute; reflexivity. Qed.

(** C1, on [select_sheet].  The page shows the first file, the user picks
    tab B, the page is left and entered again and shows the second file;
    then the answer to the [select_sheet] of the first activation arrives.
    Its [isCanceled] was never set, so it is applied: the columns, the rows
    and the selected tab on show are those of tab B of the first file,
    under the name and the tab list of the second. *)
Theorem stale_select_sheet_answer_is_applied :
  visible reactivated
  = ("second.xlsx", sheet_columns secondSheet,
     map (convertRow (sheet_columns secondSheet)) (sheet_rows secondSheet),
     "Q1")
  /\ frameCanceled (Some 1%nat) reactivated = false
  /\ visible staleAnswerArrived
     = ("second.xlsx", sheet_columns sheetB,
        map (convertRow (sheet_columns sheetB)) (sheet_rows sheetB), "B")
  /\ visible staleAnswerArrived <> visible reactivated.
Proof.
  split; [|split; [|split]]; vm_compute; try reflexivity. discriminate.
Qed.

End PreprocessFacts.

(** ** The Evaluate page *)

Module EvaluateFacts.
Import Evaluate.

(** The listeners all store the same value. *)
Lemma progress_delivered p (ls : list nat) : forall s,
  fold_left (fun s _ => onProgress p s) ls s
  = match ls with
    | [] => s
    | _ :: _ => setPredictProgress (Js.roundHundredths p) s
    end.
Proof.
  induction ls as [|l ls IH]; intros s; [reflexivity|].
  simpl. rewrite IH. destruct ls; reflexivity.
Qed.

Lemma progress_stored s p :
  listeners s <> [] ->
  step s (Progress p) = setPredictProgress (Js.roundHundredths p) s.
Proof.
  intros H. unfold step. rewrite progress_delivered.
  destruct (listeners s); [congruence | reflexivity].
Qed.

(** C8.  The view puts the stored progress in front of a percent sign,
    and what the handler stores is [Math.round(payload * 100) / 100]: the
    payload to two decimal places, not the payload times 100.  With half
    of the work done the payload is 0.5 and the page shows [(0.5%)]; the
    percentage to two decimal places is 50.  A finished prediction,
    payload 1, is shown as [(1%)]. *)
Theorem half_is_shown_as_half_not_fifty :
  shownProgress (step predicting (Progress 0.5)) = Some 0.5%float
  /\ percentTwoDecimals 0.5 = 50%float
  /\ shownProgress (step predicting (Progress 0.5))
     <> Some (percentTwoDecimals 0.5)
  /\ shownProgress (step predicting (Progress 1)) = Some 1%float
  /\ percentTwoDecimals 1 = 100%float.
Proof.
  split; [|split; [|split; [|split]]]; try (vm_compute; reflexivity).
  intros H.
  apply (f_equal (fun shown => match shown with
                               | Some v => (v <? 1)%float
                               | None => false
                               end)) in H.
  vm_compute in H. discriminate.
Qed.

(** *** The subscription *)

Lemma mount_subscription v : subscription (mount v).
Proof.
  unfold subscription, mount, activationEffect. destruct v; simpl.
  - split; reflexivity.
  - eexists _, _. split; reflexivity.
Qed.

Lemma unlisten_only l s :
  listeners s = [l] -> listeners (unlisten l s) = [].
Proof.
  intros H. unfold unlisten. simpl. rewrite H. simpl.
  rewrite Nat.eqb_refl. reflexivity.
Qed.

Lemma setPageDisabled_subscription v s :
  subscription s -> subscription (setPageDisabled v s).
Proof.
  unfold subscription, setPageDisabled.
  destruct (pageDisabled s) eqn:Hdis, v; simpl eqb; cbv iota;
    rewrite ?Hdis; try (intros H; exact H).
  - intros [Hls Hcl]. rewrite Hcl.
    unfold activationEffect. simpl. rewrite Hls.
    eexists _, _. split; reflexivity.
  - intros (l & f & Hls & Hcl). rewrite Hcl.
    unfold activationEffect, runCleanup. simpl.
    rewrite Hls. simpl. rewrite Nat.eqb_refl. split; reflexivity.
Qed.

Lemma step_subscription s ev : subscription s -> subscription (step s ev).
Proof.
  intros H. destruct ev as [v|p|id o| |].
  - apply setPageDisabled_subscription, H.
  - unfold step. rewrite progress_delivered.
    destruct (listeners s); exact H.
  - unfold step, settle. repeat break_match; exact H.
  - unfold step, handleSave. destruct (isBusy s); exact H.
  - unfold step, handleRestart. destruct (isBusy s); exact H.
Qed.

Lemma run_subscription events : forall s,
  subscription s -> subscription (run events s).
Proof.
  induction events as [|ev rest IH]; intros s H; simpl; [exact H|].
  apply IH, step_subscription, H.
Qed.

(** C9, as the code has it.  In any state the page reaches in which it is
    enabled and holds a report, the progress listener is still
    registered: a progress event then overwrites the stored progress with
    the rounded payload, and changes neither the report nor the view,
    which is the Ready view and shows no progress.  The listener goes when
    the page is disabled, and from then on a progress event changes
    nothing. *)
Theorem progress_subscription_outlives_report
    (v : bool) (events : list Event) (value : EvaluationReport) (p : float) :
  pageDisabled (run events (mount v)) = false ->
  report (run events (mount v)) = Some value ->
  listeners (run events (mount v)) <> []
  /\ predictProgress (step (run events (mount v)) (Progress p))
     = Js.roundHundredths p
  /\ report (step (run events (mount v)) (Progress p)) = Some value
  /\ view (step (run events (mount v)) (Progress p))
     = view (run events (mount v))
  /\ shownProgress (step (run events (mount v)) (Progress p)) = None
  /\ listeners (step (run events (mount v)) (SetPageDisabled true)) = []
  /\ step (step (run events (mount v)) (SetPageDisabled true)) (Progress p)
     = step (run events (mount v)) (SetPageDisabled true).
Proof.
  set (s := run events (mount v)). intros Hen Hrep.
  assert (Hsub : subscription s)
    by apply run_subscription, mount_subscription.
  assert (Hoff : listeners (step s (SetPageDisabled true)) = []).
  { pose proof (step_subscription s (SetPageDisabled true) Hsub) as H.
    unfold subscription in H.
    replace (pageDisabled (step s (SetPageDisabled true))) with true in H.
    - apply H.
    - unfold step, setPageDisabled. rewrite Hen. simpl eqb. cbv iota.
      unfold activationEffect. simpl. reflexivity. }
  unfold subscription in Hsub. rewrite Hen in Hsub.
  destruct Hsub as (l & f & Hls & _).
  assert (Hne : listeners s <> []) by (rewrite Hls; discriminate).
  rewrite progress_stored by exact Hne.
  split; [exact Hne|]. split; [reflexivity|]. split; [exact Hrep|].
  split; [|split; [|split]].
  - unfold view. simpl. rewrite Hrep, Hen. reflexivity.
  - unfold shownProgress, view. simpl. rewrite Hrep, Hen. reflexivity.
  - exact Hoff.
  - unfold step at 1. rewrite progress_delivered, Hoff. reflexivity.
Qed.

Lemma progress_subscription_outlives_report_witness :
  listeners (run [Settled 0 (Fulfilled (Some sampleReport))] (mount false))
  <> []
  /\ predictProgress
       (step (run [Settled 0 (Fulfilled (Some sampleReport))] (mount false))
             (Progress 0.25))
     = Js.roundHundredths 0.25.
Proof.
  destruct (progress_subscription_outlives_report false
              [Settled 0 (Fulfilled (Some sampleReport))] sampleReport 0.25)
    as (Hls & Hstored & _).
  - vm_compute. reflexivity.
  - vm_compute. reflexivity.
  - exact (conj Hls Hstored).
Defined.

(** C9 as worded fails: the report has arrived, and the next progress
    event changes the stored progress from 0 to one half. *)
Lemma progress_after_report_is_stored :
  report ready = Some sampleReport
  /\ pageDisabled ready = false
  /\ predictProgress ready = 0%float
  /\ predictProgress (step ready (Progress 0.5)) = 0.5%float
  /\ step ready (Progress 0.5) <> ready.
Proof.
  split; [|split; [|split; [|split]]]; vm_compute; try reflexivity.
  discriminate.
Qed.

End EvaluateFacts.

(** ** More on the Preprocess page *)

Module PreprocessMore.
Import Preprocess.

(** While the controls are disabled the user changes nothing, but for
    the selection of rows when the grid is in the page. *)
Lemma disabled_user_event s ev :
  disabled s = true -> userEvent ev ->
  step s ev = s
  \/ (pageDisabled s || isLoading s = false
      /\ exists sel, ev = RowSelectionModelChange sel
                     /\ step s ev = setRowSelection sel s).
Proof.
  intros Hdis Hev. destruct ev; try contradiction; unfold step;
    rewrite ?Hdis; try (left; reflexivity).
  - destruct (pageDisabled s || isLoading s); [left; reflexivity|].
    right. split; [reflexivity|]. exists sel. split; reflexivity.
  - left. destruct (Js.truthy (allowSubmit s)) eqn:E; [|reflexivity].
    apply PreprocessFacts.allowSubmit_truthy in E as (Hp & Hl & Hs & _).
    unfold disabled in Hdis. rewrite Hp, Hl, Hs in Hdis. discriminate.
Qed.

(** With the page disabled or loading the grid is gone too. *)
Lemma gridless_user_event s ev :
  pageDisabled s || isLoading s = true -> userEvent ev -> step s ev = s.
Proof.
  intros Hoff Hev.
  assert (Hdis : disabled s = true)
    by (unfold disabled; rewrite Hoff; reflexivity).
  destruct (disabled_user_event s ev Hdis Hev) as [H|[H _]];
    [exact H | congruence].
Qed.

Lemma gridless_user_events events : forall s,
  pageDisabled s || isLoading s = true -> Forall userEvent events ->
  run events s = s.
Proof.
  induction events as [|ev rest IH]; intros s Hoff Hall; [reflexivity|].
  apply Forall_cons in Hall as [Hev Hrest]. simpl.
  rewrite gridless_user_event by assumption. apply IH; assumption.
Qed.

(** *** Answers to [get_data_info] *)

Lemma dropRequest_cells id s :
  visible (dropRequest id s) = visible s
  /\ sheetCells (dropRequest id s) = sheetCells s
  /\ isLoading (dropRequest id s) = isLoading s.
Proof. repeat split. Qed.

(** X1.  In every state the page reaches, the answer to a [get_data_info]
    that was not sent by the activation effect in force (or any answer to
    one while the page is disabled) only leaves the list of pending
    requests: the name, the sheet on show, the selections and the loading
    flag stay as they are. *)
Theorem stale_data_info_changes_nothing v events r o :
  In r (inflight (run events (mount v))) ->
  req_command r = get_data_info ->
  req_frame r <> effectCleanup (run events (mount v))
  \/ pageDisabled (run events (mount v)) = true ->
  settle (req_id r) o (run events (mount v))
  = dropRequest (req_id r) (run events (mount v))
  /\ visible (settle (req_id r) o (run events (mount v)))
     = visible (run events (mount v))
  /\ sheetCells (settle (req_id r) o (run events (mount v)))
     = sheetCells (run events (mount v))
  /\ isLoading (settle (req_id r) o (run events (mount v)))
     = isLoading (run events (mount v)).
Proof.
  intros Hr Hcmd Hstale.
  assert (E : settle (req_id r) o (run events (mount v))
              = dropRequest (req_id r) (run events (mount v))).
  { destruct Hstale as [Hstale|Hdis].
    - apply PreprocessFacts.stale_get_data_info_discarded; assumption.
    - apply PreprocessFacts.get_data_info_discarded_while_disabled;
        assumption. }
  rewrite E. split; [reflexivity|]. apply dropRequest_cells.
Qed.

Lemma stale_data_info_changes_nothing_witness :
  visible
    (settle 0 (Fulfilled (PDataInfo firstFile))
       (run [SetPageDisabled false; TimeoutFires 0; SetPageDisabled true;
             SetPageDisabled false; TimeoutFires 1] (mount true)))
  = visible
      (run [SetPageDisabled false; TimeoutFires 0; SetPageDisabled true;
            SetPageDisabled false; TimeoutFires 1] (mount true)).
Proof.
  apply (stale_data_info_changes_nothing true
           [SetPageDisabled false; TimeoutFires 0; SetPageDisabled true;
            SetPageDisabled false; TimeoutFires 1]
           {| req_id := 0; req_command := get_data_info;
              req_frame := Some 0%nat |}).
  - vm_compute. left. reflexivity.
  - reflexivity.
  - left. vm_compute. discriminate.
Defined.

(** *** The delay before [get_data_info] *)

Lemma reached_timers v events h f :
  In (h, f) (timers (run events (mount v))) ->
  effectCleanup (run events (mount v)) = Some f
  /\ pageDisabled (run events (mount v)) = false.
Proof.
  intros Hhf.
  destruct (PreprocessFacts.run_guarded events (mount v)
              (PreprocessFacts.mount_guarded v)) as (_ & Htimer & _).
  destruct (Htimer h f Hhf) as [Hcl _]. split; [exact Hcl|].
  destruct (pageDisabled (run events (mount v))) eqn:E; [|reflexivity].
  rewrite (PreprocessFacts.disabled_no_effect v events E) in Hcl.
  discriminate.
Qed.

Lemma disabled_no_timer v events :
  pageDisabled (run events (mount v)) = true ->
  timers (run events (mount v)) = [].
Proof.
  intros Hdis.
  destruct (timers (run events (mount v))) as [|[h f] rest] eqn:E;
    [reflexivity|].
  destruct (reached_timers v events h f) as [_ Hen];
    [rewrite E; left; reflexivity|].
  congruence.
Qed.

(** X2.  A pending timer always belongs to the activation effect in force,
    on an enabled page.  So once the page is disabled the delay is
    cancelled: no timer is pending, and a timer that fires all the same
    does nothing, in particular it sends no [get_data_info]. *)
Theorem delay_cancelled_with_the_activation v events :
  (forall h f, In (h, f) (timers (run events (mount v))) ->
     effectCleanup (run events (mount v)) = Some f
     /\ pageDisabled (run events (mount v)) = false)
  /\ (pageDisabled (run events (mount v)) = true ->
      timers (run events (mount v)) = []
      /\ forall h, step (run events (mount v)) (TimeoutFires h)
                   = run events (mount v)).
Proof.
  split; [apply reached_timers|].
  intros Hdis. pose proof (disabled_no_timer v events Hdis) as Hnone.
  split; [exact Hnone|].
  intros h. unfold step, timeoutFires. rewrite Hnone. reflexivity.
Qed.

Lemma delay_cancelled_with_the_activation_witness :
  step (run [SetPageDisabled false; SetPageDisabled true] (mount true))
       (TimeoutFires 0)
  = run [SetPageDisabled false; SetPageDisabled true] (mount true).
Proof.
  apply (proj2 (delay_cancelled_with_the_activation true
                  [SetPageDisabled false; SetPageDisabled true])).
  vm_compute. reflexivity.
Defined.

(** *** Entering the page *)






(** *** [changeSheetInfo] *)

Lemma datetimeFields_spec cols k :
  In k (datetimeFields cols)
  <-> exists c, In c cols /\ col_type c = TDateTime /\ field c = k.
Proof.
  unfold datetimeFields. rewrite in_map_iff. split.
  - intros (c & Hk & Hc). apply filter_In in Hc as [Hc Ht].
    exists c. repeat split; try assumption.
    destruct (col_type c); simpl in Ht; congruence.
  - intros (c & Hc & Ht & Hk). exists c. split; [exact Hk|].
    apply filter_In. split; [exact Hc|]. rewrite Ht. reflexivity.
Qed.

(** One cell of a row, as [changeSheetInfo] stores it. *)
Lemma convertRow_cell cols row k v :
  In (k, v) row ->
  In (k, match v with
         | VString iso =>
             if bool_decide (k ∈ datetimeFields cols) then VDate iso else v
         | _ => v
         end)
     (convertRow cols row).
Proof.
  intros Hin. unfold convertRow. apply in_map_iff.
  exists (k, v). split; [|exact Hin]. simpl.
  destruct (bool_decide (k ∈ datetimeFields cols)); destruct v; reflexivity.
Qed.

Lemma convertRow_keys cols row :
  map fst (convertRow cols row) = map fst row.
Proof.
  unfold convertRow. rewrite List.map_map. apply List.map_ext.
  intros [k v]. simpl.
  destruct (bool_decide (k ∈ datetimeFields cols)); destruct v; reflexivity.
Qed.

Lemma convertRow_again cols row :
  convertRow cols (convertRow cols row) = convertRow cols row.
Proof.
  unfold convertRow. rewrite List.map_map. apply List.map_ext.
  intros [k v]. simpl.
  destruct (bool_decide (k ∈ datetimeFields cols)) eqn:E; destruct v; simpl;
    rewrite ?E; reflexivity.
Qed.

(** X4.  The rows that [changeSheetInfo] stores have the shape of the rows
    received: as many rows, and in each row the same keys in the same
    order.  A cell changes only when it is a string under the [field] of a
    column of type [dateTime], and then it becomes the date of that string;
    every other cell is stored as received.  Converting twice changes
    nothing more. *)
Theorem stored_rows_keep_their_shape (si : SheetInfo) (s : State) :
  length (rows (changeSheetInfo si s)) = length (sheet_rows si)
  /\ map (map fst) (rows (changeSheetInfo si s))
     = map (map fst) (sheet_rows si)
  /\ (forall row k v,
        In row (sheet_rows si) -> In (k, v) row ->
        (forall iso, v <> VString iso)
        \/ ~ (exists c, In c (sheet_columns si)
                        /\ col_type c = TDateTime /\ field c = k) ->
        In (k, v) (convertRow (sheet_columns si) row))
  /\ (forall row k iso c,
        In row (sheet_rows si) -> In (k, VString iso) row ->
        In c (sheet_columns si) -> col_type c = TDateTime -> field c = k ->
        In (k, VDate iso) (convertRow (sheet_columns si) row))
  /\ map (convertRow (sheet_columns si)) (rows (changeSheetInfo si s))
     = rows (changeSheetInfo si s).
Proof.
  change (rows (changeSheetInfo si s))
    with (map (convertRow (sheet_columns si)) (sheet_rows si)).
  split; [apply length_map|]. split.
  { rewrite List.map_map. apply List.map_ext. intros row.
    apply convertRow_keys. }
  split; [|split].
  - intros row k v _ Hkv Hkeep.
    pose proof (convertRow_cell (sheet_columns si) row k v Hkv) as H.
    destruct v as [iso|n|iso|b]; try exact H.
    destruct Hkeep as [Hns|Hnc]; [destruct (Hns iso eq_refl)|].
    destruct (bool_decide (k ∈ datetimeFields (sheet_columns si))) eqn:E;
      [|exact H].
    apply bool_decide_eq_true in E. apply list_elem_of_In in E.
    apply datetimeFields_spec in E. contradiction.
  - intros row k iso c _ Hkv Hc Ht Hk.
    pose proof (convertRow_cell (sheet_columns si) row k _ Hkv) as H.
    simpl in H.
    rewrite bool_decide_eq_true_2 in H; [exact H|].
    apply list_elem_of_In, datetimeFields_spec. eauto.
  - rewrite List.map_map. apply List.map_ext. intros row.
    apply convertRow_again.
Qed.

Lemma stored_rows_keep_their_shape_witness :
  In ("date", VDate "2024-01-01")
     (convertRow (sheet_columns sheetA) (sampleRow "2024-01-01" 1))
  /\ In ("value", VNumber 1)
        (convertRow (sheet_columns sheetA) (sampleRow "2024-01-01" 1)).
Proof.
  destruct (stored_rows_keep_their_shape sheetA (mount true))
    as (_ & _ & Hkeep & Hdate & _).
  split.
  - apply (Hdate _ _ _ dateColumn); try reflexivity.
    + left. reflexivity.
    + left. reflexivity.
    + left. reflexivity.
  - apply Hkeep.
    + left. reflexivity.
    + right. left. reflexivity.
    + left. intros iso. discriminate.
Defined.

(** *** A fetch that fails *)

(** The callbacks of [get_data_info] and [select_sheet] are [then]
    callbacks: a rejection runs none of them. *)
Lemma settle_rejected_fetch s r :
  wellFormed s -> In r (inflight s) ->
  (req_command r = get_data_info
   \/ exists tab, req_command r = select_sheet tab) ->
  settle (req_id r) Rejected s = dropRequest (req_id r) s.
Proof.
  intros [Hnd _] Hr Hcmd. unfold settle, findRequest.
  rewrite (PreprocessFacts.find_unique _ r Hnd Hr).
  destruct Hcmd as [->|[tab ->]]; reflexivity.
Qed.

(** X6.  When a [get_data_info] or a [select_sheet] is rejected while the
    page is loading, nothing clears the loading flag: every cell stays as
    it is, the page keeps loading, and nothing the user does changes
    anything from then on. *)
Theorem rejected_fetch_leaves_the_page_loading (s : State) (r : Request) :
  wellFormed s ->
  In r (inflight s) ->
  (req_command r = get_data_info
   \/ exists tab, req_command r = select_sheet tab) ->
  isLoading s = true ->
  step s (Settled (req_id r) Rejected) = dropRequest (req_id r) s
  /\ isLoading (step s (Settled (req_id r) Rejected)) = true
  /\ Js.truthy (allowSubmit (step s (Settled (req_id r) Rejected))) = false
  /\ forall events, Forall userEvent events ->
       run events (step s (Settled (req_id r) Rejected))
       = step s (Settled (req_id r) Rejected).
Proof.
  intros Hwf Hr Hcmd Hload.
  change (step s (Settled (req_id r) Rejected))
    with (settle (req_id r) Rejected s).
  rewrite (settle_rejected_fetch s r Hwf Hr Hcmd).
  assert (Hoff : pageDisabled (dropRequest (req_id r) s)
                 || isLoading (dropRequest (req_id r) s) = true).
  { change (isLoading (dropRequest (req_id r) s)) with (isLoading s).
    rewrite Hload. apply orb_true_r. }
  split; [reflexivity|]. split; [exact Hload|]. split.
  - destruct (Js.truthy (allowSubmit (dropRequest (req_id r) s))) eqn:E;
      [|reflexivity].
    apply PreprocessFacts.allowSubmit_truthy in E as (_ & Hl & _).
    change (isLoading (dropRequest (req_id r) s)) with (isLoading s) in Hl.
    congruence.
  - intros events Hall. apply gridless_user_events; assumption.
Qed.

Lemma rejected_fetch_leaves_the_page_loading_witness :
  isLoading
    (step (step firstFileShown (SelectTab "B")) (Settled 1 Rejected)) = true
  /\ run [SelectTab "A"; SelectDatetime "date"; ClickStart; ClickChange]
         (step (step firstFileShown (SelectTab "B")) (Settled 1 Rejected))
     = step (step firstFileShown (SelectTab "B")) (Settled 1 Rejected).
Proof.
  destruct (rejected_fetch_leaves_the_page_loading
              (step firstFileShown (SelectTab "B"))
              {| req_id := 1; req_command := select_sheet "B";
                 req_frame := Some 1%nat |})
    as (_ & Hload & _ & Hstuck).
  - apply PreprocessFacts.step_wellFormed, PreprocessFacts.run_wellFormed,
      PreprocessFacts.mount_wellFormed.
  - vm_compute. left. reflexivity.
  - right. exists "B". reflexivity.
  - vm_compute. reflexivity.
  - split; [exact Hload|]. apply Hstuck. repeat constructor.
Defined.

(** *** One submission at a time *)

(** While the page submits, a user event changes the selection of rows or
    nothing. *)
Lemma submitting_user_events events : forall s,
  isSubmitting s = true -> Forall userEvent events ->
  run events s = setRowSelection (rowSelection (run events s)) s.
Proof.
  induction events as [|ev rest IH]; intros s Hsub Hall.
  - destruct s; reflexivity.
  - apply Forall_cons in Hall as [Hev Hrest].
    assert (Hdis : disabled s = true)
      by (unfold disabled; rewrite Hsub; apply orb_true_r).
    change (run (ev :: rest) s) with (run rest (step s ev)).
    destruct (disabled_user_event s ev Hdis Hev) as [E|(_ & sel & _ & E)];
      rewrite E.
    + apply IH; assumption.
    + rewrite (IH (setRowSelection sel s)) at 1 by assumption.
      reflexivity.
Qed.

Lemma not_selection_events events : forall s,
  isSubmitting s = true -> Forall userEvent events ->
  Forall (fun ev => forall sel, ev <> RowSelectionModelChange sel) events ->
  run events s = s.
Proof.
  induction events as [|ev rest IH]; intros s Hsub Hall Hno; [reflexivity|].
  apply Forall_cons in Hall as [Hev Hrest].
  apply Forall_cons in Hno as [Hne Hno].
  assert (Hdis : disabled s = true)
    by (unfold disabled; rewrite Hsub; apply orb_true_r).
  change (run (ev :: rest) s) with (run rest (step s ev)).
  destruct (disabled_user_event s ev Hdis Hev) as [E|(_ & sel & E & _)].
  - rewrite E. apply IH; assumption.
  - destruct (Hne sel E).
Qed.

(** X7.  After a click on the enabled Start button the submitting flag
    disables the buttons and the selectors, and the grid stays in the
    page.  So whatever the user does before the submission settles, the
    page differs from what the click left at most in the selection of
    rows: no second [submit_preprocess_config] is sent, nothing else
    pending changes (the configuration on its way is the one of the
    click), and without a change of the selection nothing changes at all.
    A change of the selection is stored. *)
Theorem only_the_selection_changes_while_submitting
    (s : State) (events : list Event) :
  Js.truthy (allowSubmit s) = true ->
  Forall userEvent events ->
  isSubmitting (step s ClickStart) = true
  /\ Js.truthy (allowSubmit (step s ClickStart)) = false
  /\ run events (step s ClickStart)
     = setRowSelection (rowSelection (run events (step s ClickStart)))
                       (step s ClickStart)
  /\ inflight (run events (step s ClickStart)) = inflight (step s ClickStart)
  /\ (Forall (fun ev => forall sel, ev <> RowSelectionModelChange sel) events
      -> run events (step s ClickStart) = step s ClickStart)
  /\ forall sel,
       step (step s ClickStart) (RowSelectionModelChange sel)
       = setRowSelection sel (step s ClickStart).
Proof.
  intros Hallow Hall.
  destruct (PreprocessFacts.allowSubmit_periode s Hallow) as [p Hp].
  pose proof Hallow as Hready.
  apply PreprocessFacts.allowSubmit_truthy in Hready as (Hpd & Hld & _).
  assert (Hsub : isSubmitting (step s ClickStart) = true).
  { unfold step, handleClickStart. rewrite Hallow, Hp. reflexivity. }
  assert (Hgrid : pageDisabled (step s ClickStart)
                  || isLoading (step s ClickStart) = false).
  { unfold step, handleClickStart. rewrite Hallow, Hp. simpl.
    rewrite Hpd, Hld. reflexivity. }
  pose proof (submitting_user_events events _ Hsub Hall) as Hrun.
  set (s1 := step s ClickStart) in *. clearbody s1.
  split; [exact Hsub|]. split; [|split; [exact Hrun|split; [|split]]].
  - destruct (Js.truthy (allowSubmit s1)) eqn:E; [|reflexivity].
    apply PreprocessFacts.allowSubmit_truthy in E as (_ & _ & Hs & _).
    congruence.
  - rewrite Hrun. reflexivity.
  - intros Hno. apply not_selection_events; assumption.
  - intros sel. unfold step. rewrite Hgrid. reflexivity.
Qed.

Lemma only_the_selection_changes_while_submitting_witness :
  run [ClickStart; RowSelectionModelChange {| sel_type := include; ids := [] |};
       SelectTab "B"]
      (step firstFileShown ClickStart)
  = setRowSelection {| sel_type := include; ids := [] |}
                    (step firstFileShown ClickStart)
  /\ inflight
       (run [ClickStart;
             RowSelectionModelChange {| sel_type := include; ids := [] |};
             SelectTab "B"]
            (step firstFileShown ClickStart))
     = inflight (step firstFileShown ClickStart).
Proof.
  destruct (only_the_selection_changes_while_submitting firstFileShown
              [ClickStart;
               RowSelectionModelChange {| sel_type := include; ids := [] |};
               SelectTab "B"])
    as (_ & _ & Hrun & Hsame & _).
  - vm_compute. reflexivity.
  - repeat constructor.
  - split; [|exact Hsame]. rewrite Hrun. vm_compute. reflexivity.
Defined.

(** *** The column selectors *)

Lemma filter_is_sublist (p : ColumnInfo -> bool) l :
  sublist (List.filter p l) l.
Proof.
  induction l as [|c l IH]; simpl; [constructor|].
  destruct (p c); [apply sublist_skip | apply sublist_cons]; exact IH.
Qed.

(** X8.  While the controls are enabled (the page enabled, not loading and
    not submitting) the date-time selector offers exactly the columns of
    type [dateTime] and the selector of the column to predict exactly
    those of type [number], each in the order of the columns; no column is
    offered by both, and a column of another type by neither.  While the
    controls are disabled both offer nothing. *)
Theorem selectors_split_the_columns_by_type (s : State) :
  (disabled s = true ->
   datetimeSelections s = [] /\ predictableSelections s = [])
  /\ (disabled s = false ->
      (forall c, In c (datetimeSelections s)
                 <-> In c (columns s) /\ col_type c = TDateTime)
      /\ (forall c, In c (predictableSelections s)
                    <-> In c (columns s) /\ col_type c = TNumber)
      /\ sublist (datetimeSelections s) (columns s)
      /\ sublist (predictableSelections s) (columns s)
      /\ (forall c, In c (datetimeSelections s) ->
                    ~ In c (predictableSelections s))
      /\ length (datetimeSelections s) + length (predictableSelections s)
         <= length (columns s))%nat.
Proof.
  unfold datetimeSelections, predictableSelections. split.
  - intros ->. split; reflexivity.
  - intros ->.
    assert (Hdt : forall c, In c (List.filter
                    (fun c => isDateTime (col_type c)) (columns s))
                  <-> In c (columns s) /\ col_type c = TDateTime).
    { intros c. rewrite filter_In. split; intros [Hc Ht]; split;
        try assumption; destruct (col_type c); simpl in *; congruence. }
    assert (Hnum : forall c, In c (List.filter
                    (fun c => isNumber (col_type c)) (columns s))
                  <-> In c (columns s) /\ col_type c = TNumber).
    { intros c. rewrite filter_In. split; intros [Hc Ht]; split;
        try assumption; destruct (col_type c); simpl in *; congruence. }
    split; [exact Hdt|]. split; [exact Hnum|].
    split; [|split; [|split]].
    + apply filter_is_sublist.
    + apply filter_is_sublist.
    + intros c H1 H2. apply Hdt in H1 as [_ H1]. apply Hnum in H2 as [_ H2].
      congruence.
    + clear Hdt Hnum. induction (columns s) as [|c l IH]; simpl; [lia|].
      destruct (col_type c); simpl; lia.
Qed.

Lemma selectors_split_the_columns_by_type_witness :
  datetimeSelections firstFileShown = [dateColumn]
  /\ predictableSelections firstFileShown = [valueColumn]
  /\ ~ In dateColumn (predictableSelections firstFileShown).
Proof.
  destruct (selectors_split_the_columns_by_type firstFileShown)
    as [_ Hen].
  destruct Hen as (_ & _ & _ & _ & Hdisj & _); [vm_compute; reflexivity|].
  split; [vm_compute; reflexivity|]. split; [vm_compute; reflexivity|].
  apply Hdisj. vm_compute. left. reflexivity.
Defined.

(** *** Answers to [select_sheet] *)

(** Steps that keep the environments of the pending [select_sheet] calls
    as they are and send none. *)
Lemma neverCanceled_kept s s' :
  (forall f fr, frames s !! f = Some fr -> effectCleanup s <> Some f ->
     exists fr', frames s' !! f = Some fr'
                 /\ isCanceled fr' = isCanceled fr
                 /\ effectCleanup s' <> Some f) ->
  (forall r tab, In r (inflight s') -> req_command r = select_sheet tab ->
                 In r (inflight s)) ->
  neverCanceled s -> neverCanceled s'.
Proof.
  intros Hfr Hin Hs r tab Hr Hcmd.
  destruct (Hs r tab (Hin r tab Hr Hcmd) Hcmd) as (f & fr & Hf & Hl & Hc & Hn).
  destruct (Hfr f fr Hl Hn) as (fr' & Hl' & Hc' & Hn').
  exists f, fr'. repeat split; try assumption. congruence.
Qed.

Ltac old_select_sheet :=
  let r := fresh "r" in
  let tab := fresh "tab" in
  let Hr := fresh "Hr" in
  let Hc := fresh "Hc" in
  intros r tab Hr Hc; simpl in Hr;
  repeat match type of Hr with
         | In _ (_ ++ _) => apply in_app_or in Hr as [Hr|Hr]
         | In _ (List.filter _ _) => apply filter_In in Hr as [Hr _]
         end;
  try exact Hr;
  destruct Hr as [<-|[]]; discriminate.

Lemma same_frames_kept (s s' : State) :
  frames s' = frames s -> effectCleanup s' = effectCleanup s ->
  forall f fr, frames s !! f = Some fr -> effectCleanup s <> Some f ->
    exists fr', frames s' !! f = Some fr'
                /\ isCanceled fr' = isCanceled fr
                /\ effectCleanup s' <> Some f.
Proof. intros -> ->. eauto. Qed.

Lemma settle_neverCanceled id o s :
  neverCanceled s -> neverCanceled (settle id o s).
Proof.
  unfold settle. repeat break_match; try (intros H; exact H);
    apply neverCanceled_kept;
    try (apply same_frames_kept; reflexivity); old_select_sheet.
Qed.

Lemma setPageDisabled_neverCanceled v s :
  guarded s -> neverCanceled s -> neverCanceled (setPageDisabled v s).
Proof.
  intros Hg Hs. unfold setPageDisabled.
  destruct (eqb v (pageDisabled s)); [exact Hs|].
  set (s1 := match effectCleanup s with
             | Some f => runCleanup f s
             | None => s
             end).
  assert (Hfr1 : frames s1 = match effectCleanup s with
                             | Some f => alter cancel f (frames s)
                             | None => frames s
                             end).
  { unfold s1. destruct (effectCleanup s); [|reflexivity].
    apply PreprocessFacts.runCleanup_frames. }
  assert (Hin1 : inflight s1 = inflight s).
  { unfold s1. destruct (effectCleanup s); [|reflexivity].
    unfold runCleanup. repeat break_match; reflexivity. }
  clearbody s1.
  destruct (PreprocessFacts.activationEffect_components
              (setPageDisabledProp v s1)) as (_ & Hin & Hrest).
  change (pageDisabled (setPageDisabledProp v s1)) with v in Hrest.
  change (inflight (setPageDisabledProp v s1)) with (inflight s1) in Hin.
  change (frames (setPageDisabledProp v s1)) with (frames s1) in Hrest.
  set (s' := activationEffect (setPageDisabledProp v s1)) in *.
  clearbody s'.
  apply (neverCanceled_kept s); [|rewrite Hin, Hin1; tauto|exact Hs].
  intros f fr Hl Hn.
  assert (Hl1 : exists fr', frames s1 !! f = Some fr'
                            /\ isCanceled fr' = isCanceled fr).
  { rewrite Hfr1. destruct (effectCleanup s) as [f0|]; [|eauto].
    rewrite list_lookup_alter_ne by congruence. eauto. }
  destruct Hl1 as (fr' & Hl1 & Hc1). exists fr'.
  pose proof (lookup_lt_Some _ _ _ Hl1) as Hlt.
  destruct v; destruct Hrest as (Hfr & Hcl & _); rewrite Hfr, Hcl.
  - repeat split; [exact Hl1 | exact Hc1 | discriminate].
  - repeat split; [apply lookup_app_l_Some, Hl1 | exact Hc1 |].
    intros [= E]. lia.
Qed.

Lemma timeoutFires_neverCanceled h s :
  neverCanceled s -> neverCanceled (timeoutFires h s).
Proof.
  intros Hs. unfold timeoutFires.
  destruct (List.find _ (timers s)) as [[h' f0]|]; [|exact Hs].
  destruct (frameCanceled (Some f0) (clearTimeout h s)); [exact Hs|].
  apply (neverCanceled_kept s); [|old_select_sheet|exact Hs].
  intros f fr Hl Hn. simpl.
  destruct (decide (f0 = f)) as [->|Hne].
  - rewrite list_lookup_alter_eq, Hl. simpl. eexists.
    split; [reflexivity|]. split; [reflexivity | exact Hn].
  - rewrite list_lookup_alter_ne by exact Hne. eauto.
Qed.

Lemma step_neverCanceled s ev :
  guarded s -> neverCanceled s -> neverCanceled (step s ev).
Proof.
  intros Hg Hs. destruct ev; unfold step.
  - apply setPageDisabled_neverCanceled; assumption.
  - apply timeoutFires_neverCanceled, Hs.
  - apply settle_neverCanceled, Hs.
  - destruct (disabled s || (length (tabs s) =? 0)%nat); [exact Hs|].
    unfold handleSelectTab. destruct (disabled s); [exact Hs|].
    cbn [fst].
    intros r tab Hr Hcmd. simpl in Hr. apply in_app_or in Hr as [Hr|Hr].
    + destruct (Hs r tab Hr Hcmd) as (f & fr & Hf & Hl & Hc & Hn).
      exists f, fr. repeat split; try assumption.
      simpl. apply lookup_app_l_Some, Hl.
    + destruct Hr as [<-|[]]. eexists _, _. simpl.
      repeat split.
      * rewrite lookup_app_r by lia. rewrite Nat.sub_diag. reflexivity.
      * reflexivity.
      * intros E. destruct Hg as (Hown & _).
        specialize (Hown _ E). lia.
  - destruct (disabled s); [exact Hs|].
    apply (neverCanceled_kept s); try exact Hs;
      [apply same_frames_kept; reflexivity | old_select_sheet].
  - destruct (disabled s); [exact Hs|].
    apply (neverCanceled_kept s); try exact Hs;
      [apply same_frames_kept; reflexivity | old_select_sheet].
  - destruct (disabled s); [exact Hs|].
    apply (neverCanceled_kept s); try exact Hs;
      [apply same_frames_kept; reflexivity | old_select_sheet].
  - destruct (pageDisabled s || isLoading s); [exact Hs|].
    apply (neverCanceled_kept s); try exact Hs;
      [apply same_frames_kept; reflexivity | old_select_sheet].
  - unfold handleClickStart. repeat break_match; try exact Hs.
    apply (neverCanceled_kept s); try exact Hs;
      [apply same_frames_kept; reflexivity | old_select_sheet].
  - destruct (disabled s); [exact Hs|].
    apply (neverCanceled_kept s); try exact Hs;
      [apply same_frames_kept; reflexivity | old_select_sheet].
Qed.

Lemma reached_neverCanceled v events :
  neverCanceled (run events (mount v)).
Proof.
  induction events as [|ev rest IH] using rev_ind.
  - intros r tab Hr. destruct v; destruct Hr.
  - unfold run. rewrite fold_left_app. cbn [fold_left].
    apply step_neverCanceled; [|exact IH].
    apply PreprocessFacts.run_guarded, PreprocessFacts.mount_guarded.
Qed.

(** X23.  Nothing ever sets the [isCanceled] of a [handleSelectTab] call.
    So in every state the page reaches, whatever happened since the tab
    was picked (the page left, entered again, another file shown), a
    fulfilled [select_sheet] is applied when it arrives: the eight sheet
    cells become those of its answer and the loading flag goes down, also
    on a disabled page. *)
Theorem select_sheet_answer_is_always_applied v events r tab si :
  In r (inflight (run events (mount v))) ->
  req_command r = select_sheet tab ->
  sheetCells (step (run events (mount v))
                   (Settled (req_id r) (Fulfilled (PSheetInfo si))))
  = sheetCells (changeSheetInfo si (run events (mount v)))
  /\ isLoading (step (run events (mount v))
                     (Settled (req_id r) (Fulfilled (PSheetInfo si))))
     = false.
Proof.
  intros Hr Hcmd.
  pose proof (reached_neverCanceled v events) as Hs.
  pose proof (PreprocessFacts.run_wellFormed events (mount v)
                (PreprocessFacts.mount_wellFormed v)) as [Hnd _].
  set (s := run events (mount v)) in *. clearbody s.
  destruct (Hs r tab Hr Hcmd) as (f & fr & Hf & Hl & Hc & _).
  unfold step, settle, findRequest.
  rewrite (PreprocessFacts.find_unique _ r Hnd Hr), Hcmd, Hf.
  assert (Hlive : frameCanceled (Some f) (dropRequest (req_id r) s) = false).
  { unfold frameCanceled.
    change (frames (dropRequest (req_id r) s)) with (frames s).
    rewrite Hl. exact Hc. }
  rewrite Hlive. split; reflexivity.
Qed.

Lemma select_sheet_answer_is_always_applied_witness :
  isLoading
    (step (run [SetPageDisabled false; TimeoutFires 0;
                Settled 0 (Fulfilled (PDataInfo firstFile));
                SelectTab "B"; SetPageDisabled true] (mount true))
          (Settled 1 (Fulfilled (PSheetInfo sheetB))))
  = false.
Proof.
  apply (select_sheet_answer_is_always_applied true
           [SetPageDisabled false; TimeoutFires 0;
            Settled 0 (Fulfilled (PDataInfo firstFile));
            SelectTab "B"; SetPageDisabled true]
           {| req_id := 1; req_command := select_sheet "B";
              req_frame := Some 1%nat |} "B" sheetB).
  - vm_compute. left. reflexivity.
  - reflexivity.
Defined.

(** *** The Start button after a sheet has arrived *)

Lemma select_sheet_settles v events r tab si :
  In r (inflight (run events (mount v))) ->
  req_command r = select_sheet tab ->
  step (run events (mount v)) (Settled (req_id r) (Fulfilled (PSheetInfo si)))
  = setLoading false
      (changeSheetInfo si (dropRequest (req_id r) (run events (mount v)))).
Proof.
  intros Hr Hcmd.
  pose proof (reached_neverCanceled v events) as Hs.
  pose proof (PreprocessFacts.run_wellFormed events (mount v)
                (PreprocessFacts.mount_wellFormed v)) as [Hnd _].
  set (s := run events (mount v)) in *. clearbody s.
  destruct (Hs r tab Hr Hcmd) as (f & fr & Hf & Hl & Hc & _).
  unfold step, settle, findRequest.
  rewrite (PreprocessFacts.find_unique _ r Hnd Hr), Hcmd, Hf.
  assert (Hlive : frameCanceled (Some f) (dropRequest (req_id r) s) = false).
  { unfold frameCanceled.
    change (frames (dropRequest (req_id r) s)) with (frames s).
    rewrite Hl. exact Hc. }
  rewrite Hlive. reflexivity.
Qed.

Lemma applied_sheet_allows_submit si s :
  Js.truthy (allowSubmit (setLoading false (changeSheetInfo si s))) = true
  <-> pageDisabled s = false /\ isSubmitting s = false /\ sheetReady si.
Proof.
  rewrite PreprocessFacts.allowSubmit_truthy.
  unfold nonTrivialSelection, sheetReady.
  replace (pageDisabled (setLoading false (changeSheetInfo si s)))
    with (pageDisabled s) by (destruct s; reflexivity).
  replace (isSubmitting (setLoading false (changeSheetInfo si s)))
    with (isSubmitting s) by (destruct s; reflexivity).
  replace (isLoading (setLoading false (changeSheetInfo si s)))
    with false by (destruct s; reflexivity).
  replace (selectedDatetime (setLoading false (changeSheetInfo si s)))
    with (selectedDatetimeColumn si) by (destruct s; reflexivity).
  replace (selectedPredictable (setLoading false (changeSheetInfo si s)))
    with (selectedPredictableColumn si) by (destruct s; reflexivity).
  replace (selectedBatchPeriode (setLoading false (changeSheetInfo si s)))
    with (Some (sheet_selectedBatchPeriode si)) by (destruct s; reflexivity).
  replace (rowSelection (setLoading false (changeSheetInfo si s)))
    with (sheet_rowSelection si) by (destruct s; reflexivity).
  replace (rows (setLoading false (changeSheetInfo si s)))
    with (map (convertRow (sheet_columns si)) (sheet_rows si))
    by (destruct s; reflexivity).
  rewrite length_map. split.
  - intros (Hp & _ & Hs & Hd & Hq & _ & Hsel). tauto.
  - intros (Hp & Hs & Hd & Hq & Hsel).
    split; [exact Hp|]. split; [reflexivity|]. split; [exact Hs|].
    split; [exact Hd|]. split; [exact Hq|]. split; [discriminate|].
    exact Hsel.
Qed.

(** X5.  The sheet that arrives decides the Start button.  In every state
    the page reaches, when the answer to a pending [select_sheet] arrives,
    Start is enabled exactly when the page is enabled and not submitting
    and the sheet leaves nothing to fill in: it names a date-time column
    and a column to predict, and its selection of rows is not empty (an
    inclusion of at least one row, or an exclusion of another number of
    rows than the sheet has).  What the controls held before the answer
    plays no part, and the period always comes with the sheet. *)
Theorem arrived_sheet_decides_start v events r tab si :
  In r (inflight (run events (mount v))) ->
  req_command r = select_sheet tab ->
  Js.truthy
    (allowSubmit (step (run events (mount v))
                       (Settled (req_id r) (Fulfilled (PSheetInfo si)))))
  = true
  <-> pageDisabled (run events (mount v)) = false
      /\ isSubmitting (run events (mount v)) = false
      /\ sheetReady si.
Proof.
  intros Hr Hcmd.
  rewrite (select_sheet_settles v events r tab si Hr Hcmd).
  rewrite applied_sheet_allows_submit.
  change (pageDisabled (dropRequest (req_id r) (run events (mount v))))
    with (pageDisabled (run events (mount v))).
  change (isSubmitting (dropRequest (req_id r) (run events (mount v))))
    with (isSubmitting (run events (mount v))).
  reflexivity.
Qed.

Lemma arrived_sheet_decides_start_witness :
  Js.truthy
    (allowSubmit
       (step (run [SetPageDisabled false; TimeoutFires 0;
                   Settled 0 (Fulfilled (PDataInfo firstFile));
                   SelectDatetime ""; SelectTab "A"] (mount true))
             (Settled 1 (Fulfilled (PSheetInfo sheetA)))))
  = true.
Proof.
  apply (arrived_sheet_decides_start true
           [SetPageDisabled false; TimeoutFires 0;
            Settled 0 (Fulfilled (PDataInfo firstFile));
            SelectDatetime ""; SelectTab "A"]
           {| req_id := 1; req_command := select_sheet "A";
              req_frame := Some 1%nat |} "A" sheetA).
  - vm_compute. left. reflexivity.
  - reflexivity.
  - split; [vm_compute; reflexivity|]. split; [vm_compute; reflexivity|].
    split; [discriminate|]. split; [discriminate|].
    right. split; [reflexivity|]. vm_compute. discriminate.
Defined.

End PreprocessMore.

(** ** More on the Evaluate page *)

Module EvaluateMore.
Import Evaluate.

(** *** Pending requests *)

Lemma invoke_wellFormed c f s : wellFormed s -> wellFormed (invoke c f s).
Proof.
  intros [Hnd Hlt]. unfold wellFormed, invoke. simpl. split.
  - rewrite map_app. simpl. apply NoDup_app. repeat split.
    + exact Hnd.
    + intros i Hi Hnew. apply list_elem_of_In in Hi, Hnew.
      simpl in Hnew. destruct Hnew as [<-|[]].
      apply in_map_iff in Hi as (r & Hid & Hr).
      rewrite List.Forall_forall in Hlt. specialize (Hlt r Hr). lia.
    + apply NoDup_singleton.
  - apply Forall_app. split.
    + eapply List.Forall_impl; [|exact Hlt]. simpl. intros; lia.
    + constructor; [simpl; lia | constructor].
Qed.

Lemma NoDup_ids_filter (p : Request -> bool) l :
  NoDup (map req_id l) -> NoDup (map req_id (List.filter p l)).
Proof.
  induction l as [|r l IH]; simpl; [auto|].
  intros Hnd. apply NoDup_cons in Hnd as [Hnotin Hnd].
  destruct (p r); simpl; [|auto].
  apply NoDup_cons. split; [|auto].
  intros Hin. apply Hnotin.
  apply list_elem_of_In in Hin. apply list_elem_of_In.
  apply in_map_iff in Hin as (r' & Hid & Hr').
  apply filter_In in Hr' as [Hr' _].
  apply in_map_iff. eauto.
Qed.

Lemma dropRequest_wellFormed id s :
  wellFormed s -> wellFormed (dropRequest id s).
Proof.
  intros [Hnd Hlt]. unfold wellFormed, dropRequest. simpl. split.
  - apply NoDup_ids_filter, Hnd.
  - apply List.Forall_forall. intros r Hr. apply filter_In in Hr as [Hr _].
    rewrite List.Forall_forall in Hlt. apply Hlt, Hr.
Qed.

(** A step that leaves the pending requests alone. *)
Lemma same_requests_wellFormed s s' :
  inflight s' = inflight s -> nextRequest s' = nextRequest s ->
  wellFormed s -> wellFormed s'.
Proof. unfold wellFormed. intros -> ->. tauto. Qed.

Lemma activationEffect_wellFormed s :
  wellFormed s -> wellFormed (activationEffect s).
Proof.
  intros Hwf. unfold activationEffect.
  change (pageDisabled (setPredictProgress _ _)) with (pageDisabled s).
  destruct (pageDisabled s).
  - eapply same_requests_wellFormed; [| |exact Hwf]; reflexivity.
  - eapply same_requests_wellFormed;
      [| |apply (invoke_wellFormed get_evaluation
                   (Some (length (frames s))) s Hwf)]; reflexivity.
Qed.

Lemma settle_wellFormed id o s : wellFormed s -> wellFormed (settle id o s).
Proof.
  intros Hwf. unfold settle.
  destruct (findRequest id s) as [r|]; [|exact Hwf].
  pose proof (dropRequest_wellFormed id s Hwf) as Hd.
  repeat break_match; try exact Hd;
    (eapply same_requests_wellFormed; [| |exact Hd]; reflexivity).
Qed.

Lemma evaluate_step_wellFormed s ev : wellFormed s -> wellFormed (step s ev).
Proof.
  intros Hwf. destruct ev as [v|p|id o| |]; unfold step.
  - unfold setPageDisabled. destruct (eqb v (pageDisabled s)); [exact Hwf|].
    apply activationEffect_wellFormed.
    destruct (effectCleanup s);
      (eapply same_requests_wellFormed; [| |exact Hwf]; reflexivity).
  - rewrite EvaluateFacts.progress_delivered.
    destruct (listeners s); [exact Hwf|].
    eapply same_requests_wellFormed; [| |exact Hwf]; reflexivity.
  - apply settle_wellFormed, Hwf.
  - destruct (isBusy s); [exact Hwf|]. unfold handleSave.
    apply invoke_wellFormed.
    eapply same_requests_wellFormed; [| |exact Hwf]; reflexivity.
  - destruct (isBusy s); [exact Hwf|]. apply invoke_wellFormed, Hwf.
Qed.

Lemma evaluate_mount_wellFormed v : wellFormed (mount v).
Proof.
  apply activationEffect_wellFormed. split; simpl; constructor.
Qed.

Lemma evaluate_run_wellFormed events : forall s,
  wellFormed s -> wellFormed (run events s).
Proof.
  induction events as [|ev rest IH]; intros s H; simpl; [exact H|].
  apply IH, evaluate_step_wellFormed, H.
Qed.

Lemma evaluate_find_unique (l : list Request) r :
  NoDup (map req_id l) -> In r l ->
  List.find (fun r' => (req_id r' =? req_id r)%nat) l = Some r.
Proof.
  induction l as [|r0 l IH]; simpl; [tauto|].
  intros Hnd [->|Hin].
  - rewrite Nat.eqb_refl. reflexivity.
  - apply NoDup_cons in Hnd as [Hnotin Hnd].
    destruct (Nat.eqb_spec (req_id r0) (req_id r)) as [E|_].
    + exfalso. apply Hnotin. rewrite E.
      apply list_elem_of_In, in_map, Hin.
    + apply IH; assumption.
Qed.

(** *** The liveness flag of the activation effect *)

Lemma evaluate_frameCanceled_set f f0 (s s' : State) :
  frames s' = <[f0 := true]> (frames s) ->
  frameCanceled (Some f) s = true -> frameCanceled (Some f) s' = true.
Proof.
  unfold frameCanceled. intros -> H.
  destruct (frames s !! f) as [b|] eqn:E; [|discriminate].
  simpl in H. subst b.
  destruct (decide (f0 = f)) as [->|Hne].
  - rewrite list_lookup_insert_eq; [reflexivity|].
    apply lookup_lt_Some in E. exact E.
  - rewrite list_lookup_insert_ne by exact Hne. rewrite E. reflexivity.
Qed.

Lemma evaluate_frameCanceled_more f (s s' : State) more :
  frames s' = frames s ++ more ->
  frameCanceled (Some f) s = true -> frameCanceled (Some f) s' = true.
Proof.
  unfold frameCanceled. intros -> H.
  destruct (frames s !! f) as [b|] eqn:E; [|discriminate].
  rewrite (lookup_app_l_Some _ _ _ _ E). exact H.
Qed.

(** Steps that leave the effect alone and send no [get_evaluation]. *)
Lemma evaluate_guarded_same_effect s s' :
  frames s' = frames s ->
  effectCleanup s' = effectCleanup s ->
  (forall r, In r (inflight s') -> req_command r = get_evaluation ->
             In r (inflight s)) ->
  guarded s -> guarded s'.
Proof.
  intros Hfr Hcl Hin [Hown Hreq]. unfold guarded, frameCanceled.
  rewrite Hfr, Hcl. split; [exact Hown|].
  intros r Hr Hcmd. apply (Hreq r (Hin r Hr Hcmd) Hcmd).
Qed.

Ltac old_evaluation :=
  let r := fresh "r" in
  let Hr := fresh "Hr" in
  let Hc := fresh "Hc" in
  intros r Hr Hc; simpl in Hr;
  repeat match type of Hr with
         | In _ (_ ++ _) => apply in_app_or in Hr as [Hr|Hr]
         | In _ (List.filter _ _) => apply filter_In in Hr as [Hr _]
         end;
  try exact Hr;
  destruct Hr as [<-|[]]; discriminate.

Lemma evaluate_settle_guarded id o s : guarded s -> guarded (settle id o s).
Proof.
  unfold settle. repeat break_match; try (intros H; exact H);
    apply evaluate_guarded_same_effect; try reflexivity; old_evaluation.
Qed.

(** After the cleanup of the effect in force every pending
    [get_evaluation] has its [isCanceled] set. *)
Lemma evaluate_cleanup_cancels s :
  guarded s ->
  forall s1,
    s1 = match effectCleanup s with
         | Some c => runCleanup c s
         | None => s
         end ->
    inflight s1 = inflight s
    /\ nextRequest s1 = nextRequest s
    /\ (forall r, In r (inflight s1) -> req_command r = get_evaluation ->
          exists f, req_frame r = Some f
                    /\ frameCanceled (Some f) s1 = true).
Proof.
  intros [Hown Hreq] s1 ->.
  destruct (effectCleanup s) as [[l0 f0]|] eqn:Hcl.
  - specialize (Hown l0 f0 eq_refl).
    split; [reflexivity|]. split; [reflexivity|].
    intros r Hr Hcmd. destruct (Hreq r Hr Hcmd) as (f & Hf & [[l Hc]|Hc]).
    + injection Hc as -> ->. exists f. split; [exact Hf|].
      unfold frameCanceled, runCleanup. simpl.
      rewrite list_lookup_insert_eq by exact Hown. reflexivity.
    + exists f. split; [exact Hf|].
      eapply evaluate_frameCanceled_set; [|exact Hc]. reflexivity.
  - split; [reflexivity|]. split; [reflexivity|].
    intros r Hr Hcmd. destruct (Hreq r Hr Hcmd) as (f & Hf & [[l Hc]|Hc]);
      [discriminate|]. eauto.
Qed.

(** What a run of the activation effect leaves behind. *)
Lemma evaluate_activationEffect_components s :
  pageDisabled (activationEffect s) = pageDisabled s
  /\ report (activationEffect s) = None
  /\ predictProgress (activationEffect s) = 0%float
  /\ isSaving (activationEffect s) = isSaving s
  /\ if pageDisabled s
     then frames (activationEffect s) = frames s
          /\ effectCleanup (activationEffect s) = None
          /\ inflight (activationEffect s) = inflight s
          /\ listeners (activationEffect s) = listeners s
     else frames (activationEffect s) = frames s ++ [false]
          /\ effectCleanup (activationEffect s)
             = Some (nextListener s, length (frames s))
          /\ inflight (activationEffect s)
             = inflight s ++ [{| req_id := nextRequest s;
                                 req_command := get_evaluation;
                                 req_frame := Some (length (frames s)) |}]
          /\ listeners (activationEffect s)
             = listeners s ++ [nextListener s].
Proof.
  unfold activationEffect.
  change (pageDisabled (setPredictProgress _ _)) with (pageDisabled s).
  destruct (pageDisabled s) eqn:E; repeat split;
    vm_compute; try reflexivity; exact E.
Qed.

Lemma evaluate_setPageDisabled_guarded v s :
  guarded s -> guarded (setPageDisabled v s).
Proof.
  intros Hg. unfold setPageDisabled.
  destruct (eqb v (pageDisabled s)); [exact Hg|].
  destruct (evaluate_cleanup_cancels s Hg _ eq_refl) as (Hin1 & _ & Hall).
  set (s1 := match effectCleanup s with
             | Some c => runCleanup c s
             | None => s
             end) in *.
  clearbody s1. clear Hg.
  destruct (evaluate_activationEffect_components (setPageDisabledProp v s1))
    as (_ & _ & _ & _ & Hrest).
  change (pageDisabled (setPageDisabledProp v s1)) with v in Hrest.
  change (frames (setPageDisabledProp v s1)) with (frames s1) in Hrest.
  change (inflight (setPageDisabledProp v s1)) with (inflight s1) in Hrest.
  change (listeners (setPageDisabledProp v s1)) with (listeners s1) in Hrest.
  change (nextListener (setPageDisabledProp v s1)) with (nextListener s1)
    in Hrest.
  change (nextRequest (setPageDisabledProp v s1)) with (nextRequest s1)
    in Hrest.
  set (s' := activationEffect (setPageDisabledProp v s1)) in *.
  clearbody s'. unfold guarded.
  destruct v; destruct Hrest as (Hfr & Hcl & Hin & _); rewrite Hcl, Hin.
  - split; [intros l f [=]|].
    intros r Hr Hcmd. destruct (Hall r Hr Hcmd) as (f & Hf & Hc).
    exists f. split; [exact Hf|]. right.
    unfold frameCanceled in *. rewrite Hfr. exact Hc.
  - split.
    + intros l f [= <- <-]. rewrite Hfr, length_app. simpl. lia.
    + intros r Hr Hcmd. apply in_app_or in Hr as [Hr|Hr].
      * destruct (Hall r Hr Hcmd) as (f & Hf & Hc).
        exists f. split; [exact Hf|]. right.
        exact (evaluate_frameCanceled_more f s1 s' _ Hfr Hc).
      * destruct Hr as [<-|[]]. eexists. split; [reflexivity|].
        left. eexists. reflexivity.
Qed.

Lemma evaluate_step_guarded s ev : guarded s -> guarded (step s ev).
Proof.
  intros Hg. destruct ev as [v|p|id o| |]; unfold step.
  - apply evaluate_setPageDisabled_guarded, Hg.
  - rewrite EvaluateFacts.progress_delivered.
    destruct (listeners s); [exact Hg|].
    apply (evaluate_guarded_same_effect s); try reflexivity; try exact Hg.
    old_evaluation.
  - apply evaluate_settle_guarded, Hg.
  - destruct (isBusy s); [exact Hg|].
    apply (evaluate_guarded_same_effect s); try reflexivity; try exact Hg.
    old_evaluation.
  - destruct (isBusy s); [exact Hg|].
    apply (evaluate_guarded_same_effect s); try reflexivity; try exact Hg.
    old_evaluation.
Qed.

Lemma evaluate_mount_guarded v : guarded (mount v).
Proof.
  unfold mount.
  destruct (evaluate_activationEffect_components (initial v))
    as (_ & _ & _ & _ & Hrest).
  change (pageDisabled (initial v)) with v in Hrest.
  unfold guarded, frameCanceled.
  destruct v; destruct Hrest as (Hfr & Hcl & Hin & _); rewrite Hfr, Hcl, Hin.
  - split; [intros l f [=] | intros r []].
  - split.
    + intros l f [= <- <-]. simpl. lia.
    + intros r [<-|[]] _. eexists. split; [reflexivity|].
      left. eexists. reflexivity.
Qed.

Lemma evaluate_run_guarded events : forall s, guarded s -> guarded (run events s).
Proof.
  induction events as [|ev rest IH]; intros s H; simpl; [exact H|].
  apply IH, evaluate_step_guarded, H.
Qed.

(** *** A disabled page is quiet *)

Lemma evaluate_settle_canceled s r o :
  findRequest (req_id r) s = Some r ->
  req_command r = get_evaluation ->
  frameCanceled (req_frame r) s = true ->
  settle (req_id r) o s = dropRequest (req_id r) s.
Proof.
  intros Hfind Hcmd Hc. unfold settle. rewrite Hfind, Hcmd.
  destruct o as [[value|]|]; try reflexivity.
  change (frameCanceled (req_frame r) (dropRequest (req_id r) s))
    with (frameCanceled (req_frame r) s).
  rewrite Hc. reflexivity.
Qed.

Lemma settle_quiet id o s :
  subscription s -> guarded s -> quietWhileDisabled s ->
  quietWhileDisabled (settle id o s).
Proof.
  intros Hsub [_ Hreq] Hq. unfold settle.
  destruct (findRequest id s) as [r|] eqn:Hfind; [|exact Hq].
  apply find_some in Hfind as [Hr _].
  destruct (req_command r) eqn:Hcmd; try exact Hq.
  destruct o as [[value|]|]; try exact Hq.
  destruct (frameCanceled (req_frame r) (dropRequest id s)) eqn:Hc;
    [exact Hq|].
  intros Hdis. exfalso.
  change (pageDisabled (setReport _ _)) with (pageDisabled s) in Hdis.
  unfold subscription in Hsub. rewrite Hdis in Hsub.
  destruct Hsub as [_ Hcl].
  destruct (Hreq r Hr Hcmd) as (f & Hf & [[l Hcur]|Hcan]);
    [congruence|].
  rewrite Hf in Hc.
  change (frameCanceled (Some f) (dropRequest id s))
    with (frameCanceled (Some f) s) in Hc.
  congruence.
Qed.

Lemma step_quiet s ev :
  subscription s -> guarded s -> quietWhileDisabled s ->
  quietWhileDisabled (step s ev).
Proof.
  intros Hsub Hg Hq. destruct ev as [v|p|id o| |]; unfold step.
  - unfold setPageDisabled. destruct (eqb v (pageDisabled s)); [exact Hq|].
    intros _.
    match goal with
    | |- report (activationEffect ?a) = _ /\ _ =>
        destruct (evaluate_activationEffect_components a) as (_ & Hr & Hp & _)
    end.
    split; assumption.
  - rewrite EvaluateFacts.progress_delivered.
    destruct (listeners s) as [|l ls] eqn:Hls; [exact Hq|].
    intros Hdis.
    change (pageDisabled (setPredictProgress _ s)) with (pageDisabled s)
      in Hdis.
    unfold subscription in Hsub. rewrite Hdis in Hsub.
    destruct Hsub as [Hnone _]. congruence.
  - apply settle_quiet; assumption.
  - destruct (isBusy s); exact Hq.
  - destruct (isBusy s); exact Hq.
Qed.

Lemma evaluate_reached v events :
  subscription (run events (mount v))
  /\ guarded (run events (mount v))
  /\ wellFormed (run events (mount v))
  /\ quietWhileDisabled (run events (mount v)).
Proof.
  induction events as [|ev rest IH] using rev_ind.
  - split; [|split; [|split]].
    + apply EvaluateFacts.mount_subscription.
    + apply evaluate_mount_guarded.
    + apply evaluate_mount_wellFormed.
    + intros _.
      destruct (evaluate_activationEffect_components (initial v))
        as (_ & Hr & Hp & _).
      split; assumption.
  - unfold run. rewrite fold_left_app. simpl.
    destruct IH as (Hsub & Hg & Hwf & Hq). split; [|split; [|split]].
    + apply EvaluateFacts.step_subscription, Hsub.
    + apply evaluate_step_guarded, Hg.
    + apply evaluate_step_wellFormed, Hwf.
    + apply step_quiet; assumption.
Qed.

(** X9.  A disabled Evaluate page is quiet, in every state it reaches: it
    holds no report and no progress, nothing listens to the progress
    events, so a progress event changes nothing, and no answer to a
    [get_evaluation] brings a report.  On an enabled page the answer to a
    [get_evaluation] that the effect in force did not send only leaves the
    list of pending requests. *)
Theorem disabled_evaluate_page_is_quiet v events :
  (pageDisabled (run events (mount v)) = true ->
   report (run events (mount v)) = None
   /\ predictProgress (run events (mount v)) = 0%float
   /\ listeners (run events (mount v)) = []
   /\ view (run events (mount v)) = PredictingView None
   /\ (forall p, step (run events (mount v)) (Progress p)
                 = run events (mount v))
   /\ (forall id o, report (step (run events (mount v)) (Settled id o))
                    = None))
  /\ (forall r o,
        In r (inflight (run events (mount v))) ->
        req_command r = get_evaluation ->
        (forall l f, effectCleanup (run events (mount v)) = Some (l, f) ->
                     req_frame r <> Some f) ->
        step (run events (mount v)) (Settled (req_id r) o)
        = dropRequest (req_id r) (run events (mount v))).
Proof.
  destruct (evaluate_reached v events) as (Hsub & Hg & Hwf & Hq).
  set (s := run events (mount v)) in *. clearbody s. split.
  - intros Hdis. destruct (Hq Hdis) as [Hrep Hprog].
    pose proof Hsub as Hsub'. unfold subscription in Hsub'.
    rewrite Hdis in Hsub'. destruct Hsub' as [Hls _].
    split; [exact Hrep|]. split; [exact Hprog|]. split; [exact Hls|].
    split; [|split].
    + unfold view. rewrite Hrep, Hprog. reflexivity.
    + intros p. unfold step. rewrite Hls. reflexivity.
    + intros id o.
      assert (Hdis' : pageDisabled (settle id o s) = true).
      { unfold settle. repeat break_match; exact Hdis. }
      apply (settle_quiet id o s Hsub Hg Hq Hdis').
  - intros r o Hr Hcmd Hstale.
    destruct Hg as [_ Hreq].
    destruct (Hreq r Hr Hcmd) as (f & Hf & [[l Hcur]|Hcan]).
    + destruct (Hstale l f Hcur Hf).
    + apply evaluate_settle_canceled; [|exact Hcmd|rewrite Hf; exact Hcan].
      apply evaluate_find_unique; [apply Hwf | exact Hr].
Qed.

Lemma disabled_evaluate_page_is_quiet_witness :
  report
    (step (run [SetPageDisabled true] (mount false))
          (Settled 0 (Fulfilled (Some sampleReport)))) = None
  /\ step (run [SetPageDisabled true] (mount false)) (Progress 0.5)
     = run [SetPageDisabled true] (mount false).
Proof.
  destruct (disabled_evaluate_page_is_quiet false [SetPageDisabled true])
    as [Hquiet _].
  destruct Hquiet as (_ & _ & _ & _ & Hprog & Hrep);
    [vm_compute; reflexivity|].
  split; [apply Hrep | apply Hprog].
Defined.

(** X10.  Whenever a disabled page becomes enabled it starts as
    Predicting, whatever it held before: no report, progress 0 and so the
    view with no figure, one listener for the progress events, and one
    [get_evaluation] sent. *)
Theorem every_activation_starts_predicting v events :
  pageDisabled (run events (mount v)) = true ->
  view (step (run events (mount v)) (SetPageDisabled false))
  = PredictingView None
  /\ report (step (run events (mount v)) (SetPageDisabled false)) = None
  /\ listeners (step (run events (mount v)) (SetPageDisabled false))
     = [nextListener (run events (mount v))]
  /\ inflight (step (run events (mount v)) (SetPageDisabled false))
     = inflight (run events (mount v))
       ++ [{| req_id := nextRequest (run events (mount v));
              req_command := get_evaluation;
              req_frame := Some (length (frames (run events (mount v)))) |}].
Proof.
  intros Hdis. destruct (evaluate_reached v events) as (Hsub & _ & _ & _).
  set (s := run events (mount v)) in *. clearbody s.
  unfold subscription in Hsub. rewrite Hdis in Hsub.
  destruct Hsub as [Hls Hcl].
  assert (E : step s (SetPageDisabled false)
              = activationEffect (setPageDisabledProp false s)).
  { unfold step, setPageDisabled. rewrite Hdis, Hcl. reflexivity. }
  rewrite E.
  destruct (evaluate_activationEffect_components (setPageDisabledProp false s))
    as (Hp & Hrep & Hprog & _ & _ & _ & Hin & Hls').
  change (listeners (setPageDisabledProp false s)) with (listeners s) in Hls'.
  rewrite Hls in Hls'.
  split; [|split; [exact Hrep|split; [exact Hls'|exact Hin]]].
  unfold view. rewrite Hrep, Hprog. reflexivity.
Qed.

Lemma every_activation_starts_predicting_witness :
  view
    (step (run [Settled 0 (Fulfilled (Some sampleReport)); Progress 0.5;
                SetPageDisabled true] (mount false))
          (SetPageDisabled false))
  = PredictingView None.
Proof.
  apply (every_activation_starts_predicting false
           [Settled 0 (Fulfilled (Some sampleReport)); Progress 0.5;
            SetPageDisabled true]).
  vm_compute. reflexivity.
Defined.

(** *** Saving *)

Lemma pendingSaves_dropped id s :
  pendingSaves (dropRequest id s)
  = List.filter (fun r => negb (req_id r =? id)%nat) (pendingSaves s).
Proof.
  unfold pendingSaves, dropRequest. simpl.
  induction (inflight s) as [|r l IH]; simpl; [reflexivity|].
  destruct (req_id r =? id)%nat eqn:E, (isSave r) eqn:Hs; simpl;
    rewrite ?E, ?Hs; simpl; rewrite IH; reflexivity.
Qed.

Lemma pendingSaves_sent c f s :
  pendingSaves (invoke c f s)
  = pendingSaves s
    ++ match c with
       | save_prediction =>
           [{| req_id := nextRequest s; req_command := c; req_frame := f |}]
       | _ => []
       end.
Proof.
  unfold pendingSaves, invoke. simpl. rewrite List.filter_app.
  destruct c; reflexivity.
Qed.

(** A step that leaves the saving flag and the pending saves alone. *)
Lemma oneSave_same s s' :
  isSaving s' = isSaving s -> pendingSaves s' = pendingSaves s ->
  oneSave s -> oneSave s'.
Proof. unfold oneSave. intros -> ->. tauto. Qed.

Lemma settle_oneSave id o s :
  wellFormed s -> oneSave s -> oneSave (settle id o s).
Proof.
  intros [Hnd _] Hone. unfold settle.
  destruct (findRequest id s) as [r|] eqn:Hfind; [|exact Hone].
  apply find_some in Hfind as [Hr Hid]. apply Nat.eqb_eq in Hid.
  assert (Hkeep : isSave r = false ->
            pendingSaves (dropRequest id s) = pendingSaves s).
  { intros Hs. rewrite pendingSaves_dropped.
    apply forallb_filter_id, forallb_forall. intros r' Hr'.
    apply filter_In in Hr' as [Hr' Hs'].
    destruct (Nat.eqb_spec (req_id r') id) as [E|_]; [|reflexivity].
    assert (r' = r); [|congruence].
    pose proof (evaluate_find_unique _ r Hnd Hr) as F1.
    pose proof (evaluate_find_unique _ r' Hnd Hr') as F2.
    rewrite E, <- Hid in F2. congruence. }
  destruct (req_command r) eqn:Hcmd.
  - assert (Hs : isSave r = false) by (unfold isSave; rewrite Hcmd; reflexivity).
    repeat break_match;
      (eapply oneSave_same; [| |exact Hone]; [reflexivity|apply Hkeep, Hs]).
  - left. split; [reflexivity|].
    change (pendingSaves (setSaving false (dropRequest id s)))
      with (pendingSaves (dropRequest id s)).
    rewrite pendingSaves_dropped.
    assert (Hs : isSave r = true) by (unfold isSave; rewrite Hcmd; reflexivity).
    assert (Hin : In r (pendingSaves s)) by (apply filter_In; tauto).
    destruct Hone as [[_ Hnone]|[_ [r0 Hone]]].
    + rewrite Hnone in Hin. destruct Hin.
    + rewrite Hone in *. destruct Hin as [->|[]]. simpl.
      rewrite Hid, Nat.eqb_refl. reflexivity.
  - assert (Hs : isSave r = false) by (unfold isSave; rewrite Hcmd; reflexivity).
    eapply oneSave_same; [| |exact Hone]; [reflexivity|apply Hkeep, Hs].
Qed.

Lemma activationEffect_saves s :
  isSaving (activationEffect s) = isSaving s
  /\ pendingSaves (activationEffect s) = pendingSaves s.
Proof.
  destruct (evaluate_activationEffect_components s) as (_ & _ & _ & Hsav & Hrest).
  split; [exact Hsav|]. unfold pendingSaves.
  destruct (pageDisabled s); destruct Hrest as (_ & _ & -> & _);
    [reflexivity|].
  rewrite List.filter_app. simpl. apply app_nil_r.
Qed.

Lemma step_oneSave s ev : wellFormed s -> oneSave s -> oneSave (step s ev).
Proof.
  intros Hwf Hone. destruct ev as [v|p|id o| |]; unfold step.
  - unfold setPageDisabled. destruct (eqb v (pageDisabled s)); [exact Hone|].
    match goal with
    | |- oneSave (activationEffect ?a) =>
        destruct (activationEffect_saves a) as [H1 H2];
        apply (oneSave_same a); [exact H1 | exact H2 |]
    end.
    destruct (effectCleanup s);
      (eapply oneSave_same; [| |exact Hone]; reflexivity).
  - rewrite EvaluateFacts.progress_delivered.
    destruct (listeners s); [exact Hone|].
    eapply oneSave_same; [| |exact Hone]; reflexivity.
  - apply settle_oneSave; assumption.
  - destruct (isBusy s) eqn:Hbusy; [exact Hone|].
    unfold isBusy in Hbusy. apply orb_false_iff in Hbusy as [_ Hsav].
    destruct Hone as [[_ Hnone]|[Hup _]]; [|congruence].
    right. split; [reflexivity|]. unfold handleSave.
    rewrite pendingSaves_sent.
    change (pendingSaves (setSaving true s)) with (pendingSaves s).
    rewrite Hnone. eexists. reflexivity.
  - destruct (isBusy s); [exact Hone|]. unfold handleRestart.
    eapply oneSave_same; [| |exact Hone]; [reflexivity|].
    rewrite pendingSaves_sent. apply app_nil_r.
Qed.

Lemma reached_oneSave v events : oneSave (run events (mount v)).
Proof.
  induction events as [|ev rest IH] using rev_ind.
  - destruct (activationEffect_saves (initial v)) as [H1 H2].
    apply (oneSave_same (initial v)); [exact H1 | exact H2 |].
    left. split; reflexivity.
  - unfold run. rewrite fold_left_app. simpl.
    apply step_oneSave; [apply evaluate_reached | exact IH].
Qed.

(** X11.  In every state the page reaches at most one [save_prediction]
    is pending, and the saving flag is up exactly while one is.  While it
    is up a click on Save or on Restart does nothing; when the pending
    save settles, fulfilled or rejected, the flag goes down and no save
    is pending. *)
Theorem one_save_at_a_time v events :
  (isSaving (run events (mount v)) = true
   <-> pendingSaves (run events (mount v)) <> [])
  /\ (length (pendingSaves (run events (mount v))) <= 1)%nat
  /\ (isSaving (run events (mount v)) = true ->
      step (run events (mount v)) ClickSave = run events (mount v)
      /\ step (run events (mount v)) ClickRestart = run events (mount v))
  /\ (forall r o,
        In r (pendingSaves (run events (mount v))) ->
        isSaving (step (run events (mount v)) (Settled (req_id r) o)) = false
        /\ pendingSaves (step (run events (mount v)) (Settled (req_id r) o))
           = []).
Proof.
  pose proof (reached_oneSave v events) as Hone.
  destruct (evaluate_reached v events) as (_ & _ & Hwf & _).
  set (s := run events (mount v)) in *. clearbody s.
  split; [|split; [|split]].
  - destruct Hone as [[Hdown Hnone]|[Hup [r Hone]]];
      rewrite ?Hdown, ?Hnone, ?Hup, ?Hone; split;
      congruence || discriminate.
  - destruct Hone as [[_ ->]|[_ [r ->]]]; simpl; lia.
  - intros Hup. unfold step, isBusy. rewrite Hup, orb_true_r.
    split; reflexivity.
  - intros r o Hr.
    pose proof Hr as Hr'. apply filter_In in Hr' as [Hin Hs].
    unfold step, settle, findRequest.
    rewrite (evaluate_find_unique _ r (proj1 Hwf) Hin).
    unfold isSave in Hs. destruct (req_command r); try discriminate.
    split; [reflexivity|].
    change (pendingSaves (setSaving false (dropRequest (req_id r) s)))
      with (pendingSaves (dropRequest (req_id r) s)).
    rewrite pendingSaves_dropped.
    destruct Hone as [[_ Hnone]|[_ [r0 Hone]]].
    + rewrite Hnone. reflexivity.
    + rewrite Hone in *. destruct Hr as [->|[]]. simpl.
      rewrite Nat.eqb_refl. reflexivity.
Qed.

Lemma one_save_at_a_time_witness :
  step (run [Settled 0 (Fulfilled (Some sampleReport)); ClickSave]
            (mount false)) ClickSave
  = run [Settled 0 (Fulfilled (Some sampleReport)); ClickSave] (mount false)
  /\ isSaving
       (step (run [Settled 0 (Fulfilled (Some sampleReport)); ClickSave]
                  (mount false))
             (Settled 1 Rejected)) = false.
Proof.
  destruct (one_save_at_a_time false
              [Settled 0 (Fulfilled (Some sampleReport)); ClickSave])
    as (_ & _ & Hbusy & Hsettle).
  destruct Hbusy as [Hsave _]; [vm_compute; reflexivity|].
  destruct (Hsettle {| req_id := 1; req_command := save_prediction;
                       req_frame := None |} Rejected) as [Hdown _];
    [vm_compute; left; reflexivity|].
  exact (conj Hsave Hdown).
Defined.

End EvaluateMore.

(** ** More on App: the queue, the shutdown and the pages *)

Module AppMore.
Import App.

Lemma runQueue_app a b q : runQueue (a ++ b) q = runQueue b (runQueue a q).
Proof. apply fold_left_app. Qed.

Lemma runQueue_adds ns q :
  runQueue (map ActAdd ns) q = pushAll ns q.
Proof.
  revert q. induction ns as [|n ns IH]; intros q; [reflexivity|].
  simpl. apply IH.
Qed.

Lemma runQueue_removes k : forall q,
  runQueue (repeat ActRemove k) q = drop k q.
Proof.
  induction k as [|k IH]; intros q; [reflexivity|].
  simpl. rewrite IH. destruct q; [apply drop_nil | reflexivity].
Qed.

(** X12.  The queue is first in, first out, and drops what arrives when it
    is full: after the notifications [ns] have arrived at an empty queue
    and [k] have been taken off, the queue holds the first ten of [ns]
    less the first [k], in order of arrival.  So the [k]-th acknowledgement
    (counting from 0, among the first ten) uncovers the notification that
    arrived [k]-th, and an eleventh is never shown. *)
Theorem notifications_leave_in_arrival_order
    (ns : list ErrorInfo) (k : nat) :
  runQueue (map ActAdd ns ++ repeat ActRemove k) [] = drop k (take 10 ns)
  /\ ((k < 10)%nat ->
      peekFront (runQueue (map ActAdd ns ++ repeat ActRemove k) [])
      = ns !! k)
  /\ ((10 <= k)%nat ->
      runQueue (map ActAdd ns ++ repeat ActRemove k) [] = []).
Proof.
  assert (E : runQueue (map ActAdd ns ++ repeat ActRemove k) []
              = drop k (take 10 ns)).
  { rewrite runQueue_app, runQueue_adds, runQueue_removes.
    rewrite AppFacts.pushAll_fills by (simpl; lia). reflexivity. }
  rewrite E. split; [reflexivity|]. split.
  - intros Hk. unfold peekFront. rewrite lookup_drop, Nat.add_0_r.
    apply lookup_take_lt, Hk.
  - intros Hk. apply drop_ge. rewrite length_take. lia.
Qed.

Lemma notifications_leave_in_arrival_order_witness :
  peekFront
    (runQueue (map ActAdd [{| title := "a"; message := "" |};
                           {| title := "b"; message := "" |};
                           {| title := "c"; message := "" |}]
               ++ repeat ActRemove 1) [])
  = Some {| title := "b"; message := "" |}.
Proof.
  apply (proj1 (proj2 (notifications_leave_in_arrival_order
                         [{| title := "a"; message := "" |};
                          {| title := "b"; message := "" |};
                          {| title := "c"; message := "" |}] 1))).
  lia.
Defined.

(** *** Shutting down *)

Lemma acknowledge_rendered s :
  updateQueue s = [] ->
  acknowledgeNotification s
  = {| pageIndex := pageIndex s; isPanic := isPanic s;
       allErrorInfo := tail (allErrorInfo s); updateQueue := [];
       windowClosed :=
         windowClosed s
         || (isPanic s && (length (allErrorInfo s) <=? 1)%nat) |}.
Proof.
  intros Hq. destruct s as [i p q uq c]. simpl in Hq. subst uq.
  unfold acknowledgeNotification, step, handle, handleCloseDialog. simpl.
  destruct p; simpl; [|rewrite orb_false_r; reflexivity].
  destruct (length q <=? 1)%nat; simpl;
    [rewrite orb_true_r | rewrite orb_false_r]; reflexivity.
Qed.

Lemma acknowledgeTimes_rendered k : forall s,
  updateQueue s = [] ->
  acknowledgeTimes k s
  = {| pageIndex := pageIndex s; isPanic := isPanic s;
       allErrorInfo := drop k (allErrorInfo s); updateQueue := [];
       windowClosed :=
         windowClosed s
         || (isPanic s && (1 <=? k)%nat
             && (length (allErrorInfo s) <=? k)%nat) |}.
Proof.
  induction k as [|k IH]; intros s Hq.
  - destruct s as [i p q uq c]. simpl in *. subst uq.
    rewrite andb_false_r, orb_false_r. reflexivity.
  - change (acknowledgeTimes (S k) s)
      with (acknowledgeNotification (acknowledgeTimes k s)).
    rewrite (IH s Hq), acknowledge_rendered by reflexivity. simpl.
    f_equal.
    + destruct (allErrorInfo s) as [|e q]; [rewrite drop_nil; reflexivity|].
      simpl. clear. revert e. induction q as [|e' q IHq] in k |- *;
        intros e; destruct k; simpl; try reflexivity.
      * rewrite drop_nil. reflexivity.
      * apply IHq.
    + rewrite length_drop.
      destruct (windowClosed s), (isPanic s); simpl; try reflexivity.
      destruct (Nat.leb_spec 1 k), (Nat.leb_spec (length (allErrorInfo s)) k),
        (Nat.leb_spec (length (allErrorInfo s) - k) 1),
        (Nat.leb_spec (length (allErrorInfo s)) (S k));
        simpl; try reflexivity; lia.
Qed.

(** X13.  Acknowledgements in a row, with no notification arriving in
    between.  From a rendered state with the window open, after [k]
    acknowledgements in a row the queue has lost its [k] oldest
    notifications, and the window is closed exactly when the panic flag is
    set, [k] is at least 1 and [k] is at least the number of notifications
    that were queued: with a panic pending the window closes on the
    acknowledgement of the last queued notification and not before, and
    without a panic it never closes. *)
Theorem window_closes_on_the_last_acknowledgement (s : State) (k : nat) :
  updateQueue s = [] ->
  windowClosed s = false ->
  allErrorInfo (acknowledgeTimes k s) = drop k (allErrorInfo s)
  /\ (windowClosed (acknowledgeTimes k s) = true
      <-> isPanic s = true
          /\ (1 <= k)%nat /\ (length (allErrorInfo s) <= k)%nat).
Proof.
  intros Hq Hopen. rewrite acknowledgeTimes_rendered by exact Hq.
  cbn [allErrorInfo windowClosed].
  split; [reflexivity|]. rewrite Hopen, orb_false_l.
  rewrite !andb_true_iff, !Nat.leb_le. tauto.
Qed.

Lemma window_closes_on_the_last_acknowledgement_witness :
  windowClosed
    (acknowledgeTimes 1
       {| pageIndex := 2; isPanic := true;
          allErrorInfo := [{| title := "e1"; message := "" |};
                           {| title := "e2"; message := "" |}];
          updateQueue := []; windowClosed := false |}) <> true
  /\ windowClosed
       (acknowledgeTimes 2
          {| pageIndex := 2; isPanic := true;
             allErrorInfo := [{| title := "e1"; message := "" |};
                              {| title := "e2"; message := "" |}];
             updateQueue := []; windowClosed := false |}) = true.
Proof.
  pose proof (window_closes_on_the_last_acknowledgement
       {| pageIndex := 2; isPanic := true;
          allErrorInfo := [{| title := "e1"; message := "" |};
                           {| title := "e2"; message := "" |}];
          updateQueue := []; windowClosed := false |}) as H.
  destruct (H 1%nat eq_refl eq_refl) as [_ H1].
  destruct (H 2%nat eq_refl eq_refl) as [_ H2].
  split.
  - intros Hc. apply H1 in Hc. simpl in Hc. lia.
  - apply H2. simpl. repeat split; lia.
Defined.

Lemma step_panic_sticky s ev :
  isPanic s = true -> isPanic (step s ev) = true.
Proof.
  intros H. destruct ev; unfold step, handle, handleCloseDialog; simpl;
    try exact H; try reflexivity.
  destruct (isPanic s && _); exact H.
Qed.

Lemma step_closed_after_panic s ev :
  (windowClosed s = true -> isPanic s = true) ->
  windowClosed (step s ev) = true -> isPanic (step s ev) = true.
Proof.
  intros Hinv. destruct ev; unfold step, handle, handleCloseDialog; simpl;
    try exact Hinv; try reflexivity.
  destruct (isPanic s) eqn:Hp; simpl; [|rewrite Hp; exact Hinv].
  destruct (length (allErrorInfo s) <=? 1)%nat; simpl; intros _; exact Hp.
Qed.

Lemma step_without_close s ev :
  ev <> CloseDialog -> windowClosed (step s ev) = windowClosed s.
Proof. destruct ev; try reflexivity. congruence. Qed.

Lemma step_without_panic s ev :
  ev <> CorePanic -> isPanic (step s ev) = isPanic s.
Proof.
  destruct ev; try reflexivity; [congruence|].
  intros _. unfold step, handle, handleCloseDialog. simpl.
  destruct (isPanic s && _); reflexivity.
Qed.

Lemma event_eq_dec (a b : Event) : {a = b} + {a <> b}.
Proof.
  decide equality; try apply Z.eq_dec.
  decide equality; apply String.string_dec.
Qed.

(** X14.  The component closes the window only on the way down: in every
    state reached from the initial one, if the window has been closed then
    a panic event has arrived, the panic flag is still set (nothing ever
    clears it), and a notification has been acknowledged.  A panic without
    an acknowledgement closes nothing. *)
Theorem window_closed_only_after_panic (events : list Event) :
  windowClosed (run events initial) = true ->
  isPanic (run events initial) = true
  /\ In CorePanic events
  /\ In CloseDialog events.
Proof.
  assert (Hinv : windowClosed (run events initial) = true ->
                 isPanic (run events initial) = true).
  { induction events as [|ev rest IH] using rev_ind; [discriminate|].
    unfold run. rewrite fold_left_app. simpl.
    apply step_closed_after_panic, IH. }
  intros Hclosed. split; [apply Hinv, Hclosed|]. split.
  - destruct (in_dec event_eq_dec CorePanic events) as [H|H]; [exact H|].
    exfalso. specialize (Hinv Hclosed). clear Hclosed.
    revert Hinv H. induction events as [|ev rest IH] using rev_ind;
      [discriminate|].
    unfold run. rewrite fold_left_app. cbn [fold_left]. intros Hp Hnot.
    rewrite step_without_panic in Hp.
    + apply IH; [exact Hp|]. intros Hin. apply Hnot, in_or_app. tauto.
    + intros ->. apply Hnot, in_or_app. right. left. reflexivity.
  - destruct (in_dec event_eq_dec CloseDialog events) as [H|H]; [exact H|].
    exfalso. revert Hclosed H. clear Hinv.
    induction events as [|ev rest IH] using rev_ind; [discriminate|].
    unfold run. rewrite fold_left_app. cbn [fold_left]. intros Hc Hnot.
    rewrite step_without_close in Hc.
    + apply IH; [exact Hc|]. intros Hin. apply Hnot, in_or_app. tauto.
    + intros ->. apply Hnot, in_or_app. right. left. reflexivity.
Qed.

Lemma window_closed_only_after_panic_witness :
  isPanic
    (run [DialogError {| title := "e"; message := "m" |}; CorePanic;
          CloseDialog] initial) = true.
Proof.
  apply (window_closed_only_after_panic
           [DialogError {| title := "e"; message := "m" |}; CorePanic;
            CloseDialog]).
  reflexivity.
Defined.

(** *** The pages *)

(** X15.  At most one page is enabled at a time: page [i] is enabled
    exactly when the page index is [i], so a page index from 0 to 3 enables
    that page alone, and any other page index (the component checks none)
    leaves every page disabled. *)
Theorem at_most_one_page_enabled (s : State) :
  (forall index, pageDisabledOf (tabIndexProp s index)
                 = negb (pageIndex s =? Z.of_nat index))
  /\ enabledPages s
     = (if (0 <=? pageIndex s) && (pageIndex s <? 4)
        then [Z.to_nat (pageIndex s)] else [])
  /\ (length (enabledPages s) <= 1)%nat.
Proof.
  assert (H1 : forall index, pageDisabledOf (tabIndexProp s index)
                             = negb (pageIndex s =? Z.of_nat index)).
  { intros index. unfold tabIndexProp, stepEnabled.
    destruct (pageIndex s =? Z.of_nat index); reflexivity. }
  assert (H2 : enabledPages s
               = (if (0 <=? pageIndex s) && (pageIndex s <? 4)
                  then [Z.to_nat (pageIndex s)] else [])).
  { unfold enabledPages, pages. simpl. rewrite !H1, !negb_involutive.
    change (Z.of_nat 0) with 0. change (Z.of_nat 1) with 1.
    change (Z.of_nat 2) with 2. change (Z.of_nat 3) with 3.
    destruct (Z.eqb_spec (pageIndex s) 0) as [->|H0]; [reflexivity|].
    destruct (Z.eqb_spec (pageIndex s) 1) as [->|H1']; [reflexivity|].
    destruct (Z.eqb_spec (pageIndex s) 2) as [->|H2']; [reflexivity|].
    destruct (Z.eqb_spec (pageIndex s) 3) as [->|H3']; [reflexivity|].
    destruct (Z.leb_spec 0 (pageIndex s)), (Z.ltb_spec (pageIndex s) 4);
      simpl; try reflexivity; lia. }
  split; [exact H1|]. split; [exact H2|].
  rewrite H2. destruct (_ && _); simpl; lia.
Qed.

End AppMore.

(** ** The error dialog *)

Module ErrorDialogFacts.
Import ErrorDialog.

Lemma shown_snoc infos info :
  shown (infos ++ [info]) = infoEffect info (shown infos).
Proof. unfold shown. rewrite fold_left_app. reflexivity. Qed.

Lemma lastNotification_snoc infos info :
  lastNotification (infos ++ [info])
  = match info with
    | Some i => Some i
    | None => lastNotification infos
    end.
Proof.
  unfold lastNotification. rewrite omap_app. simpl.
  destruct info as [i|]; simpl.
  - apply last_snoc.
  - rewrite app_nil_r. reflexivity.
Qed.

(** X16.  The dialog is open exactly when the last [info] it was given is
    a notification, and its title and message are those of the last
    notification it was given: when the queue runs empty the dialog closes
    with the text of the notification just acknowledged still in place,
    and before any notification both are empty.  Running the effect again
    on the same [info] changes nothing. *)
Theorem dialog_keeps_the_last_notification
    (infos : list (option App.ErrorInfo)) :
  open (shown infos)
  = match last infos with
    | Some (Some _) => true
    | _ => false
    end
  /\ (title (shown infos), message (shown infos))
     = match lastNotification infos with
       | Some i => (App.title i, App.message i)
       | None => ("", "")
       end
  /\ forall info,
       infoEffect info (infoEffect info (shown infos))
       = infoEffect info (shown infos).
Proof.
  split; [|split].
  - induction infos as [|info infos _] using rev_ind; [reflexivity|].
    rewrite shown_snoc, last_snoc. destruct info; reflexivity.
  - induction infos as [|info infos IH] using rev_ind; [reflexivity|].
    rewrite shown_snoc, lastNotification_snoc.
    destruct info as [i|]; [reflexivity|]. simpl. exact IH.
  - intros [i|]; reflexivity.
Qed.

End ErrorDialogFacts.

(** ** The scrolling of the page view *)

Module AppScrollFacts.
Import AppScroll.

(** What a run of the effect leaves behind, with the page view in
    place. *)
Lemma scrollEffect_components s :
  pageView s = true ->
  pageIndex (scrollEffect s) = pageIndex s
  /\ pageView (scrollEffect s) = true
  /\ clientWidth (scrollEffect s) = clientWidth s
  /\ scrollableClass (scrollEffect s) = Some "scrolling"
  /\ lastScroll (scrollEffect s)
     = Some (clientWidth s * pageIndex s, Smooth)
  /\ frames (scrollEffect s)
     = frames s ++ [{| capturedIndex := pageIndex s;
                       timeoutHandler := nextHandle s;
                       watchdogHandler := None |}]
  /\ effectCleanup (scrollEffect s) = Some (length (frames s))
  /\ timers (scrollEffect s)
     = timers s ++ [{| handle := nextHandle s; kind := Timeout;
                       owner := length (frames s) |}]
  /\ nextHandle (scrollEffect s) = S (nextHandle s)
  /\ resizeListeners (scrollEffect s)
     = resizeListeners s ++ [length (frames s)].
Proof.
  intros Hpv. unfold scrollEffect. rewrite Hpv. simpl.
  repeat split. exact Hpv.
Qed.

Lemma scrollEffect_inPhase s :
  pageView s = true -> timers s = [] -> resizeListeners s = [] ->
  inPhase (scrollEffect s).
Proof.
  intros Hpv Htm Hls.
  destruct (scrollEffect_components s Hpv)
    as (Hi & _ & _ & Hcls & _ & Hfr & Hcl & Htm' & Hnext & Hls').
  rewrite Htm in Htm'. rewrite Hls in Hls'. simpl in Htm', Hls'.
  exists (length (frames s)),
    {| capturedIndex := pageIndex s; timeoutHandler := nextHandle s;
       watchdogHandler := None |}.
  split; [exact Hcl|]. split.
  { rewrite Hfr, lookup_app_r by lia. rewrite Nat.sub_diag. reflexivity. }
  split; [symmetry; exact Hi|]. split; [exact Hls'|]. split.
  { rewrite Htm', Hnext. constructor; [simpl; lia | constructor]. }
  left. split; [exact Hcls|]. split; [reflexivity | exact Htm'].
Qed.

(** The cleanup of the effect in force stops its timer and takes its
    resize listener away. *)
Lemma runCleanup_clears s f fr :
  frames s !! f = Some fr ->
  resizeListeners s = [f] ->
  animating s f fr \/ watching s f fr ->
  timers (runCleanup f s) = []
  /\ resizeListeners (runCleanup f s) = []
  /\ pageIndex (runCleanup f s) = pageIndex s
  /\ pageView (runCleanup f s) = pageView s
  /\ clientWidth (runCleanup f s) = clientWidth s
  /\ frames (runCleanup f s) = frames s
  /\ nextHandle (runCleanup f s) = nextHandle s.
Proof.
  intros Hfr Hls Hphase. unfold runCleanup. rewrite Hfr.
  assert (Hl : List.filter (fun g => negb (g =? f)%nat) [f] = []).
  { simpl. rewrite Nat.eqb_refl. reflexivity. }
  destruct Hphase as [(_ & Hw & Htm)|(_ & i & Hw & Htm)]; rewrite Hw.
  - simpl. rewrite Htm, Hls, Hl. simpl. rewrite Nat.eqb_refl.
    repeat split.
  - simpl. rewrite Htm, Hls, Hl. simpl.
    destruct (i =? timeoutHandler fr)%nat; simpl;
      rewrite ?Nat.eqb_refl; repeat split.
Qed.

Lemma rerunEffect_inPhase s f fr :
  pageView s = true ->
  effectCleanup s = Some f ->
  frames s !! f = Some fr ->
  resizeListeners s = [f] ->
  animating s f fr \/ watching s f fr ->
  inPhase (rerunEffect s)
  /\ pageView (rerunEffect s) = true
  /\ pageIndex (rerunEffect s) = pageIndex s
  /\ clientWidth (rerunEffect s) = clientWidth s
  /\ scrollableClass (rerunEffect s) = Some "scrolling"
  /\ lastScroll (rerunEffect s) = Some (clientWidth s * pageIndex s, Smooth)
  /\ timers (rerunEffect s)
     = [{| handle := nextHandle s; kind := Timeout;
           owner := length (frames s) |}].
Proof.
  intros Hpv Hcl Hfr Hls Hphase. unfold rerunEffect. rewrite Hcl.
  destruct (runCleanup_clears s f fr Hfr Hls Hphase)
    as (Htm & Hls' & Hi & Hpv' & Hw & Hfr' & Hn).
  set (s1 := runCleanup f s) in *. clearbody s1.
  rewrite <- Hpv' in Hpv.
  destruct (scrollEffect_components s1 Hpv)
    as (Hi2 & Hpv2 & Hw2 & Hcls & Hsc & _ & _ & Htm2 & _).
  split; [apply scrollEffect_inPhase; assumption|].
  split; [exact Hpv2|].
  rewrite Hi2, Hw2, Hcls, Hsc, Htm2, Htm, Hi, Hw, Hfr', Hn.
  repeat split.
Qed.

Lemma workaround_inPhase g s : inPhase s -> inPhase (workaround g s).
Proof.
  intros H. unfold workaround. destruct (frames s !! g); exact H.
Qed.

Lemma timeoutFires_inPhase h s : inPhase s -> inPhase (timeoutFires h s).
Proof.
  intros (f & fr & Hcl & Hfr & Hi & Hls & Hlt & Hphase).
  unfold timeoutFires.
  destruct Hphase as [(Hcls & Hw & Htm)|(Hcls & i & Hw & Htm)].
  - rewrite Htm. simpl List.find.
    destruct (timeoutHandler fr =? h)%nat eqn:E.
    + apply Nat.eqb_eq in E. subst h.
      exists f, {| capturedIndex := capturedIndex fr;
                   timeoutHandler := timeoutHandler fr;
                   watchdogHandler := Some (nextHandle s) |}.
      simpl. rewrite Htm. simpl. rewrite Nat.eqb_refl. simpl.
      split; [exact Hcl|]. split.
      { rewrite list_lookup_alter_eq, Hfr. reflexivity. }
      split; [exact Hi|]. split; [exact Hls|]. split.
      { constructor; [simpl; lia | constructor]. }
      right. split; [reflexivity|]. eexists. split; reflexivity.
    + exists f, fr. repeat split; try assumption.
      left. repeat split; assumption.
  - rewrite Htm. simpl List.find.
    destruct (i =? h)%nat; exists f, fr; repeat split; try assumption;
      right; (split; [assumption|]); exists i; split; assumption.
Qed.

Lemma intervalTicks_inPhase h s : inPhase s -> inPhase (intervalTicks h s).
Proof.
  intros H. unfold intervalTicks.
  destruct (List.find _ (timers s)) as [[h' [|] f]|]; try exact H.
  apply workaround_inPhase, H.
Qed.

Lemma step_inPhase s ev :
  pageView s = true -> inPhase s ->
  pageView (step s ev) = true /\ inPhase (step s ev).
Proof.
  intros Hpv Hin. destruct ev as [i| |h|h|w]; unfold step.
  - destruct (i =? pageIndex s); [split; assumption|].
    destruct Hin as (f & fr & Hcl & Hfr & _ & Hls & _ & Hphase).
    destruct (rerunEffect_inPhase (setPageIndex i s) f fr Hpv Hcl Hfr Hls)
      as (H & Hpv' & _). { exact Hphase. }
    split; assumption.
  - destruct Hin as (f & fr & Hcl & Hfr & _ & Hls & _ & Hphase).
    destruct (rerunEffect_inPhase s f fr Hpv Hcl Hfr Hls Hphase)
      as (H & Hpv' & _).
    split; assumption.
  - split; [|apply timeoutFires_inPhase, Hin].
    unfold timeoutFires.
    destruct (List.find _ (timers s)) as [[h' [|] f]|]; exact Hpv.
  - split; [|apply intervalTicks_inPhase, Hin].
    unfold intervalTicks, workaround.
    destruct (List.find _ (timers s)) as [[h' [|] f]|]; try exact Hpv.
    destruct (frames s !! f); exact Hpv.
  - destruct Hin as (f & fr & Hcl & Hfr & Hi & Hls & Hlt & Hphase).
    rewrite Hls. simpl. unfold workaround. simpl. rewrite Hfr.
    split; [exact Hpv|].
    exists f, fr. repeat split; try assumption.
Qed.

Lemma scroll_reached width events :
  pageView (run events (mount true width)) = true
  /\ inPhase (run events (mount true width)).
Proof.
  induction events as [|ev rest IH] using rev_ind.
  - split; [reflexivity|].
    apply scrollEffect_inPhase; reflexivity.
  - unfold run. rewrite fold_left_app. cbn [fold_left].
    apply step_inPhase; apply IH.
Qed.

(** X17.  With the page view in place the machine is in one of two phases
    in every state it reaches, both owned by the run of the effect in
    force, whose captured page index is the current one and whose resize
    listener is the only one.  Animating: the class [scrolling] is set and
    the one timer is its timeout.  Watching: the class is gone and the one
    timer is its interval.  So the class is set exactly while the timeout
    is pending, and no timer of an earlier page index is ever alive. *)
Theorem scrolling_is_animating_or_watching width events :
  inPhase (run events (mount true width))
  /\ length (timers (run events (mount true width))) = 1%nat
  /\ (scrollableClass (run events (mount true width)) = Some "scrolling"
      <-> exists t, timers (run events (mount true width)) = [t]
                    /\ kind t = Timeout)
  /\ (scrollableClass (run events (mount true width)) = None
      <-> exists t, timers (run events (mount true width)) = [t]
                    /\ kind t = Interval).
Proof.
  destruct (scroll_reached width events) as [_ Hin].
  set (s := run events (mount true width)) in *. clearbody s.
  split; [exact Hin|].
  destruct Hin as (f & fr & _ & _ & _ & _ & _ & Hphase).
  destruct Hphase as [(Hcls & _ & Htm)|(Hcls & i & _ & Htm)];
    rewrite Hcls, Htm.
  - split; [reflexivity|]. split; split.
    + intros _. eexists. split; reflexivity.
    + reflexivity.
    + discriminate.
    + intros (t & [= <-] & Hk). discriminate.
  - split; [reflexivity|]. split; split.
    + discriminate.
    + intros (t & [= <-] & Hk). discriminate.
    + intros _. eexists. split; reflexivity.
    + reflexivity.
Qed.

(** X18.  Every forced correction aims at the current page.  After a
    resize the view is put at the new width times the current page index.
    A tick of the running watchdog puts the view at the width times the
    current page index, at once, and changes nothing else; a tick under
    any other handle does nothing.  A change of the page index starts a
    smooth scroll to the new page with the class set, and the timer that
    was pending or running for the old index is gone: if its handle still
    fires, as timeout or as interval, nothing happens. *)
Theorem corrections_aim_at_the_current_page width events :
  (forall w,
     lastScroll (step (run events (mount true width)) (Resize w))
     = Some (w * pageIndex (run events (mount true width)), Instant))
  /\ (forall t,
        In t (timers (run events (mount true width))) ->
        kind t = Interval ->
        step (run events (mount true width)) (IntervalTicks (handle t))
        = scrollTo (clientWidth (run events (mount true width))
                    * pageIndex (run events (mount true width)))
                   Instant (run events (mount true width)))
  /\ (forall h,
        (forall t, In t (timers (run events (mount true width))) ->
                   kind t = Interval -> handle t <> h) ->
        step (run events (mount true width)) (IntervalTicks h)
        = run events (mount true width))
  /\ (forall i t,
        i <> pageIndex (run events (mount true width)) ->
        In t (timers (run events (mount true width))) ->
        lastScroll (step (run events (mount true width)) (PageMove i))
        = Some (clientWidth (run events (mount true width)) * i, Smooth)
        /\ scrollableClass
             (step (run events (mount true width)) (PageMove i))
           = Some "scrolling"
        /\ step (step (run events (mount true width)) (PageMove i))
                (TimeoutFires (handle t))
           = step (run events (mount true width)) (PageMove i)
        /\ step (step (run events (mount true width)) (PageMove i))
                (IntervalTicks (handle t))
           = step (run events (mount true width)) (PageMove i)).
Proof.
  destruct (scroll_reached width events) as [Hpv Hin].
  set (s := run events (mount true width)) in *. clearbody s.
  destruct Hin as (f & fr & Hcl & Hfr & Hi & Hls & Hlt & Hphase).
  split; [|split; [|split]].
  - intros w. unfold step. rewrite Hls. simpl. unfold workaround. simpl.
    rewrite Hfr, Hi. reflexivity.
  - intros t Ht Hk. unfold step, intervalTicks.
    destruct Hphase as [(_ & _ & Htm)|(_ & i & _ & Htm)];
      rewrite Htm in Ht |- *; destruct Ht as [<-|[]]; [discriminate|].
    cbn [List.find handle]. rewrite Nat.eqb_refl.
    unfold workaround. rewrite Hfr, Hi. reflexivity.
  - intros h Hdead. unfold step, intervalTicks.
    destruct (List.find _ (timers s)) as [[h' [|] g]|] eqn:Hfind;
      try reflexivity.
    apply find_some in Hfind as [Ht Heq].
    apply Nat.eqb_eq in Heq. destruct (Hdead _ Ht eq_refl Heq).
  - intros i t Hne Ht.
    assert (Hstep : step s (PageMove i) = rerunEffect (setPageIndex i s)).
    { unfold step. destruct (Z.eqb_spec i (pageIndex s)); [congruence|].
      reflexivity. }
    rewrite Hstep.
    destruct (rerunEffect_inPhase (setPageIndex i s) f fr Hpv Hcl Hfr Hls)
      as (_ & _ & _ & _ & Hcls & Hsc & Htm). { exact Hphase. }
    change (clientWidth (setPageIndex i s)) with (clientWidth s) in Hsc.
    change (pageIndex (setPageIndex i s)) with i in Hsc.
    change (nextHandle (setPageIndex i s)) with (nextHandle s) in Htm.
    rewrite List.Forall_forall in Hlt. specialize (Hlt t Ht).
    split; [exact Hsc|]. split; [exact Hcls|].
    unfold step, timeoutFires, intervalTicks. rewrite Htm. simpl List.find.
    destruct (Nat.eqb_spec (nextHandle s) (handle t)); [lia|].
    split; reflexivity.
Qed.

Lemma corrections_aim_at_the_current_page_witness :
  lastScroll (run [PageMove 2; TimeoutFires 1] (mount true 800))
  = Some (1600, Smooth)
  /\ lastScroll
       (step (run [PageMove 2; TimeoutFires 1] (mount true 800))
             (IntervalTicks 2))
     = Some (1600, Instant)
  /\ step (step (run [TimeoutFires 0] (mount true 800)) (PageMove 2))
          (IntervalTicks 1)
     = step (run [TimeoutFires 0] (mount true 800)) (PageMove 2).
Proof.
  split; [vm_compute; reflexivity|]. split.
  - destruct (corrections_aim_at_the_current_page
                800 [PageMove 2; TimeoutFires 1]) as (_ & Htick & _).
    change (IntervalTicks 2)
      with (IntervalTicks
              (handle {| handle := 2; kind := Interval; owner := 1 |})).
    rewrite (Htick {| handle := 2; kind := Interval; owner := 1 |}).
    + vm_compute. reflexivity.
    + vm_compute. left. reflexivity.
    + reflexivity.
  - destruct (corrections_aim_at_the_current_page 800 [TimeoutFires 0])
      as (_ & _ & _ & Hmove).
    destruct (Hmove 2 {| handle := 1; kind := Interval; owner := 0 |})
      as (_ & _ & _ & Hdead).
    + vm_compute. discriminate.
    + vm_compute. left. reflexivity.
    + exact Hdead.
Defined.

End AppScrollFacts.

(** ** The Train page *)

Module TrainPageFacts.
Import TrainPage.

(** A render touches the memo cell only. *)
Lemma render_components s :
  pageDisabled (render s) = pageDisabled s
  /\ endX (render s) = endX s
  /\ confidencePoints (render s) = confidencePoints s
  /\ frames (render s) = frames s
  /\ listeners (render s) = listeners s
  /\ effectCleanup (render s) = effectCleanup s
  /\ inflight (render s) = inflight s
  /\ nextListener (render s) = nextListener s
  /\ nextRequest (render s) = nextRequest s.
Proof.
  unfold render.
  destruct (memoLength s =? length (confidencePoints s))%nat; repeat split.
Qed.

Lemma render_in_sync s :
  memoLength (render s) = length (confidencePoints (render s)).
Proof.
  unfold render.
  destruct (Nat.eqb_spec (memoLength s) (length (confidencePoints s)));
    [assumption | reflexivity].
Qed.

Lemma render_subscription s : subscription s -> subscription (render s).
Proof.
  unfold subscription.
  destruct (render_components s) as (-> & _ & _ & _ & -> & -> & _). tauto.
Qed.

Lemma render_guarded s : guarded s -> guarded (render s).
Proof.
  unfold guarded, frameCanceled.
  destruct (render_components s) as (_ & _ & _ & -> & _ & -> & -> & _). tauto.
Qed.

Lemma render_cleared s :
  clearedWhileDisabled s -> clearedWhileDisabled (render s).
Proof.
  unfold clearedWhileDisabled.
  destruct (render_components s) as (-> & -> & -> & _). tauto.
Qed.

(** What a run of the activation effect leaves behind. *)
Lemma train_activationEffect_components s :
  pageDisabled (activationEffect s) = pageDisabled s
  /\ if pageDisabled s
     then endX (activationEffect s) = 0
          /\ confidencePoints (activationEffect s)
             = [{| Train.x := 0; Train.y := 0 |}]
          /\ frames (activationEffect s) = frames s
          /\ effectCleanup (activationEffect s) = None
          /\ inflight (activationEffect s) = inflight s
          /\ listeners (activationEffect s) = listeners s
     else endX (activationEffect s) = endX s
          /\ confidencePoints (activationEffect s) = confidencePoints s
          /\ frames (activationEffect s) = frames s ++ [false]
          /\ effectCleanup (activationEffect s)
             = Some (length (frames s), nextListener s)
          /\ inflight (activationEffect s)
             = inflight s ++ [{| req_id := nextRequest s;
                                 req_frame := length (frames s) |}]
          /\ listeners (activationEffect s)
             = listeners s ++ [nextListener s].
Proof.
  unfold activationEffect.
  destruct (pageDisabled s) eqn:E; repeat split; exact E.
Qed.

Lemma runCleanup_components c s :
  pageDisabled (runCleanup c s) = pageDisabled s
  /\ frames (runCleanup c s) = <[c.1 := true]> (frames s)
  /\ listeners (runCleanup c s)
     = List.filter (fun k => negb (k =? c.2)%nat) (listeners s)
  /\ inflight (runCleanup c s) = inflight s
  /\ nextListener (runCleanup c s) = nextListener s
  /\ nextRequest (runCleanup c s) = nextRequest s.
Proof. repeat split. Qed.

Lemma train_frameCanceled_set f f0 (s s' : State) :
  frames s' = <[f0 := true]> (frames s) ->
  frameCanceled f s = true -> frameCanceled f s' = true.
Proof.
  unfold frameCanceled. intros -> H.
  destruct (frames s !! f) as [b|] eqn:E; [|discriminate].
  simpl in H. subst b.
  destruct (decide (f0 = f)) as [->|Hne].
  - rewrite list_lookup_insert_eq; [reflexivity|].
    apply lookup_lt_Some in E. exact E.
  - rewrite list_lookup_insert_ne by exact Hne. rewrite E. reflexivity.
Qed.

Lemma train_frameCanceled_more f (s s' : State) more :
  frames s' = frames s ++ more ->
  frameCanceled f s = true -> frameCanceled f s' = true.
Proof.
  unfold frameCanceled. intros -> H.
  destruct (frames s !! f) as [b|] eqn:E; [|discriminate].
  rewrite (lookup_app_l_Some _ _ _ _ E). exact H.
Qed.

(** The three invariants together. *)
Lemma setPageDisabled_invariants v s :
  subscription s -> guarded s -> clearedWhileDisabled s ->
  subscription (setPageDisabled v s)
  /\ guarded (setPageDisabled v s)
  /\ clearedWhileDisabled (setPageDisabled v s).
Proof.
  intros Hsub Hg Hc. unfold setPageDisabled.
  destruct (eqb v (pageDisabled s)) eqn:Hv; [tauto|].
  assert (Hold : pageDisabled s = negb v)
    by (destruct v, (pageDisabled s); simpl in *; congruence).
  destruct (render_components (setPageDisabledProp v s))
    as (Hp0 & _ & _ & Hfr0 & Hls0 & Hcl0 & Hin0 & _).
  change (pageDisabled (setPageDisabledProp v s)) with v in Hp0.
  change (frames (setPageDisabledProp v s)) with (frames s) in Hfr0.
  change (listeners (setPageDisabledProp v s)) with (listeners s) in Hls0.
  change (effectCleanup (setPageDisabledProp v s)) with (effectCleanup s)
    in Hcl0.
  change (inflight (setPageDisabledProp v s)) with (inflight s) in Hin0.
  set (s0 := render (setPageDisabledProp v s)) in *. clearbody s0.
  unfold subscription in Hsub. rewrite Hold in Hsub.
  destruct Hg as [Hown Hreq]. rewrite Hcl0.
  destruct v; simpl in Hsub.
  - (* the page is disabled *)
    destruct Hsub as (f0 & l0 & Hls & Hcl). rewrite Hcl.
    destruct (runCleanup_components (f0, l0) s0)
      as (Hp1 & Hfr1 & Hls1 & Hin1 & _).
    set (s1 := runCleanup (f0, l0) s0) in *. clearbody s1.
    destruct (train_activationEffect_components s1) as (Hp2 & Hrest).
    rewrite Hp1, Hp0 in Hp2, Hrest.
    destruct Hrest as (He & Hpts & Hfr2 & Hcl2 & Hin2 & Hls2).
    set (s2 := activationEffect s1) in *. clearbody s2.
    simpl in Hfr1, Hls1. rewrite Hls0, Hls in Hls1. simpl in Hls1.
    rewrite Nat.eqb_refl in Hls1. simpl in Hls1.
    split; [|split].
    + unfold subscription. rewrite Hp2, Hls2, Hls1, Hcl2. tauto.
    + unfold guarded. rewrite Hcl2, Hin2, Hin1, Hin0.
      split; [intros f l [=]|].
      intros r Hr. right.
      apply (train_frameCanceled_more _ s1 s2 []);
        [rewrite app_nil_r; exact Hfr2|].
      destruct (Hreq r Hr) as [[l Hcur]|Hcan].
      * rewrite Hcl in Hcur. injection Hcur as -> _.
        unfold frameCanceled. rewrite Hfr1, Hfr0.
        rewrite list_lookup_insert_eq; [reflexivity|].
        apply (Hown _ _ Hcl).
      * apply (train_frameCanceled_set _ f0 s s1); [congruence | exact Hcan].
    + intros _. split; assumption.
  - (* the page is enabled *)
    destruct Hsub as [Hls Hcl]. rewrite Hcl.
    destruct (train_activationEffect_components s0) as (Hp2 & Hrest).
    rewrite Hp0 in Hp2, Hrest.
    destruct Hrest as (_ & _ & Hfr2 & Hcl2 & Hin2 & Hls2).
    set (s2 := activationEffect s0) in *. clearbody s2.
    split; [|split].
    + unfold subscription. rewrite Hp2, Hls2, Hls0, Hls, Hcl2.
      eexists _, _. split; reflexivity.
    + unfold guarded. rewrite Hcl2, Hin2, Hin0, Hfr2, Hfr0. split.
      * intros f l [= <- <-]. rewrite length_app. simpl. lia.
      * intros r Hr. apply in_app_or in Hr as [Hr|[<-|[]]].
        -- right. destruct (Hreq r Hr) as [[l Hcur]|Hcan]; [congruence|].
           apply (train_frameCanceled_more _ s s2 [false]);
             [congruence | exact Hcan].
        -- left. eexists. reflexivity.
    + intros Hdis. congruence.
Qed.

Lemma progress_components p (ls : list nat) : forall s,
  pageDisabled (fold_left (fun s _ => onProgressNew p s) ls s)
  = pageDisabled s
  /\ endX (fold_left (fun s _ => onProgressNew p s) ls s) = endX s
  /\ frames (fold_left (fun s _ => onProgressNew p s) ls s) = frames s
  /\ listeners (fold_left (fun s _ => onProgressNew p s) ls s) = listeners s
  /\ effectCleanup (fold_left (fun s _ => onProgressNew p s) ls s)
     = effectCleanup s
  /\ inflight (fold_left (fun s _ => onProgressNew p s) ls s) = inflight s.
Proof.
  induction ls as [|l ls IH]; intros s; [repeat split|].
  simpl. destruct (IH (onProgressNew p s)) as (-> & -> & -> & -> & -> & ->).
  repeat split.
Qed.

Lemma handle_invariants s ev :
  subscription s -> guarded s -> clearedWhileDisabled s ->
  subscription (handle ev s)
  /\ guarded (handle ev s)
  /\ clearedWhileDisabled (handle ev s).
Proof.
  intros Hsub Hg Hc. destruct ev as [v|p|id o]; unfold handle.
  - apply setPageDisabled_invariants; assumption.
  - destruct (progress_components p (listeners s) s)
      as (Hp & He & Hfr & Hls & Hcl & Hin).
    split; [|split].
    + unfold subscription. rewrite Hp, Hls, Hcl. exact Hsub.
    + unfold guarded, frameCanceled. rewrite Hcl, Hin, Hfr. exact Hg.
    + intros Hdis. rewrite Hp in Hdis.
      unfold subscription in Hsub. rewrite Hdis in Hsub.
      destruct Hsub as [Hnone _]. rewrite Hnone. simpl. apply Hc, Hdis.
  - unfold settle.
    destruct (List.find _ (inflight s)) as [r|] eqn:Hfind; [|tauto].
    apply find_some in Hfind as [Hr _].
    match goal with
    | |- context [setInflight ?l ?n s] => set (s1 := setInflight l n s)
    end.
    assert (H1 : subscription s1 /\ guarded s1 /\ clearedWhileDisabled s1).
    { split; [exact Hsub|]. split; [|exact Hc].
      destruct Hg as [Hown Hreq]. split; [exact Hown|].
      intros r' Hr'. simpl in Hr'. apply filter_In in Hr' as [Hr' _].
      apply (Hreq r' Hr'). }
    destruct o as [value|]; [|exact H1].
    destruct (frameCanceled (req_frame r) s1) eqn:Hcan; [exact H1|].
    split; [exact Hsub|]. split; [apply H1|].
    intros Hdis. exfalso.
    change (pageDisabled (dispatch _ _)) with (pageDisabled s) in Hdis.
    unfold subscription in Hsub. rewrite Hdis in Hsub.
    destruct Hsub as [_ Hcl].
    destruct Hg as [_ Hreq].
    destruct (Hreq r Hr) as [[l Hcur]|Hcan']; [congruence|].
    change (frameCanceled (req_frame r) s1)
      with (frameCanceled (req_frame r) s) in Hcan.
    congruence.
Qed.

Lemma step_invariants s ev :
  subscription s -> guarded s -> clearedWhileDisabled s ->
  subscription (step s ev)
  /\ guarded (step s ev)
  /\ clearedWhileDisabled (step s ev).
Proof.
  intros Hsub Hg Hc. unfold step.
  destruct (handle_invariants s ev Hsub Hg Hc) as (H1 & H2 & H3).
  split; [apply render_subscription, H1|].
  split; [apply render_guarded, H2 | apply render_cleared, H3].
Qed.

Lemma train_reached v events :
  subscription (run events (mount v))
  /\ guarded (run events (mount v))
  /\ clearedWhileDisabled (run events (mount v))
  /\ memoLength (run events (mount v))
     = length (confidencePoints (run events (mount v))).
Proof.
  induction events as [|ev rest IH] using rev_ind.
  - unfold run, mount. simpl fold_left.
    split; [|split; [|split]]; [| | |apply render_in_sync].
    + apply render_subscription. destruct v; simpl.
      * split; reflexivity.
      * eexists _, _. split; reflexivity.
    + apply render_guarded. destruct v; simpl.
      * split; [intros f l [=] | intros r []].
      * split.
        -- intros f l [= <- <-]. simpl. lia.
        -- intros r [<-|[]]. left. eexists. reflexivity.
    + apply render_cleared. destruct v; simpl.
      * intros _. split; reflexivity.
      * discriminate.
  - unfold run. rewrite fold_left_app. cbn [fold_left].
    destruct IH as (H1 & H2 & H3 & _).
    destruct (step_invariants _ ev H1 H2 H3) as (H1' & H2' & H3').
    split; [exact H1'|]. split; [exact H2'|]. split; [exact H3'|].
    apply render_in_sync.
Qed.

Lemma settle_pageDisabled id o s :
  pageDisabled (settle id o s) = pageDisabled s.
Proof. unfold settle. repeat break_match; reflexivity. Qed.

Lemma step_keeps_pageDisabled s ev :
  (forall v, ev <> SetPageDisabled v) ->
  pageDisabled (step s ev) = pageDisabled s.
Proof.
  intros Hev. unfold step.
  destruct (render_components (handle ev s)) as (-> & _).
  destruct ev as [v|p|id o]; [destruct (Hev v eq_refl)| |]; unfold handle.
  - apply progress_components.
  - apply settle_pageDisabled.
Qed.

(** X19.  A disabled Train page shows the empty graph, in every state it
    reaches: the sequence is the single origin point and the end of the
    axis is 0, nothing listens to the stream of points, so a new point is
    not added, and no answer to a [get_train_progress] brings its snapshot
    in. *)
Theorem disabled_train_page_shows_the_empty_graph v events :
  pageDisabled (run events (mount v)) = true ->
  confidencePoints (run events (mount v))
  = [{| Train.x := 0; Train.y := 0 |}]
  /\ endX (run events (mount v)) = 0
  /\ listeners (run events (mount v)) = []
  /\ (forall p,
        confidencePoints (step (run events (mount v)) (ProgressNew p))
        = [{| Train.x := 0; Train.y := 0 |}])
  /\ (forall id o,
        confidencePoints (step (run events (mount v)) (Settled id o))
        = [{| Train.x := 0; Train.y := 0 |}]
        /\ endX (step (run events (mount v)) (Settled id o)) = 0).
Proof.
  intros Hdis. destruct (train_reached v events) as (Hsub & Hg & Hc & _).
  set (s := run events (mount v)) in *. clearbody s.
  destruct (Hc Hdis) as [Hpts He].
  split; [exact Hpts|]. split; [exact He|]. split.
  { unfold subscription in Hsub. rewrite Hdis in Hsub. apply Hsub. }
  split.
  - intros p.
    destruct (step_invariants s (ProgressNew p) Hsub Hg Hc) as (_ & _ & Hc').
    apply Hc'. rewrite step_keeps_pageDisabled by discriminate. exact Hdis.
  - intros id o.
    destruct (step_invariants s (Settled id o) Hsub Hg Hc) as (_ & _ & Hc').
    apply Hc'. rewrite step_keeps_pageDisabled by discriminate. exact Hdis.
Qed.

Lemma disabled_train_page_shows_the_empty_graph_witness :
  confidencePoints
    (step (run [ProgressNew {| Train.x := 1; Train.y := 40 |};
                SetPageDisabled true] (mount false))
          (Settled 0 (Fulfilled
             {| progress_endX := 100;
                progress_confidencePoints :=
                  [{| Train.x := 2; Train.y := 30 |}] |})))
  = [{| Train.x := 0; Train.y := 0 |}].
Proof.
  destruct (disabled_train_page_shows_the_empty_graph false
              [ProgressNew {| Train.x := 1; Train.y := 40 |};
               SetPageDisabled true])
    as (_ & _ & _ & _ & Hsettled); [vm_compute; reflexivity|].
  apply Hsettled.
Defined.

(** *** The latest confidence *)






End TrainPageFacts.

(** ** The Data page *)

Module DataFacts.
Import Data.

Lemma step_oneLoad s ev : oneLoad s -> oneLoad (step s ev).
Proof.
  intros Hone. destruct ev as [v| |id o]; unfold step.
  - exact Hone.
  - destruct (disabled s) eqn:Hdis; [exact Hone|].
    unfold disabled in Hdis. apply orb_false_iff in Hdis as [_ Hl].
    destruct Hone as [[_ Hnone]|[Hup _]]; [|congruence].
    right. unfold handleClickLoad. simpl. rewrite Hnone. simpl.
    rewrite Nat.sub_0_r. repeat split. lia.
  - unfold settle.
    destruct (existsb (Nat.eqb id) (inflight s)) eqn:E; [|exact Hone].
    left. split; [reflexivity|]. simpl.
    destruct Hone as [[_ Hnone]|(_ & Hin & _)].
    + rewrite Hnone in E. discriminate.
    + set (k := (nextRequest s - 1)%nat) in *. clearbody k.
      rewrite Hin in *. cbn [existsb] in E. rewrite orb_false_r in E.
      apply Nat.eqb_eq in E. subst id. cbn [List.filter].
      rewrite Nat.eqb_refl. reflexivity.
Qed.

Lemma data_reached v events : oneLoad (run events (initial v)).
Proof.
  induction events as [|ev rest IH] using rev_ind.
  - left. split; reflexivity.
  - unfold run. rewrite fold_left_app. cbn [fold_left].
    apply step_oneLoad, IH.
Qed.

(** X21.  In every state the Data page reaches at most one [load_data] is
    pending, and the loading flag is up exactly while one is.  While it is
    up, as while the page is disabled, a click on the button does nothing;
    when the pending call settles, fulfilled or rejected, the flag goes
    down. *)
Theorem one_load_at_a_time v events :
  (loading (run events (initial v)) = true
   <-> inflight (run events (initial v)) <> [])
  /\ (length (inflight (run events (initial v))) <= 1)%nat
  /\ (disabled (run events (initial v)) = true ->
      step (run events (initial v)) ClickLoad = run events (initial v))
  /\ (forall id o,
        In id (inflight (run events (initial v))) ->
        loading (step (run events (initial v)) (Settled id o)) = false
        /\ inflight (step (run events (initial v)) (Settled id o)) = []).
Proof.
  pose proof (data_reached v events) as Hone.
  set (s := run events (initial v)) in *. clearbody s.
  split; [|split; [|split]].
  - destruct Hone as [[-> ->]|(-> & -> & _)]; split;
      congruence || discriminate.
  - destruct Hone as [[_ ->]|(_ & -> & _)]; simpl; lia.
  - intros Hdis. unfold step. rewrite Hdis. reflexivity.
  - intros id o Hin. unfold step, settle.
    destruct Hone as [[_ Hnone]|(_ & Hone & _)].
    + rewrite Hnone in Hin. destruct Hin.
    + set (k := (nextRequest s - 1)%nat) in *. clearbody k.
      rewrite Hone in *. destruct Hin as [<-|[]].
      cbn [existsb]. rewrite Nat.eqb_refl. cbn [orb].
      cbn [loading inflight setLoading List.filter].
      rewrite Nat.eqb_refl. split; reflexivity.
Qed.

Lemma one_load_at_a_time_witness :
  step (run [ClickLoad] (initial false)) ClickLoad
  = run [ClickLoad] (initial false)
  /\ loading (step (run [ClickLoad] (initial false)) (Settled 0 false))
     = false.
Proof.
  destruct (one_load_at_a_time false [ClickLoad]) as (_ & _ & Hbusy & Hsettle).
  split.
  - exact (Hbusy eq_refl).
  - exact (proj1 (Hsettle 0%nat false (or_introl eq_refl))).
Defined.

End DataFacts.
